(** * HashVault pool dashboard: formatting utilities, block visualisations
      and the dashboard page, embedded from the TypeScript sources

    The embedding:
    - [JS]: the JavaScript built-ins the sources call on numbers, strings
      and arrays (binary64 numbers, [toFixed], [Number::toString], [%],
      [Math.floor], [Math.min], [slice], [padStart]).
    - [Formatters]: [src/client/lib/formatters.ts], lines 1-21.
    - [ChainVisual]: [src/client/lib/formatters.ts], lines 23-437 (the
      full chain visualisation).
    - [BlockVisualizer]: [src/client/components/pool/BlockVisualizer.tsx]
      (the compact block feed).
    - [Index]: [src/client/pages/Index.tsx] (the dashboard page).

    The properties:
    - [NumberFacts], [StringFacts], [BuiltinExamples]: the built-ins.
    - [FormattersFacts], [ChainVisualFacts], [BlockVisualizerFacts],
      [IndexFacts]: the components.
    - [ChainLayoutFacts], [ChainDelayFacts], [BlockCardFacts],
      [CompactFeedLayoutFacts], [HashPreviewFacts], [EffortTextFacts],
      [MeterFacts], [ProgressBarFacts], [PriceChangeFacts],
      [DefaultsFacts], [LoadingFacts], [MinersFacts]: what the components
      render at the edges of their inputs (absent, zero, NaN, short or long
      lists and strings).
    - [IntegerFacts], [DigitsFacts], [IntegerStringFacts], [FloorFacts],
      [RemainderFacts], [ExactFacts]: binary64 arithmetic on whole numbers
      (exact products and differences, floor of a quotient, remainder, the
      decimal numeral), from [SpecFloat]'s algorithms.
    - [WindowFacts], [TimeAgoFacts], [AmountFacts], [EtaFacts],
      [HashRateFacts], [ChartTooltipFacts]: the texts displayed for whole
      inputs, as integer arithmetic.

    A JavaScript number is an IEEE 754 binary64 value: it is embedded as
    Rocq's primitive [float], whose operations are the processor's.  A
    component is embedded as the function from its props to what it renders:
    a record of the texts, classes and flags that depend on the props.
    What the host provides (the locale's number and time formats, the
    clock) is a parameter. *)

From Stdlib Require Import ZArith List String Ascii Bool Lia.
From Stdlib Require Import Floats.
From Stdlib Require Uint63.
Import ListNotations.

Set Warnings "-inexact-float".

Local Open Scope string_scope.

(* ================================================================== *)
(** * JavaScript built-ins *)
(* ================================================================== *)

Module JS.

(** The Number type. *)
Definition number : Set := float.
Bind Scope float_scope with number.

(** [ToBoolean] on a number: [+0], [-0] and [NaN] are falsy. *)
Definition truthy (x : number) : bool := negb (is_zero x || is_nan x).

(** [a || b] on numbers. *)
Definition or_else (a b : number) : number := if truthy a then a else b.

(** [!x] where [x] may be absent: [undefined] is falsy too. *)
Definition is_falsy (x : option number) : bool :=
  match x with
  | Some v => negb (truthy v)
  | None => true
  end.

(** [a >= b] and [a > b]. *)
Definition geb (a b : number) : bool := (b <=? a)%float.
Definition gtb (a b : number) : bool := (b <? a)%float.

(** The Number of an array length or index (exact below [2^53]). *)
Definition of_nat (n : nat) : number := of_uint63 (Uint63.of_Z (Z.of_nat n)).

(** The Number of an integer of magnitude below [2^53] (exact there). *)
Definition of_int (z : Z) : number :=
  if (z <? 0)%Z then (- of_uint63 (Uint63.of_Z (- z)))%float
  else of_uint63 (Uint63.of_Z z).

(** ** Decimal digits *)

Definition digit (d : Z) : ascii := ascii_of_nat (48 + Z.to_nat (d mod 10)).

Fixpoint digits_from (fuel : nat) (n : Z) (acc : string) : string :=
  match fuel with
  | O => acc
  | S fuel' =>
      let acc' := String (digit n) acc in
      if (n / 10 =? 0)%Z then acc' else digits_from fuel' (n / 10) acc'
  end.

(** The decimal representation of a natural number ([0] is ["0"]). *)
Definition digits (n : Z) : string :=
  digits_from (S (Z.to_nat (Z.log2 n))) n "".

(** The [w] lowest decimal digits of [n], most significant first. *)
Fixpoint fixed_digits (w : nat) (n : Z) : string :=
  match w with
  | O => ""
  | S w' => fixed_digits w' (n / 10) ++ String (digit n) ""
  end.

Fixpoint zeros (n : nat) : string :=
  match n with
  | O => ""
  | S n' => String "0" (zeros n')
  end.

Definition pow10 (n : nat) : Z := 10 ^ Z.of_nat n.

(** ** [Number::toString] (radix 10)

    For a finite positive [x = m * 2^e] the specification asks for integers
    [n], [k], [s] with [10^(k-1) <= s < 10^k], such that [s * 10^(n-k)]
    converts to [x], [k] as small as possible, and [s] closest to [x] among
    those.  The decimals that convert to [x] are those of its rounding
    interval, which [rounding_interval] gives as [(L, X, H, g)]: the
    interval from [L * 2^g] to [H * 2^g] around [x = X * 2^g], its ends
    included when [m] is even. *)

Definition rounding_interval (m : positive) (e : Z) : Z * Z * Z * Z :=
  if ((Zpos m =? 2 ^ 52) && (-1074 <? e))%Z
  then (4 * Zpos m - 1, 4 * Zpos m, 4 * Zpos m + 2, e - 2)%Z
  else (2 * Zpos m - 1, 2 * Zpos m, 2 * Zpos m + 1, e - 1)%Z.

(** The multiple [s * 10^p] of [10^p] closest to [x] inside the rounding
    interval, if there is one. *)
Definition candidate_at (m : positive) (e : Z) (p : Z) : option Z :=
  let '(L, X, H, g) := rounding_interval m e in
  let A := (10 ^ Z.max p 0 * 2 ^ Z.max (- g) 0)%Z in
  let B := (2 ^ Z.max g 0 * 10 ^ Z.max (- p) 0)%Z in
  let inside s :=
    if Z.even (Zpos m) then ((L * B <=? s * A) && (s * A <=? H * B))%Z
    else ((L * B <? s * A) && (s * A <? H * B))%Z in
  let s_lo := (X * B / A)%Z in
  let s_hi := (s_lo + 1)%Z in
  match inside s_lo, inside s_hi with
  | true, true =>
      match (X * B - s_lo * A ?= s_hi * A - X * B)%Z with
      | Lt => Some s_lo
      | Gt => Some s_hi
      | Eq => Some (if Z.even s_lo then s_lo else s_hi)
      end
  | true, false => Some s_lo
  | false, true => Some s_hi
  | false, false => None
  end.

(** The search goes down from a power of ten above [x]; the first hit has
    the fewest digits. *)
Fixpoint shortest_from (fuel : nat) (m : positive) (e : Z) (p : Z) : Z * Z :=
  match fuel with
  | O => (Zpos m, e)
  | S fuel' =>
      match candidate_at m e p with
      | Some s => (s, p)
      | None => shortest_from fuel' m e (p - 1)
      end
  end.

Definition shortest (m : positive) (e : Z) : Z * Z :=
  let bits := (Z.log2 (Zpos m) + e + 1)%Z in
  shortest_from 40 m e (bits * 30103 / 100000 + 2).

Definition positive_toString (m : positive) (e : Z) : string :=
  let '(s, p) := shortest m e in
  let ds := digits s in
  let k := Z.of_nat (String.length ds) in
  let n := (k + p)%Z in
  if ((k <=? n) && (n <=? 21))%Z then
    ds ++ zeros (Z.to_nat (n - k))
  else if ((0 <? n) && (n <=? 21))%Z then
    substring 0 (Z.to_nat n) ds ++ "." ++
    substring (Z.to_nat n) (Z.to_nat (k - n)) ds
  else if ((-6 <? n) && (n <=? 0))%Z then
    "0." ++ zeros (Z.to_nat (- n)) ++ ds
  else
    let ex := (n - 1)%Z in
    let sign := if (ex <? 0)%Z then "-" else "+" in
    let mant :=
      if (k =? 1)%Z then ds
      else substring 0 1 ds ++ "." ++ substring 1 (Z.to_nat (k - 1)) ds in
    mant ++ "e" ++ sign ++ digits (Z.abs ex).

(** [String(x)], [`${x}`] and a number rendered as a React child. *)
Definition toString (x : number) : string :=
  match Prim2SF x with
  | S754_nan => "NaN"
  | S754_zero _ => "0"
  | S754_infinity s => if s then "-Infinity" else "Infinity"
  | S754_finite s m e =>
      (if s then "-" else "") ++ positive_toString m e
  end.

(** ** [Number.prototype.toFixed]

    [nearest_scaled f m e] is the integer [n] for which [n / 10^f] is
    closest to [m * 2^e], the larger one of two equally close. *)
Definition nearest_scaled (f : nat) (m : positive) (e : Z) : Z :=
  match e with
  | Zneg p => ((2 * Zpos m * pow10 f + 2 ^ Zpos p) / 2 ^ (Zpos p + 1))%Z
  | _ => (Zpos m * 2 ^ e * pow10 f)%Z
  end.

(** [n] written with [f] digits after the point. *)
Definition fixed_string (f : nat) (n : Z) : string :=
  match f with
  | O => digits n
  | _ => digits (n / pow10 f) ++ "." ++ fixed_digits f n
  end.

(** [x.toFixed(f)], for the [0 <= f <= 100] of every call in the sources. *)
Definition toFixed (x : number) (f : nat) : string :=
  match Prim2SF x with
  | S754_nan => "NaN"
  | S754_infinity s => if s then "-Infinity" else "Infinity"
  | S754_zero _ => fixed_string f 0
  | S754_finite s m e =>
      (if s then "-" else "") ++
      (if geb (abs x) 1e21%float then positive_toString m e
       else fixed_string f (nearest_scaled f m e))
  end.

(** ** The shape of a numeral *)

Definition is_digit (c : ascii) : bool :=
  (48 <=? nat_of_ascii c)%nat && (nat_of_ascii c <=? 57)%nat.

Fixpoint all_digits (s : string) : bool :=
  match s with
  | EmptyString => true
  | String c rest => is_digit c && all_digits rest
  end.

(** The number a numeral reads back as. *)
Definition digit_value (c : ascii) : Z := (Z.of_nat (nat_of_ascii c) - 48)%Z.

Fixpoint read_from (acc : Z) (s : string) : Z :=
  match s with
  | EmptyString => acc
  | String c rest => read_from (10 * acc + digit_value c) rest
  end.

Definition numeral_value (s : string) : Z := read_from 0 s.

(** [s] is a numeral with exactly [f] digits after its decimal point. *)
Definition decimals_exactly (f : nat) (s : string) : Prop :=
  exists whole frac,
    s = whole ++ "." ++ frac /\ String.length frac = f /\ all_digits frac = true.

(** ** [Math.floor] and [Math.min] *)

Definition Math_floor (x : number) : number :=
  match Prim2SF x with
  | S754_finite false m (Zneg p) => of_int (Zpos m / 2 ^ Zpos p)
  | S754_finite true m (Zneg p) =>
      of_int (- ((Zpos m + 2 ^ Zpos p - 1) / 2 ^ Zpos p))
  | _ => x
  end.

Definition Math_min (a b : number) : number :=
  if is_nan a || is_nan b then nan
  else if (a <? b)%float then a
  else if (b <? a)%float then b
  else if get_sign a then a else b.

(** The Number nearest to [z * 2^e]. *)
Definition of_scaled (z e : Z) : number :=
  SF2Prim (binary_normalize prec emax z e false).

(** [x % y]: the remainder of the truncated division, with the sign of
    [x]; it is exact. *)
Definition remainder (x y : number) : number :=
  match Prim2SF x, Prim2SF y with
  | S754_nan, _ | _, S754_nan => nan
  | S754_infinity _, _ => nan
  | _, S754_zero _ => nan
  | S754_zero _, _ => x
  | S754_finite _ _ _, S754_infinity _ => x
  | S754_finite sx mx ex, S754_finite _ my ey =>
      let e0 := Z.min ex ey in
      let X := (Zpos mx * 2 ^ (ex - e0))%Z in
      let Y := (Zpos my * 2 ^ (ey - e0))%Z in
      if sx then (- of_scaled (X mod Y) e0)%float else of_scaled (X mod Y) e0
  end.

(** ** Strings *)

(** [s.slice(0, n)] and [s.slice(-n)]. *)
Definition prefix_chars (n : nat) (s : string) : string := substring 0 n s.

Definition suffix_chars (n : nat) (s : string) : string :=
  substring (String.length s - n) n s.

(** [s.padStart(n, '0')]. *)
Definition padStart_zeros (n : nat) (s : string) : string :=
  zeros (n - String.length s) ++ s.

(** [a || b] on strings: the empty string is falsy. *)
Definition string_or_else (a b : string) : string :=
  if String.eqb a "" then b else a.

(** [a || b] where [a] is a string or [undefined], as [x?.m()] gives. *)
Definition optional_string_or_else (a : option string) (b : string)
  : string :=
  match a with
  | Some a => string_or_else a b
  | None => b
  end.

(** The decimal numeral of an integer. *)
Definition numeral (z : Z) : string :=
  (if (z <? 0)%Z then "-" else "") ++ digits (Z.abs z).

(** ** [undefined] and [null]

    A numeric prop or response field can be missing in two ways, and the
    sources tell them apart in two places: a destructuring default
    ([{ currentEffort = 0 }]) and a test [!== undefined] apply to
    [undefined] only, while [?.], [||], [&&] and [!] treat [null] as they
    treat [undefined].  A JSON response has no [undefined] but can hold
    [null].  Where every read of a value is of the second kind, the value is
    an [option] whose [None] stands for both. *)
Inductive nullable : Set :=
| Undefined
| Null
| Num (v : number).

(** [{ x = d }] in a parameter pattern: the default replaces [undefined]
    only. *)
Definition with_default (x : nullable) (d : number) : nullable :=
  match x with
  | Undefined => Num d
  | _ => x
  end.

(** A value as [?.], [||] and [&&] see it. *)
Definition nullish (x : nullable) : option number :=
  match x with
  | Num v => Some v
  | _ => None
  end.

(** [ToNumber], as [Math.abs] applies it to its argument: [null] is [+0]
    and [undefined] is NaN. *)
Definition to_number (x : nullable) : number :=
  match x with
  | Num v => v
  | Null => 0%float
  | Undefined => nan
  end.

(** ** Arrays *)

(** [xs.slice(0, n)]. *)
Definition slice_to {A} (n : nat) (xs : list A) : list A := firstn n xs.

(** [xs.slice(-n)]: the last [n] elements, all of them when there are
    fewer. *)
Definition slice_last {A} (n : nat) (xs : list A) : list A :=
  skipn (List.length xs - n) xs.

End JS.

(* ================================================================== *)
(** * [src/client/lib/formatters.ts], lines 1-21: the exported formatters *)
(* ================================================================== *)

Module Formatters.
Import JS.

(** An argument of type [number | null | undefined]: [None] is the absent
    value. *)

Definition formatHashRate (hash : option number) : string :=
  match hash with
  | None => "0 H/s"
  | Some hash =>
      if negb (truthy hash) then "0 H/s"
      else if geb hash 1e12 then toFixed (hash / 1e12) 2 ++ " TH/s"
      else if geb hash 1e9 then toFixed (hash / 1e9) 2 ++ " GH/s"
      else if geb hash 1e6 then toFixed (hash / 1e6) 2 ++ " MH/s"
      else if geb hash 1e3 then toFixed (hash / 1e3) 2 ++ " KH/s"
      else toFixed hash 2 ++ " H/s"
  end.

(** The unit selection in the specification's words: the thresholds from the
    largest down, of which the first one met is the largest one met. *)
Definition units : list (number * string) :=
  [ (1e12, " TH/s"); (1e9, " GH/s"); (1e6, " MH/s"); (1e3, " KH/s") ]%float.

Definition largest_unit_met (hash : number) : option (number * string) :=
  find (fun unit => geb hash (fst unit)) units.

(** [formatHashRate] in the specification's words: ["0 H/s"] for an absent
    or zero value, otherwise the quotient by the largest threshold met, or
    the raw value, with two decimals. *)
Definition formatHashRate_described (hash : option number) : string :=
  match hash with
  | None => "0 H/s"
  | Some hash =>
      if is_zero hash then "0 H/s"
      else
        match largest_unit_met hash with
        | Some (threshold, unit) => toFixed (hash / threshold) 2 ++ unit
        | None => toFixed hash 2 ++ " H/s"
        end
  end.

Section Locale.
(** [num.toLocaleString()] depends on the host's locale. *)
Variable toLocaleString : number -> string.

Definition formatNumber (num : option number) : string :=
  match num with
  | None => "0"
  | Some num => if negb (truthy num) then "0" else toLocaleString num
  end.
End Locale.

Definition formatXMR (atomic : option number) : string :=
  match atomic with
  | None => "0"
  | Some atomic =>
      if negb (truthy atomic) then "0" else toFixed (atomic / 1e12) 8
  end.

End Formatters.

(* ================================================================== *)
(** * [src/client/lib/formatters.ts], lines 23-437: the full chain
      visualisation *)
(* ================================================================== *)

Module ChainVisual.
Import JS.

(** The component's own [formatXMR], with 4 decimals. *)
Definition formatXMR (atomic : option number) : string :=
  match atomic with
  | None => "0"
  | Some atomic =>
      if negb (truthy atomic) then "0" else toFixed (atomic / 1e12) 4
  end.

Record Block : Set := {
  hash : string;
  height : number;
  ts : number;
  difficulty : option number;
  value : number;
  fee : number;
  effort : option number;
  solo : option bool
}.

(** [x || 0] for an optional field. *)
Definition or_zero (x : option number) : number :=
  match x with
  | Some v => or_else v 0
  | None => 0%float
  end.

(** [x ?? 0] for an optional field. *)
Definition nullish_zero (x : option number) : number :=
  match x with
  | Some v => v
  | None => 0%float
  end.

Section Host.
(** [num.toLocaleString()] and [Date.now()] come from the host. *)
Variable toLocaleString : number -> string.
Variable now : number.

Definition formatNumber (num : option number) : string :=
  match num with
  | None => "0"
  | Some num => if negb (truthy num) then "0" else toLocaleString num
  end.

Definition formatTimeAgo (ts : number) : string :=
  let seconds := Math_floor ((now - ts * 1000) / 1000) in
  if (seconds <? 60)%float then toString seconds ++ "s ago"
  else if (seconds <? 3600)%float
    then toString (Math_floor (seconds / 60)) ++ "m ago"
  else if (seconds <? 86400)%float
    then toString (Math_floor (seconds / 3600)) ++ "h ago"
  else toString (Math_floor (seconds / 86400)) ++ "d ago".

(** ** [BlockCard] *)

Definition effortColor (effort : number) : string :=
  if (effort <? 50)%float then "from-green-500 to-green-600"
  else if (effort <? 100)%float then "from-cyan-500 to-blue-500"
  else if (effort <? 150)%float then "from-orange-500 to-amber-500"
  else "from-red-500 to-pink-500".

Definition effortBorder (effort : number) : string :=
  if (effort <? 50)%float then "border-green-500/50"
  else if (effort <? 100)%float then "border-cyan-500/50"
  else if (effort <? 150)%float then "border-orange-500/50"
  else "border-red-500/50".

Definition effortGlow (effort : number) : string :=
  if (effort <? 50)%float then "shadow-green-500/30"
  else if (effort <? 100)%float then "shadow-cyan-500/30"
  else if (effort <? 150)%float then "shadow-orange-500/30"
  else "shadow-red-500/30".

(** The effort tiers in the specification's words: closed below and open
    above at 50, 100 and 150.  NaN is in no tier. *)
Inductive Tier : Set := Green | Cyan | Orange | Red.

Definition tier_of (effort : number) : option Tier :=
  if (effort <? 50)%float then Some Green
  else if (50 <=? effort)%float && (effort <? 100)%float then Some Cyan
  else if (100 <=? effort)%float && (effort <? 150)%float then Some Orange
  else if (150 <=? effort)%float then Some Red
  else None.

(** The border, fill gradient and glow of a tier. *)
Definition tier_classes (t : Tier) : string * string * string :=
  match t with
  | Green => ("border-green-500/50", "from-green-500 to-green-600",
              "shadow-green-500/30")
  | Cyan => ("border-cyan-500/50", "from-cyan-500 to-blue-500",
             "shadow-cyan-500/30")
  | Orange => ("border-orange-500/50", "from-orange-500 to-amber-500",
               "shadow-orange-500/30")
  | Red => ("border-red-500/50", "from-red-500 to-pink-500",
            "shadow-red-500/30")
  end.

(** What a card shows, and the classes that depend on the block. *)
Record Card : Set := {
  card_border : string;
  card_gradient : string;
  card_glow : string;
  card_animationDelay : string;
  card_height : string;
  card_badge : string;
  card_effortClass : string;
  card_effort : string;
  card_reward : string;
  card_age : string;
  card_hash : string;
  card_latest : bool;
  card_connector : bool
}.

Definition BlockCard (block : Block) (index : nat) (isLatest : bool) : Card :=
  let effort := or_zero (effort block) in
  let isSolo :=
    match solo block with Some true => true | _ => false end in
  {| card_border := effortBorder effort;
     card_gradient := effortColor effort;
     card_glow := effortGlow effort;
     card_animationDelay := toString (of_nat index * 0.1) ++ "s";
     card_height := "#" ++ formatNumber (Some (height block));
     card_badge := if isSolo then "SOLO" else "POOL";
     card_effortClass :=
       if (effort <? 100)%float then "text-green-400" else "text-orange-400";
     card_effort := toFixed effort 1 ++ "%";
     card_reward := formatXMR (Some (value block));
     card_age := formatTimeAgo (ts block);
     card_hash := prefix_chars 8 (hash block) ++ "...";
     card_latest := isLatest;
     card_connector := Nat.ltb index 5 |}.

(** ** [PendingBlock] *)

Definition estimatedSeconds (difficulty poolHashRate : number) : number :=
  if truthy difficulty && truthy poolHashRate
  then Math_floor (difficulty / poolHashRate)
  else 0%float.

Definition estimatedMinutes (difficulty poolHashRate : number) : number :=
  Math_floor (estimatedSeconds difficulty poolHashRate / 60).

Record Pending : Set := {
  pending_effort : string;
  pending_eta : string
}.

(** The current effort as line 237 writes it:
    [{currentEffort?.toFixed(1) || '0'}%]. *)
Definition pendingEffortText (currentEffort : nullable) : string :=
  optional_string_or_else
    (option_map (fun effort => toFixed effort 1) (nullish currentEffort)) "0"
  ++ "%".

(** The props default to [0] when absent; a [null] effort is not replaced
    by the default. *)
Definition PendingBlock (currentEffort : nullable)
    (difficulty poolHashRate : option number) : Pending :=
  let currentEffort := with_default currentEffort 0 in
  let difficulty := nullish_zero difficulty in
  let poolHashRate := nullish_zero poolHashRate in
  {| pending_effort := pendingEffortText currentEffort;
     pending_eta :=
       "~" ++ toString (estimatedMinutes difficulty poolHashRate) ++ "m ETA" |}.

(** ** [BlockchainVisual] *)

(** The cards: [blocks?.slice(0, 6).map(...)]. *)
Fixpoint cards_from (index : nat) (blocks : list Block) : list Card :=
  match blocks with
  | [] => []
  | b :: rest => BlockCard b index (Nat.eqb index 0) :: cards_from (S index) rest
  end.

Definition cards (blocks : option (list Block)) : list Card :=
  match blocks with
  | None => []
  | Some blocks => cards_from 0 (slice_to 6 blocks)
  end.

(** The stats bar.  [Math.min(blocks.length, 10)] is taken on the length
    itself: an array length is an integer below [2^32], exact as a
    Number. *)
Definition sampleCount (blocks : list Block) : nat :=
  Nat.min (List.length blocks) 10.

Definition sumEffort (blocks : list Block) : number :=
  fold_left (fun acc b => (acc + or_zero (effort b))%float)
    (slice_to 10 blocks) 0%float.

Definition sumValue (blocks : list Block) : number :=
  fold_left (fun acc b => (acc + or_else (value b) 0)%float)
    (slice_to 10 blocks) 0%float.

(** [blocks && blocks.slice(0, 10).length > 0]. *)
Definition hasSample (blocks : option (list Block)) : bool :=
  match blocks with
  | None => false
  | Some blocks => Nat.ltb 0 (List.length (slice_to 10 blocks))
  end.

Definition latestHeight (blocks : option (list Block)) : string :=
  match blocks with
  | Some (b :: _) =>
      if truthy (height b) then formatNumber (Some (height b)) else "-"
  | _ => "-"
  end.

Definition avgEffort (blocks : option (list Block)) : string :=
  match blocks with
  | Some bs =>
      if Nat.ltb 0 (List.length (slice_to 10 bs))
      then toFixed (sumEffort bs / of_nat (sampleCount bs)) 1
      else "0"
  | None => "0"
  end ++ "%".

Definition avgReward (blocks : option (list Block)) : string :=
  match blocks with
  | Some bs =>
      if Nat.ltb 0 (List.length (slice_to 10 bs))
      then formatXMR (Some (sumValue bs / of_nat (sampleCount bs))%float)
      else "0"
  | None => "0"
  end.

Definition lastFound (blocks : option (list Block)) : string :=
  match blocks with
  | Some (b :: _) => formatTimeAgo (ts b)
  | _ => "-"
  end.

Record Stats : Set := {
  stat_latestHeight : string;
  stat_avgEffort : string;
  stat_avgReward : string;
  stat_lastFound : string
}.

Record View : Set := {
  view_pending : Pending;
  view_cards : list Card;
  view_stats : Stats
}.

Definition BlockchainVisual
    (blocks : option (list Block)) (currentEffort : nullable)
    (networkDifficulty poolHashRate : option number) : View :=
  let currentEffort := with_default currentEffort 0 in
  let networkDifficulty := nullish_zero networkDifficulty in
  let poolHashRate := nullish_zero poolHashRate in
  {| view_pending :=
       PendingBlock currentEffort (Some networkDifficulty)
         (Some poolHashRate);
     view_cards := cards blocks;
     view_stats :=
       {| stat_latestHeight := latestHeight blocks;
          stat_avgEffort := avgEffort blocks;
          stat_avgReward := avgReward blocks;
          stat_lastFound := lastFound blocks |} |}.

End Host.

End ChainVisual.

(* ================================================================== *)
(** * [src/client/components/pool/BlockVisualizer.tsx]: the compact
      block feed *)
(* ================================================================== *)

Module BlockVisualizer.
Import JS.

Record Block : Set := {
  hash : string;
  height : number;
  ts : number;
  difficulty : number;
  reward : number;
  fee : number
}.

(** [BlockVisualizerProps]: every prop may be absent ([undefined]); the
    current effort may also be [null], which line 50 tells from a number. *)
Record Props : Set := {
  blocks : option (list Block);
  currentEffort : nullable;
  networkDifficulty : option number;
  poolHashRate : option number
}.

Record Row : Set := {
  row_height : string;
  row_time : string;
  row_hash : string;
  row_reward : string;
  row_fee : string;
  row_justFound : bool
}.

Inductive Feed : Set :=
| FeedRows (rows : list Row)
| FeedEmpty (message : string).

Record Panel : Set := {
  panel_effort : string;
  panel_barWidth : string;
  panel_feed : Feed;
  panel_totalBlocks : string;
  panel_networkDiff : string;
  panel_poolHash : string
}.

(** What the component returns: the skeleton bars of the early return, or
    the panel. *)
Inductive View : Set :=
| Loading (bars : list nat)
| Loaded (panel : Panel).

(** The block progress as line 50 writes it:
    [{currentEffort?.toFixed(2) || '0'}%]. *)
Definition progressText (currentEffort : nullable) : string :=
  optional_string_or_else
    (option_map (fun effort => toFixed effort 2) (nullish currentEffort)) "0"
  ++ "%".

Section Host.
(** [num.toLocaleString()] and [new Date(ms).toLocaleTimeString()] come
    from the host. *)
Variable toLocaleString : number -> string.
Variable toLocaleTimeString : number -> string.

Fixpoint rows_from (index : nat) (blocks : list Block) : list Row :=
  match blocks with
  | [] => []
  | block :: rest =>
      {| row_height := "#" ++ toString (height block);
         row_time := toLocaleTimeString (ts block * 1000);
         row_hash := prefix_chars 16 (hash block) ++ "...";
         row_reward := Formatters.formatXMR (Some (reward block)) ++ " XMR";
         row_fee := "Fee: " ++ Formatters.formatXMR (Some (fee block));
         row_justFound := Nat.eqb index 0 |}
      :: rows_from (S index) rest
  end.

Definition BlockchainVisual (props : Props) : View :=
  (* the destructuring defaults: [blocks = []], [currentEffort = 0], ... *)
  let blocks : option (list Block) :=
    Some (match blocks props with Some bs => bs | None => [] end) in
  let currentEffort := with_default (currentEffort props) 0 in
  let networkDifficulty :=
    match networkDifficulty props with Some v => v | None => 0%float end in
  let poolHashRate :=
    match poolHashRate props with Some v => v | None => 0%float end in
  (* [blocks?.slice(0, 5) || []] *)
  let recentBlocks :=
    match blocks with Some bs => slice_to 5 bs | None => [] end in
  (* [Math.min((currentEffort || 0) / 100 * 100, 100)] *)
  let effortPercentage :=
    Math_min
      (match nullish currentEffort with
       | Some effort => or_else effort 0
       | None => 0%float
       end / 100 * 100) 100 in
  (* [blocks === undefined] *)
  let isLoading := match blocks with None => true | Some _ => false end in
  if isLoading then Loading [1; 2; 3]%nat
  else
    Loaded
      {| panel_effort := progressText currentEffort;
         panel_barWidth := toString (Math_min effortPercentage 100) ++ "%";
         panel_feed :=
           if Nat.ltb 0 (List.length recentBlocks)
           then FeedRows (rows_from 0 recentBlocks)
           else FeedEmpty "No blocks found yet";
         panel_totalBlocks :=
           Formatters.formatNumber toLocaleString
             (Some (of_nat (List.length recentBlocks)));
         panel_networkDiff :=
           Formatters.formatNumber toLocaleString (Some networkDifficulty);
         panel_poolHash :=
           Formatters.formatNumber toLocaleString (Some poolHashRate) |}.

End Host.

End BlockVisualizer.

(* ================================================================== *)
(** * [src/client/pages/Index.tsx]: the dashboard page *)
(* ================================================================== *)

Module Index.
Import JS.

(** ** The pool-statistics response.  Every field is read through [?.] or
       [||], so every field may be absent.  The current effort and the price
       changes are also passed where [null] is told from [undefined]. *)

Record BlockRef : Set := {
  ref_hash : option string;
  ref_height : option number;
  ref_value : option number
}.

Record MiningSegmentStats : Set := {
  hashRate : option number;
  miners : option number;
  currentEffort : nullable;
  overallEffort : option number;
  totalBlocksFound : option number;
  orphans : option number;
  pplnsWindowTime : option number;
  lastFoundBlock : option BlockRef
}.

Record PoolStatistics : Set := {
  collective : option MiningSegmentStats;
  solo : option MiningSegmentStats
}.

Record NetworkStatistics : Set := {
  net_height : option number;
  net_difficulty : option number;
  net_hash : option string;
  net_value : option number
}.

Record Market : Set := {
  price_usd : option number;
  price_btc : option number;
  price_eur : option number;
  percent_change_24h : nullable;
  percent_change_7d : nullable;
  market_cap_btc : option number;
  volume_24h_btc : option number
}.

Record BlockTemplate : Set := { template_difficulty : option number }.

Record Payout : Set := { minimum : option number }.

Record Config : Set := {
  pplns_fee : option number;
  payout : option Payout;
  maturity_depth : option number
}.

Record PoolStatsResponse : Set := {
  pool_statistics : option PoolStatistics;
  network_statistics : option NetworkStatistics;
  market : option Market;
  block_template : option BlockTemplate;
  config : option Config;
  online : option number
}.

(** ** The chart series *)

Record ChartPoint : Set := { ts : number; hs : number }.

Record ChartSeriesPoint : Set := { time : string; pool : number }.

(** The formatter of the chart's tooltip (line 504): the value in MH/s with
    two decimals, and the name of the series. *)
Definition tooltipFormatter (value : number) : string * string :=
  (toFixed value 2 ++ " MH/s", "Pool Hash Rate").

(** ** A [useQuery] result: the data of the last successful fetch, the
       loading flag, and the error of a failed one ([null] when none). *)
Record Query (A : Type) : Type := {
  data : option A;
  isLoading : bool;
  error : option string
}.
Arguments data {A} _.
Arguments isLoading {A} _.
Arguments error {A} _.

(** [a?.f] on optional records. *)
Definition opt {A B} (a : option A) (f : A -> option B) : option B :=
  match a with
  | Some x => f x
  | None => None
  end.

(** [a?.f] for a field that may hold [null]: [undefined] when [a] is
    absent. *)
Definition opt_field {A} (a : option A) (f : A -> nullable) : nullable :=
  match a with
  | Some x => f x
  | None => Undefined
  end.

(** [x || d] where [x] may be absent. *)
Definition or_default (x : option number) (d : number) : number :=
  match x with
  | Some v => or_else v d
  | None => d
  end.

Inductive Trend : Set := up | down.

(** The colour themes of the presentational components. *)
Inductive Color : Set := cyan | pink | green | orange | purple.

Definition color_name (c : Color) : string :=
  match c with
  | cyan => "cyan"
  | pink => "pink"
  | green => "green"
  | orange => "orange"
  | purple => "purple"
  end.

(** A panel's content, or its skeleton bars while the pool-statistics
    query is loading. *)
Inductive Loadable (A : Type) : Type :=
| Skeletons (keys : list nat)
| Ready (content : A).
Arguments Skeletons {A} _.
Arguments Ready {A} _.

(** The body of a [StatCard]: the skeleton while loading. *)
Inductive CardBody : Set :=
| CardSkeleton
| CardValue (value : string).

Record StatCardView : Set := {
  stat_label : string;
  stat_color : Color;
  stat_glow : bool;
  stat_body : CardBody;
  stat_sub : option (option Trend * string)
}.

Record MeterView : Set := {
  meter_label : string;
  meter_value : string;
  meter_valueClass : string;
  meter_barClass : string;
  meter_width : string
}.

(** A market row: the change, when given, is the arrow (with its colour)
    and the magnitude. *)
Record MarketItemView : Set := {
  item_label : string;
  item_value : string;
  item_change : option (Trend * string)
}.

Record NetworkPanel : Set := {
  net_panel_height : string;
  net_panel_difficulty : string;
  net_panel_hash : string;
  net_panel_reward : string;
  net_panel_template : string
}.

Record SegmentPanel : Set := {
  seg_blocksFound : string;
  seg_orphans : string;
  seg_currentEffort : MeterView;
  seg_overallEffort : MeterView;
  seg_detail : list (string * string);
  seg_lastHash : string;
  seg_lastHeight : string;
  seg_lastReward : string
}.

Inductive ChartSection : Set :=
| ChartSkeleton
| AreaChart (series : list ChartSeriesPoint).

Record ConfigPanel : Set := {
  cfg_algorithm : string;
  cfg_fee : string;
  cfg_minPayout : string;
  cfg_interval : string;
  cfg_maturity : string;
  cfg_online : string
}.

(** The page, by its data-dependent parts, in the order of the source. *)
Record Page : Set := {
  page_refreshSpinning : bool;
  page_clock : string;
  page_networkHash : StatCardView;
  page_poolHash : StatCardView;
  page_minersOnline : StatCardView;
  page_price : StatCardView;
  page_blocks : BlockVisualizer.View;
  page_network : Loadable NetworkPanel;
  page_pool : Loadable SegmentPanel;
  page_solo : Loadable SegmentPanel;
  page_chart : ChartSection;
  page_market : Loadable (list MarketItemView);
  page_config : ConfigPanel
}.

Inductive Screen : Set :=
| ErrorScreen (message : string) (action : string)
| Dashboard (page : Page).

(** ** The presentational components *)

Definition StatCard (label value : string) (subValue : option string)
    (trend : option Trend) (color : Color) (glow loading : bool)
  : StatCardView :=
  {| stat_label := label;
     stat_color := color;
     stat_glow := glow;
     stat_body := if loading then CardSkeleton else CardValue value;
     stat_sub :=
       match subValue with
       | Some sub =>
           if negb (String.eqb sub "") && negb loading
           then Some (trend, sub) else None
       | None => None
       end |}.

Definition EffortMeter (label : string) (value : option number) (color : Color)
  : MeterView :=
  let percentage := Math_min (or_default value 0) 200 in
  let isOver100 := gtb percentage 100 in
  {| meter_label := label;
     meter_value := toFixed (or_default value 0) 2 ++ "%";
     meter_valueClass :=
       if isOver100 then "text-orange-400 animate-pulse"
       else "text-" ++ color_name color ++ "-400";
     meter_barClass := "bg-" ++ color_name color ++ "-500";
     meter_width := toString (Math_min percentage 100) ++ "%" |}.

Definition MarketItem (label value : string) (change : nullable)
  : MarketItemView :=
  (* [change && change > 0] *)
  let isPositive :=
    match nullish change with
    | Some change => truthy change && gtb change 0
    | None => false
    end in
  {| item_label := label;
     item_value := value;
     item_change :=
       (* [change !== undefined && ...] *)
       match change with
       | Undefined => None
       | _ =>
           Some (if isPositive then up else down,
                 toFixed (abs (to_number change)) 2 ++ "%")
       end |}.

(** [{hash?.slice(0, 8)}...{hash?.slice(-8)}]. *)
Definition hashEnds (hash : option string) : string :=
  match hash with
  | Some h => prefix_chars 8 h ++ "..." ++ suffix_chars 8 h
  | None => "..."
  end.

Section Host.
(** Locale-dependent formatting and the clock come from the host:
    [num.toLocaleString()], [new Date(ms).toLocaleTimeString()],
    [new Date(ms).toLocaleTimeString([], {hour: '2-digit', minute:
    '2-digit'})], and the [time] state as displayed. *)
Variable toLocaleString : number -> string.
Variable toLocaleTimeString : number -> string.
Variable toLocaleHourMinute : number -> string.
Variable clock : string.

Definition processedChartData (chartData : option (list ChartPoint))
  : list ChartSeriesPoint :=
  match chartData with
  | Some points =>
      slice_last 48
        (map (fun point =>
                {| time := toLocaleHourMinute (ts point);
                   pool := (hs point / 1e6)%float |}) points)
  | None => []
  end.

Definition poolFee (poolData : option PoolStatsResponse) : number :=
  or_default (opt (opt poolData config) pplns_fee) 0.9.

Definition maturityDepth (poolData : option PoolStatsResponse) : number :=
  or_default (opt (opt poolData config) maturity_depth) 30.

(** [{Math.floor((t || 0) / 60)}:{String((t || 0) % 60).padStart(2, '0')}]. *)
Definition pplnsWindow (pplnsWindowTime : option number) : string :=
  let t := or_default pplnsWindowTime 0 in
  toString (Math_floor (t / 60)) ++ ":"
  ++ padStart_zeros 2 (toString (remainder t 60)).

Definition segmentPanel (segment : option MiningSegmentStats)
    (current overall : Color) (detail : list (string * string))
  : SegmentPanel :=
  let last := opt segment lastFoundBlock in
  {| seg_blocksFound :=
       Formatters.formatNumber toLocaleString (opt segment totalBlocksFound);
     seg_orphans :=
       Formatters.formatNumber toLocaleString (opt segment orphans);
     seg_currentEffort :=
       EffortMeter "Current Effort"
         (nullish (opt_field segment currentEffort)) current;
     seg_overallEffort :=
       EffortMeter "Overall Effort" (opt segment overallEffort) overall;
     seg_detail := detail;
     seg_lastHash := hashEnds (opt last ref_hash);
     seg_lastHeight :=
       "Height: "
       ++ Formatters.formatNumber toLocaleString (opt last ref_height);
     seg_lastReward := Formatters.formatXMR (opt last ref_value) ++ " XMR" |}.

Definition MoneroPool
    (poolQuery : Query PoolStatsResponse)
    (chartQuery : Query (list ChartPoint))
    (blocksQuery : Query (list BlockVisualizer.Block)) : Screen :=
  let poolData := data poolQuery in
  let isLoading := isLoading poolQuery in
  let chartData := data chartQuery in
  let blocksData := data blocksQuery in
  let processed := processedChartData chartData in
  let pool := opt (opt poolData pool_statistics) collective in
  let solo := opt (opt poolData pool_statistics) solo in
  let network := opt poolData network_statistics in
  let market := opt poolData market in
  let template := opt poolData block_template in
  let change := or_default (nullish (opt_field market percent_change_24h)) 0 in
  let loadable {A} (keys : list nat) (content : A) : Loadable A :=
    if isLoading then Skeletons keys else Ready content in
  match error poolQuery with
  | Some _ => ErrorScreen "Failed to load pool data" "Retry"
  | None =>
      Dashboard
        {| page_refreshSpinning := isLoading;
           page_clock := "LIVE :: " ++ clock;
           page_networkHash :=
             StatCard "Network Hash"
               (Formatters.formatHashRate
                  (Some (or_default (opt network net_difficulty) 0 / 120)%float))
               None None cyan true isLoading;
           page_poolHash :=
             StatCard "Pool Hash"
               (Formatters.formatHashRate (opt pool hashRate))
               None None pink true isLoading;
           page_minersOnline :=
             StatCard "Miners Online"
               (Formatters.formatNumber toLocaleString
                  (Some (or_default (opt pool miners) 0
                         + or_default (opt solo miners) 0)%float))
               None None green false isLoading;
           page_price :=
             StatCard "XMR/USD"
               ("$" ++ toFixed (or_default (opt market price_usd) 0) 2)
               (Some ((if gtb change 0 then "+" else "")
                      ++ toFixed change 2 ++ "%"))
               (Some (if gtb change 0 then up else down))
               purple false isLoading;
           page_blocks :=
             BlockVisualizer.BlockchainVisual toLocaleString toLocaleTimeString
               {| BlockVisualizer.blocks := blocksData;
                  BlockVisualizer.currentEffort := opt_field pool currentEffort;
                  BlockVisualizer.networkDifficulty := opt network net_difficulty;
                  BlockVisualizer.poolHashRate := opt pool hashRate |};
           page_network :=
             loadable [1; 2; 3; 4]%nat
               {| net_panel_height :=
                    Formatters.formatNumber toLocaleString
                      (opt network net_height);
                  net_panel_difficulty :=
                    Formatters.formatNumber toLocaleString
                      (opt network net_difficulty);
                  net_panel_hash := hashEnds (opt network net_hash);
                  net_panel_reward :=
                    Formatters.formatXMR (opt network net_value) ++ " XMR";
                  net_panel_template :=
                    Formatters.formatNumber toLocaleString
                      (opt template template_difficulty) |};
           page_pool :=
             loadable [1; 2; 3; 4]%nat
               (segmentPanel pool pink orange
                  [ ("PPLNS WINDOW", pplnsWindow (opt pool pplnsWindowTime)) ]);
           page_solo :=
             loadable [1; 2; 3; 4]%nat
               (segmentPanel solo green cyan
                  [ ("HASH RATE", Formatters.formatHashRate (opt solo hashRate));
                    ("MINERS",
                     Formatters.formatNumber toLocaleString (opt solo miners)) ]);
           page_chart :=
             if Nat.ltb 0 (List.length processed)
             then AreaChart processed else ChartSkeleton;
           page_market :=
             loadable [1; 2; 3; 4; 5]%nat
               [ MarketItem "XMR/BTC"
                   (toFixed (or_default (opt market price_btc) 0) 8)
                   Undefined;
                 MarketItem "XMR/USD"
                   ("$" ++ toFixed (or_default (opt market price_usd) 0) 2)
                   (opt_field market percent_change_24h);
                 MarketItem "XMR/EUR"
                   ("€" ++ toFixed (or_default (opt market price_eur) 0) 2)
                   Undefined;
                 MarketItem "Market Cap"
                   (Formatters.formatNumber toLocaleString
                      (opt market market_cap_btc) ++ " BTC") Undefined;
                 MarketItem "24h Volume"
                   (Formatters.formatNumber toLocaleString
                      (opt market volume_24h_btc) ++ " BTC") Undefined;
                 MarketItem "7 Day" "" (opt_field market percent_change_7d) ];
           page_config :=
             {| cfg_algorithm := "RandomX";
                cfg_fee := toString (poolFee poolData) ++ "%";
                cfg_minPayout :=
                  Formatters.formatXMR
                    (opt (opt (opt poolData config) payout) minimum) ++ " XMR";
                cfg_interval := "Hourly";
                cfg_maturity := toString (maturityDepth poolData) ++ " blocks";
                cfg_online :=
                  Formatters.formatNumber toLocaleString (opt poolData online) |}
        |}
  end.

End Host.

End Index.

(* ================================================================== *)
(** * Facts about numbers and strings *)
(* ================================================================== *)

Module NumberFacts.
Import JS.
Local Open Scope float_scope.

(** Comparison of binary64 values is antisymmetric. *)
Lemma compare_cont_flip (p q : positive) :
  Pos.compare_cont Eq q p = CompOpp (Pos.compare_cont Eq p q).
Proof. symmetry. exact (Pos.compare_cont_antisym p q Eq). Qed.

Lemma SFcompare_antisym x y :
  SFcompare y x = option_map CompOpp (SFcompare x y).
Proof.
  destruct x as [sx|sx| |sx mx ex], y as [sy|sy| |sy my ey]; simpl;
    try destruct sx; try destruct sy; simpl; try reflexivity;
    rewrite (Z.compare_antisym ex ey);
    destruct (ex ?= ey)%Z; simpl; try reflexivity;
    f_equal; try f_equal; apply compare_cont_flip.
Qed.

Lemma SFcompare_refl x : x <> S754_nan -> SFcompare x x = Some Eq.
Proof.
  destruct x as [s|s| |s m e]; simpl; intros H; try congruence.
  - now destruct s.
  - destruct s; rewrite Z.compare_refl, Pos.compare_cont_refl; reflexivity.
Qed.

Lemma SFcompare_None x y :
  SFcompare x y = None -> x = S754_nan \/ y = S754_nan.
Proof.
  destruct x as [sx|sx| |sx mx ex], y as [sy|sy| |sy my ey]; simpl;
    intros H; try discriminate H; auto.
Qed.

(** [a <= b] excludes [b < a], and [a < b] excludes [b <= a]. *)
Lemma ltb_false_of_leb a b : (a <=? b) = true -> (b <? a) = false.
Proof.
  rewrite FloatAxioms.leb_spec, FloatAxioms.ltb_spec. unfold SFleb, SFltb.
  rewrite (SFcompare_antisym (Prim2SF a) (Prim2SF b)).
  destruct (SFcompare (Prim2SF a) (Prim2SF b)) as [[]|]; simpl; congruence.
Qed.

Lemma leb_false_of_ltb a b : (a <? b) = true -> (b <=? a) = false.
Proof.
  rewrite FloatAxioms.leb_spec, FloatAxioms.ltb_spec. unfold SFleb, SFltb.
  rewrite (SFcompare_antisym (Prim2SF a) (Prim2SF b)).
  destruct (SFcompare (Prim2SF a) (Prim2SF b)) as [[]|]; simpl; congruence.
Qed.

(** Two numbers that are comparable with a third are ordered one way or
    the other: when [c <= h] holds and [d <= h] fails for a number [d],
    then [h < d]. *)
Lemma ltb_of_not_leb c d h :
  is_nan d = false -> (c <=? h) = true -> (d <=? h) = false -> (h <? d) = true.
Proof.
  unfold is_nan.
  rewrite FloatAxioms.eqb_spec, !FloatAxioms.leb_spec, FloatAxioms.ltb_spec.
  unfold SFeqb, SFleb, SFltb. intros Hd Hc Hdh.
  rewrite (SFcompare_antisym (Prim2SF d) (Prim2SF h)).
  destruct (SFcompare (Prim2SF d) (Prim2SF h)) as [[]|] eqn:E;
    simpl; try congruence.
  apply SFcompare_None in E. destruct E as [E|E]; rewrite E in *.
  - discriminate Hd.
  - destruct (Prim2SF c); discriminate Hc.
Qed.

(** Comparison of finite values of the same sign is lexicographic on the
    exponent and the mantissa, hence transitive. *)
Local Abbreviation lex e1 m1 e2 m2 :=
  (match (e1 ?= e2)%Z with
   | Lt => Lt
   | Gt => Gt
   | Eq => Pos.compare_cont Eq m1 m2
   end).

Lemma lex_Lt e1 m1 e2 m2 :
  lex e1 m1 e2 m2 = Lt <-> (e1 < e2 \/ (e1 = e2 /\ (m1 < m2)%positive))%Z.
Proof.
  destruct (Z.compare_spec e1 e2) as [E|E|E].
  - change (Pos.compare_cont Eq m1 m2) with (Pos.compare m1 m2).
    rewrite Pos.compare_lt_iff. intuition lia.
  - intuition lia.
  - split; [discriminate|]. intuition lia.
Qed.

Lemma lex_Gt e1 m1 e2 m2 :
  lex e1 m1 e2 m2 = Gt <-> (e2 < e1 \/ (e1 = e2 /\ (m2 < m1)%positive))%Z.
Proof.
  destruct (Z.compare_spec e1 e2) as [E|E|E].
  - change (Pos.compare_cont Eq m1 m2) with (Pos.compare m1 m2).
    rewrite Pos.compare_gt_iff. intuition lia.
  - split; [discriminate|]. intuition lia.
  - intuition lia.
Qed.

Lemma SFcompare_finite s1 m1 e1 s2 m2 e2 :
  SFcompare (S754_finite s1 m1 e1) (S754_finite s2 m2 e2) =
  Some match s1, s2 with
       | true, false => Lt
       | false, true => Gt
       | false, false => lex e1 m1 e2 m2
       | true, true => CompOpp (lex e1 m1 e2 m2)
       end.
Proof.
  simpl. destruct s1, s2; try reflexivity.
  now destruct (e1 ?= e2)%Z.
Qed.

Lemma SFcompare_Lt_trans x y z :
  SFcompare x y = Some Lt -> SFcompare y z = Some Lt -> SFcompare x z = Some Lt.
Proof.
  destruct x as [sx|sx| |sx mx ex], y as [sy|sy| |sy my ey],
    z as [sz|sz| |sz mz ez];
    rewrite ?SFcompare_finite; simpl;
    try destruct sx; try destruct sy; try destruct sz;
    try discriminate; try reflexivity; intros H1 H2;
    injection H1 as H1; injection H2 as H2; f_equal.
  - destruct (lex ex mx ey my) eqn:A; try discriminate H1.
    destruct (lex ey my ez mz) eqn:B; try discriminate H2.
    apply lex_Gt in A, B.
    assert (C : lex ex mx ez mz = Gt) by (apply lex_Gt; lia).
    now rewrite C.
  - apply lex_Lt in H1, H2. apply lex_Lt. lia.
Qed.

Lemma ltb_trans a b c : (a <? b) = true -> (b <? c) = true -> (a <? c) = true.
Proof.
  rewrite !FloatAxioms.ltb_spec. unfold SFltb. intros H1 H2.
  destruct (SFcompare (Prim2SF a) (Prim2SF b)) as [[]|] eqn:A; try discriminate.
  destruct (SFcompare (Prim2SF b) (Prim2SF c)) as [[]|] eqn:B; try discriminate.
  now rewrite (SFcompare_Lt_trans _ _ _ A B).
Qed.

(** A value at or above [d] is not below a smaller [c]. *)
Lemma ltb_false_above c d x :
  (c <? d) = true -> (d <=? x) = true -> (x <? c) = false.
Proof.
  intros Hcd Hdx. destruct (x <? c) eqn:Hxc; [|reflexivity].
  pose proof (ltb_trans _ _ _ Hxc Hcd) as Hxd.
  apply ltb_false_of_leb in Hdx. congruence.
Qed.

(** The falsy numbers are [+0], [-0] and [NaN]. *)
Lemma is_zero_inv x : is_zero x = true -> x = 0 \/ x = -0.
Proof.
  unfold is_zero. rewrite FloatAxioms.eqb_spec.
  change (Prim2SF zero) with (S754_zero false).
  intros H. rewrite <- (SF2Prim_Prim2SF x).
  destruct (Prim2SF x) as [s|s| |s m e]; try (destruct s; discriminate H).
  - destruct s; [right|left]; reflexivity.
  - discriminate H.
Qed.

Lemma is_nan_inv x : is_nan x = true -> x = nan.
Proof.
  unfold is_nan. rewrite FloatAxioms.eqb_spec. unfold SFeqb. intros H.
  rewrite <- (SF2Prim_Prim2SF x).
  destruct (Prim2SF x) eqn:E; try reflexivity;
    rewrite SFcompare_refl in H by discriminate; discriminate H.
Qed.

Lemma falsy_inv x : truthy x = false -> x = 0 \/ x = -0 \/ x = nan.
Proof.
  unfold truthy. intros H. apply negb_false_iff, orb_true_iff in H.
  destruct H as [H|H].
  - destruct (is_zero_inv x H); auto.
  - right; right. now apply is_nan_inv.
Qed.

(** A number at or above a positive one, or above zero, is truthy. *)
Lemma truthy_of_leb c x :
  (0 <? c) = true -> (c <=? x) = true -> truthy x = true.
Proof.
  intros Hc Hx. destruct (truthy x) eqn:T; [reflexivity|].
  apply falsy_inv in T. destruct T as [T|[T|T]]; subst x.
  - apply ltb_false_of_leb in Hx. congruence.
  - rewrite FloatAxioms.leb_spec in Hx. rewrite FloatAxioms.ltb_spec in Hc.
    change (Prim2SF (-0)) with (S754_zero true) in Hx.
    change (Prim2SF 0) with (S754_zero false) in Hc.
    unfold SFleb in Hx. unfold SFltb in Hc.
    destruct (Prim2SF c) as [s|s| |s m e]; simpl in *;
      try destruct s; discriminate.
  - rewrite FloatAxioms.leb_spec in Hx.
    change (Prim2SF nan) with S754_nan in Hx.
    unfold SFleb in Hx. destruct (Prim2SF c); discriminate.
Qed.

Lemma truthy_of_pos x : (0 <? x) = true -> truthy x = true.
Proof.
  intros Hx. destruct (truthy x) eqn:T; [reflexivity|].
  apply falsy_inv in T. destruct T as [T|[T|T]]; subst x; discriminate Hx.
Qed.

(** [x || 0] is [x] itself, or [+0] for a falsy [x]. *)
Lemma or_else_zero x :
  or_else x 0 = x \/ (truthy x = false /\ or_else x 0 = 0).
Proof. unfold or_else. destruct (truthy x); auto. Qed.

End NumberFacts.

Module StringFacts.
Import JS.

Lemma append_assoc (a b c : string) : (a ++ b) ++ c = a ++ b ++ c.
Proof. induction a as [|x a IH]; simpl; [reflexivity|now rewrite IH]. Qed.

Lemma length_append (a b : string) :
  String.length (a ++ b) = (String.length a + String.length b)%nat.
Proof. induction a as [|x a IH]; simpl; [reflexivity|now rewrite IH]. Qed.

Lemma all_digits_append (a b : string) :
  all_digits (a ++ b) = all_digits a && all_digits b.
Proof.
  induction a as [|x a IH]; simpl; [reflexivity|].
  now rewrite IH, andb_assoc.
Qed.

Lemma is_digit_digit (d : Z) : is_digit (digit d) = true.
Proof.
  unfold is_digit, digit.
  assert (H : (0 <= d mod 10 < 10)%Z) by (apply Z.mod_pos_bound; lia).
  rewrite nat_ascii_embedding by lia.
  apply andb_true_intro; split; apply Nat.leb_le; lia.
Qed.

Lemma fixed_digits_length (w : nat) (n : Z) :
  String.length (fixed_digits w n) = w.
Proof.
  revert n. induction w as [|w IH]; intros n; simpl; [reflexivity|].
  rewrite length_append, IH. simpl. lia.
Qed.

Lemma fixed_digits_all_digits (w : nat) (n : Z) :
  all_digits (fixed_digits w n) = true.
Proof.
  revert n. induction w as [|w IH]; intros n; simpl; [reflexivity|].
  rewrite all_digits_append, IH.
  change (all_digits (String (digit n) "")) with (is_digit (digit n) && true).
  now rewrite is_digit_digit.
Qed.

Lemma digit_value_digit (d : Z) : digit_value (digit d) = (d mod 10)%Z.
Proof.
  unfold digit_value, digit.
  assert (H : (0 <= d mod 10 < 10)%Z) by (apply Z.mod_pos_bound; lia).
  rewrite nat_ascii_embedding by lia. lia.
Qed.

Lemma read_from_append (a : Z) (s t : string) :
  read_from a (s ++ t) = read_from (read_from a s) t.
Proof.
  revert a. induction s as [|c s IH]; intros a; simpl; [reflexivity|apply IH].
Qed.

(** [digits_from] prepends the numeral of [n] to the accumulator. *)
Lemma digits_from_spec (fuel : nat) :
  forall (n : Z) (acc : string),
    (0 <= n < 2 ^ Z.of_nat fuel)%Z -> (0 < fuel)%nat ->
    exists s,
      digits_from fuel n acc = s ++ acc
      /\ numeral_value s = n /\ all_digits s = true.
Proof.
  induction fuel as [|fuel IH]; intros n acc Hn Hfuel; [lia|].
  cbn [digits_from].
  destruct (n / 10 =? 0)%Z eqn:E.
  - apply Z.eqb_eq in E. exists (String (digit n) "").
    split; [reflexivity|]. unfold numeral_value. cbn [read_from all_digits].
    rewrite digit_value_digit, is_digit_digit.
    split; [|reflexivity].
    pose proof (Z.div_mod n 10 ltac:(lia)). lia.
  - apply Z.eqb_neq in E.
    assert (Hq : (0 <= n / 10 < 2 ^ Z.of_nat fuel)%Z).
    { split; [apply Z.div_pos; lia|].
      apply Z.div_lt_upper_bound; [lia|].
      rewrite Nat2Z.inj_succ, Z.pow_succ_r in Hn by lia. lia. }
    assert (Hf : (0 < fuel)%nat).
    { destruct fuel; [|lia]. simpl in Hq. lia. }
    destruct (IH (n / 10)%Z (String (digit n) acc) Hq Hf) as (s & Hs & Hv & Hd).
    exists (s ++ String (digit n) "").
    split.
    { rewrite Hs. now rewrite append_assoc. }
    split.
    { unfold numeral_value in *. rewrite read_from_append, Hv.
      cbn [read_from]. rewrite digit_value_digit.
      pose proof (Z.div_mod n 10 ltac:(lia)). lia. }
    rewrite all_digits_append, Hd. cbn [all_digits]. now rewrite is_digit_digit.
Qed.

Lemma append_empty (s : string) : s ++ "" = s.
Proof. induction s as [|c s IH]; simpl; [reflexivity|now rewrite IH]. Qed.

(** The numeral of a natural number reads back as that number. *)
Lemma digits_value (n : Z) :
  (0 <= n)%Z -> numeral_value (digits n) = n /\ all_digits (digits n) = true.
Proof.
  intros Hn. unfold digits.
  destruct (digits_from_spec (S (Z.to_nat (Z.log2 n))) n "") as (s & Hs & Hv & Hd).
  - split; [exact Hn|].
    rewrite Nat2Z.inj_succ, Z2Nat.id by apply Z.log2_nonneg.
    destruct (Z.eq_dec n 0) as [->|Hnz]; [reflexivity|].
    apply Z.log2_spec. lia.
  - lia.
  - rewrite Hs, append_empty. split; assumption.
Qed.

(** The [w] lowest digits read back as the number modulo [10^w]. *)
Lemma fixed_digits_value (w : nat) (n : Z) :
  numeral_value (fixed_digits w n) = (n mod pow10 w)%Z.
Proof.
  revert n. induction w as [|w IH]; intros n.
  - unfold pow10. simpl. now rewrite Z.mod_1_r.
  - cbn [fixed_digits]. unfold numeral_value in *.
    rewrite read_from_append, IH. cbn [read_from].
    rewrite digit_value_digit. unfold pow10.
    rewrite Nat2Z.inj_succ, Z.pow_succ_r by lia.
    set (P := (10 ^ Z.of_nat w)%Z).
    assert (HP : (0 < P)%Z) by (apply Z.pow_pos_nonneg; lia).
    rewrite Z.rem_mul_r by lia. lia.
Qed.

(** [fixed_string] writes [n] as [n / 10^f], a point, and [n mod 10^f]. *)
Lemma fixed_string_value (f : nat) (n : Z) :
  (0 <= n)%Z -> f <> O ->
  exists whole frac,
    fixed_string f n = whole ++ "." ++ frac
    /\ String.length frac = f
    /\ all_digits whole = true /\ all_digits frac = true
    /\ (numeral_value whole * pow10 f + numeral_value frac = n)%Z.
Proof.
  intros Hn Hf. destruct f as [|f]; [congruence|].
  exists (digits (n / pow10 (S f))), (fixed_digits (S f) n).
  assert (HP : (0 < pow10 (S f))%Z) by (apply Z.pow_pos_nonneg; lia).
  destruct (digits_value (n / pow10 (S f))) as [Hv Hd];
    [apply Z.div_pos; lia|].
  split; [reflexivity|]. split; [apply fixed_digits_length|].
  split; [exact Hd|]. split; [apply fixed_digits_all_digits|].
  rewrite fixed_digits_value, Hv.
  pose proof (Z.div_mod n (pow10 (S f)) ltac:(lia)). lia.
Qed.

(** [nearest_scaled] is the nearest integer to [m * 2^e * 10^f], the larger
    of two equally near. *)
Lemma nearest_scaled_spec (f : nat) (m : positive) (e : Z) :
  let n := nearest_scaled f m e in
  match e with
  | Zneg p =>
      ((2 * n - 1) * 2 ^ Zpos p <= 2 * (Zpos m * pow10 f)
       < (2 * n + 1) * 2 ^ Zpos p)%Z
  | _ => n = (Zpos m * 2 ^ e * pow10 f)%Z
  end.
Proof.
  destruct e as [|p|p]; cbn [nearest_scaled]; try reflexivity.
  set (D := (2 ^ Zpos p)%Z). set (N := (Zpos m * pow10 f)%Z).
  assert (HD : (0 < D)%Z) by (apply Z.pow_pos_nonneg; lia).
  replace (2 ^ (Zpos p + 1))%Z with (2 * D)%Z
    by (subst D; rewrite Z.pow_add_r by lia; lia).
  replace (2 * Zpos m * pow10 f)%Z with (2 * N)%Z by (subst N; lia).
  pose proof (Z.div_mod (2 * N + D) (2 * D) ltac:(lia)) as Hdm.
  pose proof (Z.mod_pos_bound (2 * N + D) (2 * D) ltac:(lia)) as Hb.
  cbv zeta. nia.
Qed.

(** [fixed_string] writes exactly [f] decimals. *)
Lemma fixed_string_decimals (f : nat) (n : Z) (sign : string) :
  f <> O -> decimals_exactly f (sign ++ fixed_string f n).
Proof.
  intros Hf. destruct f as [|f]; [congruence|].
  exists (sign ++ digits (n / pow10 (S f))), (fixed_digits (S f) n).
  unfold fixed_string. rewrite append_assoc.
  split; [reflexivity|].
  split; [apply fixed_digits_length|apply fixed_digits_all_digits].
Qed.

(** Below [10^21] in magnitude, [toFixed] writes exactly [f] decimals. *)
Lemma toFixed_decimals (x : number) (f : nat) :
  f <> O -> (abs x <? 1e21)%float = true -> decimals_exactly f (toFixed x f).
Proof.
  intros Hf Hx. unfold toFixed.
  pose proof (NumberFacts.leb_false_of_ltb _ _ Hx) as Hge.
  rewrite FloatAxioms.ltb_spec, FloatAxioms.abs_spec in Hx.
  set (c := Prim2SF 1e21) in Hx. vm_compute in c. subst c.
  unfold geb. rewrite Hge.
  destruct (Prim2SF x) as [s|s| |s m e].
  - apply (fixed_string_decimals f 0 "" Hf).
  - discriminate Hx.
  - discriminate Hx.
  - apply fixed_string_decimals, Hf.
Qed.

(** A finite number below [10^21] in magnitude is written by [toFixed] as
    its sign and the integer nearest to its [10^f]-fold, with the point
    before the last [f] digits. *)
Lemma toFixed_value (x : number) (f : nat) (s : bool) (m : positive) (e : Z) :
  Prim2SF x = S754_finite s m e ->
  (abs x <? 1e21)%float = true -> f <> O ->
  exists whole frac,
    toFixed x f = (if s then "-" else "") ++ whole ++ "." ++ frac
    /\ String.length frac = f
    /\ all_digits whole = true /\ all_digits frac = true
    /\ (numeral_value whole * pow10 f + numeral_value frac
        = nearest_scaled f m e)%Z.
Proof.
  intros Hx Hlt Hf. unfold toFixed. rewrite Hx.
  unfold geb. rewrite (NumberFacts.leb_false_of_ltb _ _ Hlt).
  assert (Hn : (0 <= nearest_scaled f m e)%Z).
  { unfold nearest_scaled, pow10. destruct e as [|p|p].
    - apply Z.mul_nonneg_nonneg; [lia|apply Z.pow_nonneg; lia].
    - apply Z.mul_nonneg_nonneg; [|apply Z.pow_nonneg; lia].
      apply Z.mul_nonneg_nonneg; [lia|apply Z.pow_nonneg; lia].
    - apply Z.div_pos; [|apply Z.pow_pos_nonneg; lia].
      apply Z.add_nonneg_nonneg; [|apply Z.pow_nonneg; lia].
      apply Z.mul_nonneg_nonneg; [lia|apply Z.pow_nonneg; lia]. }
  destruct (fixed_string_value f _ Hn Hf)
    as (whole & frac & Hs & Hl & Hdw & Hdf & Hv).
  exists whole, frac. rewrite Hs. auto.
Qed.

(** With a negative exponent [nearest_scaled] is the rounding quotient. *)
Lemma nearest_scaled_neg (f : nat) (m : positive) (e : Z) :
  (e < 0)%Z ->
  nearest_scaled f m e
  = ((2 * Zpos m * pow10 f + 2 ^ (- e)) / 2 ^ (- e + 1))%Z.
Proof. destruct e as [|p|p]; intros He; try lia. reflexivity. Qed.

End StringFacts.

(* ================================================================== *)
(** * The division of binary64 numbers *)
(* ================================================================== *)

(** [hash / threshold] is the correctly rounded binary64 quotient.  For two
    normal numbers the rounded quotient is the 53-bit truncation of the
    exact one or its successor, which bounds what [toFixed] is given. *)
Module DivisionFacts.
Import JS NumberFacts StringFacts.
Local Open Scope Z_scope.

(** The number of binary digits of a mantissa brackets it between two
    powers of two. *)
Lemma digits2_pos_spec (p : positive) :
  2 ^ (Zpos (digits2_pos p) - 1) <= Zpos p < 2 ^ Zpos (digits2_pos p).
Proof.
  induction p as [p IH|p IH|]; cbn [digits2_pos].
  - rewrite Pos2Z.inj_succ.
    replace (Z.succ (Zpos (digits2_pos p)) - 1) with (Z.succ (Zpos (digits2_pos p) - 1)) by lia.
    rewrite !Z.pow_succ_r by lia. lia.
  - rewrite Pos2Z.inj_succ.
    replace (Z.succ (Zpos (digits2_pos p)) - 1) with (Z.succ (Zpos (digits2_pos p) - 1)) by lia.
    rewrite !Z.pow_succ_r by lia. lia.
  - simpl. lia.
Qed.

(** ... and is determined by such a bracket. *)
Lemma digits2_pos_unique (p : positive) (d : Z) :
  2 ^ (d - 1) <= Zpos p < 2 ^ d -> Zpos (digits2_pos p) = d.
Proof.
  intros [Hlo Hhi]. pose proof (digits2_pos_spec p) as [Slo Shi].
  set (d' := Zpos (digits2_pos p)) in *.
  assert (Hd : 0 < d).
  { destruct (Z_lt_le_dec 0 d) as [|Hd]; [assumption|].
    assert (2 ^ d <= 1).
    { destruct (Z.eq_dec d 0) as [->|]; [simpl; lia|].
      rewrite Z.pow_neg_r by lia. lia. }
    lia. }
  assert (H1 : d' - 1 < d).
  { apply (Z.pow_lt_mono_r_iff 2); lia. }
  assert (H2 : d - 1 < d').
  { apply (Z.pow_lt_mono_r_iff 2); lia. }
  lia.
Qed.

Lemma div_eucl_div_mod (a b : Z) : Z.div_eucl a b = (a / b, a mod b).
Proof. unfold Z.div, Z.modulo. now destruct (Z.div_eucl a b). Qed.

(** The quotient and exponent that the division of two normal numbers hands
    to the rounding. *)
Lemma SFdiv_core_normal (mx my : positive) (ex ey : Z) :
  2 ^ 52 <= Zpos mx < 2 ^ 53 -> 2 ^ 52 <= Zpos my < 2 ^ 53 ->
  -1021 <= ex - ey ->
  SFdiv_core_binary prec emax (Zpos mx) ex (Zpos my) ey
  = (Zpos mx * 2 ^ 53 / Zpos my, ex - ey - 53,
     new_location (Zpos my) ((Zpos mx * 2 ^ 53) mod Zpos my)).
Proof.
  intros Hx Hy He. unfold SFdiv_core_binary.
  cbn [Zdigits2].
  rewrite (digits2_pos_unique mx 53), (digits2_pos_unique my 53) by (simpl; lia).
  unfold fexp, SpecFloat.emin, prec, emax.
  replace (Z.min (Z.max (53 + ex - (53 + ey) - 53) (3 - 1024 - 53)) (ex - ey))
    with (ex - ey - 53) by lia.
  replace (ex - ey - (ex - ey - 53)) with 53 by lia.
  rewrite Z.shiftl_mul_pow2 by lia.
  now rewrite div_eucl_div_mod.
Qed.

(** Rounding to nearest keeps the truncated mantissa or takes the next. *)
Lemma round_nearest_even_bounds (m : Z) (l : location) :
  m <= round_nearest_even m l <= m + 1.
Proof.
  destruct l as [|[]]; cbn [round_nearest_even]; try lia.
  destruct (Z.even m); lia.
Qed.

Lemma shr_m_of_loc (m : Z) (l : location) : shr_m (shr_record_of_loc m l) = m.
Proof. now destruct l as [|[]]. Qed.

Lemma fexp_normal (d e : Z) :
  -1074 <= d + e - 53 -> fexp prec emax (d + e) - e = d - 53.
Proof. unfold fexp, SpecFloat.emin, prec, emax. lia. Qed.

(** The second stage of the rounding: a mantissa of 53 bits is kept, and
    [2^53] becomes [2^52] at the next exponent. *)
Lemma round_stage2 (m2 e1 : Z) :
  2 ^ 52 <= m2 <= 2 ^ 53 -> -1074 <= e1 <= 970 ->
  exists (m : positive) (j : Z),
    (let '(mrs, e) := shr_fexp prec emax m2 e1 loc_Exact in
     match shr_m mrs with
     | Z0 => S754_zero false
     | Zpos m => if e <=? emax - prec then S754_finite false m e
                 else S754_infinity false
     | Zneg _ => S754_nan
     end) = S754_finite false m (e1 + j)
    /\ (j = 0 \/ j = 1) /\ Zpos m * 2 ^ j = m2.
Proof.
  intros Hm He. unfold shr_fexp.
  destruct m2 as [|p|p]; try (simpl in Hm; lia).
  cbn [Zdigits2].
  destruct (Z_lt_le_dec (Zpos p) (2 ^ 53)) as [Hlt|Hge].
  - rewrite (digits2_pos_unique p 53) by (simpl; lia).
    rewrite fexp_normal by lia. rewrite Z.sub_diag.
    cbn [shr shr_record_of_loc shr_m].
    exists p, 0. replace (e1 <=? emax - prec) with true
      by (symmetry; apply Z.leb_le; unfold emax, prec; lia).
    rewrite Z.add_0_r. split; [reflexivity|]. split; [now left|]. simpl. lia.
  - assert (E : Zpos p = 2 ^ 53) by lia.
    rewrite (digits2_pos_unique p 54) by (rewrite E; simpl; lia).
    rewrite fexp_normal by lia. change (54 - 53) with 1.
    injection E as ->.
    cbn [shr iter_pos shr_record_of_loc shr_1 shr_m orb].
    exists (2 ^ 52)%positive, 1.
    replace (e1 + 1 <=? emax - prec) with true
      by (symmetry; apply Z.leb_le; unfold emax, prec; lia).
    split; [reflexivity|]. split; [now right|]. reflexivity.
Qed.

(** One shift to the right halves the mantissa. *)
Lemma shr_1_m (m : Z) (r s : bool) :
  0 <= m -> shr_m (shr_1 (Build_shr_record m r s)) = m / 2.
Proof.
  intros Hm. destruct m as [|p|p]; [reflexivity| |lia].
  destruct p as [p|p|]; cbn [shr_1 shr_m].
  - apply (Z.div_unique_pos _ _ _ 1); lia.
  - apply (Z.div_unique_pos _ _ _ 0); lia.
  - reflexivity.
Qed.

(** The rounding of a quotient of 53 or 54 bits: the result has the
    quotient's 53 leading bits, or their successor. *)
Lemma round_aux_normal (mz e' : Z) (l : location) :
  2 ^ 52 <= mz < 2 ^ 54 -> -1074 <= e' <= 969 ->
  exists (m : positive) (k j : Z),
    binary_round_aux prec emax false mz e' l = S754_finite false m (e' + k + j)
    /\ (k = 0 \/ k = 1) /\ (j = 0 \/ j = 1)
    /\ mz / 2 ^ k <= Zpos m * 2 ^ j <= mz / 2 ^ k + 1.
Proof.
  intros Hm He. unfold binary_round_aux.
  destruct mz as [|p|p]; try (simpl in Hm; lia).
  destruct (Z_lt_le_dec (Zpos p) (2 ^ 53)) as [Hlt|Hge].
  - assert (E : shr_fexp prec emax (Zpos p) e' l
                = (shr_record_of_loc (Zpos p) l, e')).
    { unfold shr_fexp. cbn [Zdigits2].
      rewrite (digits2_pos_unique p 53) by (simpl; lia).
      rewrite fexp_normal by lia. rewrite Z.sub_diag. reflexivity. }
    rewrite E. rewrite shr_m_of_loc.
    set (m2 := round_nearest_even (Zpos p) _).
    assert (Hm2 : Zpos p <= m2 <= Zpos p + 1)
      by apply round_nearest_even_bounds.
    destruct (round_stage2 m2 e') as (m & j & Hres & Hj & Hval); [lia|lia|].
    exists m, 0, j. rewrite Z.add_0_r.
    split; [exact Hres|]. split; [now left|]. split; [exact Hj|].
    rewrite Z.pow_0_r, Z.div_1_r. lia.
  - assert (E : shr_fexp prec emax (Zpos p) e' l
                = (shr_1 (shr_record_of_loc (Zpos p) l), e' + 1)).
    { unfold shr_fexp. cbn [Zdigits2].
      rewrite (digits2_pos_unique p 54) by (simpl; lia).
      rewrite fexp_normal by lia. reflexivity. }
    rewrite E.
    assert (Hhalf : shr_m (shr_1 (shr_record_of_loc (Zpos p) l)) = Zpos p / 2).
    { destruct l as [|[]]; apply shr_1_m; lia. }
    rewrite Hhalf.
    set (m2 := round_nearest_even (Zpos p / 2) _).
    assert (Hm2 : Zpos p / 2 <= m2 <= Zpos p / 2 + 1)
      by apply round_nearest_even_bounds.
    assert (Hq : 2 ^ 52 <= Zpos p / 2 < 2 ^ 53).
    { split; [apply Z.div_le_lower_bound; lia|apply Z.div_lt_upper_bound; lia]. }
    destruct (round_stage2 m2 (e' + 1)) as (m & j & Hres & Hj & Hval); [lia|lia|].
    exists m, 1, j.
    split; [exact Hres|]. split; [now right|]. split; [exact Hj|].
    rewrite Z.pow_1_r. lia.
Qed.

(** The quotient of two normal numbers: a finite number whose value is the
    53-bit truncation of the exact quotient, or the next one. *)
Lemma SF64div_normal (mx my : positive) (ex ey : Z) :
  2 ^ 52 <= Zpos mx < 2 ^ 53 -> 2 ^ 52 <= Zpos my < 2 ^ 53 ->
  -1021 <= ex - ey <= 1022 ->
  exists (m : positive) (k j : Z),
    SF64div (S754_finite false mx ex) (S754_finite false my ey)
    = S754_finite false m (ex - ey - 53 + k + j)
    /\ (k = 0 \/ k = 1) /\ (j = 0 \/ j = 1)
    /\ Zpos mx * 2 ^ 53 / Zpos my / 2 ^ k <= Zpos m * 2 ^ j
       <= Zpos mx * 2 ^ 53 / Zpos my / 2 ^ k + 1.
Proof.
  intros Hx Hy He. unfold SF64div, SFdiv.
  rewrite SFdiv_core_normal by lia. cbn [xorb].
  apply round_aux_normal; [|lia].
  split.
  - apply Z.div_le_lower_bound; [lia|]. nia.
  - apply Z.div_lt_upper_bound; [lia|]. nia.
Qed.

(** A valid number above the least exponent is normal. *)
Lemma valid_normal (m : positive) (e : Z) :
  bounded prec emax m e = true -> -1074 < e -> 2 ^ 52 <= Zpos m < 2 ^ 53.
Proof.
  unfold bounded, canonical_mantissa. intros H He.
  apply andb_true_iff in H. destruct H as [H _]. apply Z.eqb_eq in H.
  unfold fexp, SpecFloat.emin, prec, emax in H.
  assert (D : Zpos (digits2_pos m) = 53) by lia.
  pose proof (digits2_pos_spec m) as S. rewrite D in S. exact S.
Qed.

(** The order of two finite positive numbers, read on their exponents and
    mantissas. *)
Lemma SFleb_finite (m1 m2 : positive) (e1 e2 : Z) :
  SFleb (S754_finite false m1 e1) (S754_finite false m2 e2) = true ->
  e1 < e2 \/ (e1 = e2 /\ Zpos m1 <= Zpos m2).
Proof.
  unfold SFleb. rewrite SFcompare_finite.
  destruct (Z.compare_spec e1 e2) as [E|E|E]; [|now left|discriminate].
  right. split; [exact E|].
  change (Pos.compare_cont Eq m1 m2) with (Pos.compare m1 m2) in H.
  destruct (Pos.compare_spec m1 m2); try discriminate; lia.
Qed.

Lemma SFltb_finite (m1 m2 : positive) (e1 e2 : Z) :
  SFltb (S754_finite false m1 e1) (S754_finite false m2 e2) = true ->
  e1 < e2 \/ (e1 = e2 /\ Zpos m1 < Zpos m2).
Proof.
  unfold SFltb. rewrite SFcompare_finite.
  destruct (Z.compare_spec e1 e2) as [E|E|E]; [|now left|discriminate].
  right. split; [exact E|].
  change (Pos.compare_cont Eq m1 m2) with (Pos.compare m1 m2) in H.
  destruct (Pos.compare_spec m1 m2); try discriminate; lia.
Qed.

(** The integer content of the range [t <= h < T] with [T = 1000 t]: the
    rounded quotient [h / t] is a normal number [m * 2^e] with [e < 0] and
    [2^-e <= m <= 1000 * 2^-e]. *)
Lemma quotient_range (h t T : number) (mt mT : positive) (et eT : Z) :
  Prim2SF t = S754_finite false mt et ->
  Prim2SF T = S754_finite false mT eT ->
  2 ^ 52 <= Zpos mt < 2 ^ 53 -> 2 ^ 52 <= Zpos mT < 2 ^ 53 ->
  -1074 < et -> et <= eT <= et + 10 -> eT <= 1000 ->
  Zpos mT * 2 ^ (eT - et) = 1000 * Zpos mt ->
  (t <=? h)%float = true -> (h <? T)%float = true ->
  exists (m : positive) (e : Z),
    Prim2SF (h / t) = S754_finite false m e
    /\ e < 0
    /\ 2 ^ (- e) <= Zpos m <= 1000 * 2 ^ (- e).
Proof.
  intros Ht HT Nt NT Ee EE Emax Hk Hle Hlt.
  rewrite FloatAxioms.leb_spec, Ht in Hle.
  rewrite FloatAxioms.ltb_spec, HT in Hlt.
  pose proof (FloatAxioms.Prim2SF_valid h) as V.
  pose proof (FloatAxioms.div_spec h t) as D. rewrite Ht in D.
  destruct (Prim2SF h) as [s|s| |s mx ex] eqn:Hh;
    try (destruct s; discriminate Hle || discriminate Hlt);
    try discriminate Hle.
  destruct s; [discriminate Hle|].
  apply SFleb_finite in Hle. apply SFltb_finite in Hlt.
  simpl in V.
  assert (Nx : 2 ^ 52 <= Zpos mx < 2 ^ 53) by (apply (valid_normal mx ex V); lia).
  set (d := ex - et).
  assert (Hd : 0 <= d <= 10) by (unfold d; lia).
  assert (Wpos : 0 < 2 ^ d) by (apply Z.pow_pos_nonneg; lia).
  assert (Flo : Zpos mt <= Zpos mx * 2 ^ d).
  { destruct Hle as [L|[L L']].
    - assert (2 ^ 1 <= 2 ^ d) by (apply Z.pow_le_mono_r; unfold d; lia).
      change (2 ^ 1) with 2 in H. nia.
    - replace d with 0 by (unfold d; lia). change (2 ^ 0) with 1. lia. }
  assert (Fhi : Zpos mx * 2 ^ d < 1000 * Zpos mt).
  { rewrite <- Hk. destruct Hlt as [L|[L L']].
    - assert (2 ^ (d + 1) <= 2 ^ (eT - et)) by (apply Z.pow_le_mono_r; unfold d; lia).
      rewrite Z.pow_add_r in H by lia. change (2 ^ 1) with 2 in H. nia.
    - replace (eT - et) with d by (unfold d; lia). nia. }
  destruct (SF64div_normal mx mt ex et Nx Nt) as (m & k & j & E & Kk & Jj & B).
  { fold d. lia. }
  fold d in E, B. rewrite E in D.
  exists m, (d - 53 + k + j). split; [exact D|].
  split; [lia|].
  set (mz := Zpos mx * 2 ^ 53 / Zpos mt) in *.
  set (v := 2 ^ (53 - d)).
  assert (Vpos : 0 < v) by (apply Z.pow_pos_nonneg; lia).
  assert (WV : 2 ^ d * v = 2 ^ 53).
  { unfold v. rewrite <- Z.pow_add_r by lia. f_equal. lia. }
  assert (Zlo : v <= mz).
  { unfold mz. apply Z.div_le_lower_bound; [lia|]. rewrite <- WV. nia. }
  assert (Zhi : mz < 1000 * v).
  { unfold mz. apply Z.div_lt_upper_bound; [lia|]. rewrite <- WV. nia. }
  set (A := 2 ^ (53 - d - k)).
  assert (Apos : 0 < A) by (apply Z.pow_pos_nonneg; lia).
  assert (Kpos : 0 < 2 ^ k) by (apply Z.pow_pos_nonneg; lia).
  assert (AK : 2 ^ k * A = v).
  { unfold A, v. rewrite <- Z.pow_add_r by lia. f_equal. lia. }
  assert (Qlo : A <= mz / 2 ^ k).
  { apply Z.div_le_lower_bound; lia. }
  assert (Qhi : mz / 2 ^ k < 1000 * A).
  { apply Z.div_lt_upper_bound; [lia|]. nia. }
  set (P := 2 ^ (- (d - 53 + k + j))).
  assert (Ppos : 0 < P) by (apply Z.pow_pos_nonneg; lia).
  assert (Jpos : 0 < 2 ^ j) by (apply Z.pow_pos_nonneg; lia).
  assert (PJ : P * 2 ^ j = A).
  { unfold A, P. rewrite <- Z.pow_add_r by lia. f_equal. lia. }
  split.
  - apply (Z.mul_le_mono_pos_r _ _ (2 ^ j)); [lia|]. rewrite PJ. lia.
  - apply (Z.mul_le_mono_pos_r _ _ (2 ^ j)); [lia|].
    replace (1000 * P * 2 ^ j) with (1000 * (P * 2 ^ j)) by ring.
    rewrite PJ. lia.
Qed.

(** What [toFixed(2)] writes for the quotient of a value in [[t, 1000 t)]
    by [t]: a whole part, a point and two decimals, between 1.00 and
    1000.00. *)
Lemma quotient_display (h t T : number) (mt mT : positive) (et eT : Z) :
  Prim2SF t = S754_finite false mt et ->
  Prim2SF T = S754_finite false mT eT ->
  2 ^ 52 <= Zpos mt < 2 ^ 53 -> 2 ^ 52 <= Zpos mT < 2 ^ 53 ->
  -1074 < et -> et <= eT <= et + 10 -> eT <= 1000 ->
  Zpos mT * 2 ^ (eT - et) = 1000 * Zpos mt ->
  (t <=? h)%float = true -> (h <? T)%float = true ->
  exists whole frac : string,
    toFixed (h / t) 2 = (whole ++ "." ++ frac)%string
    /\ String.length frac = 2%nat
    /\ all_digits whole = true /\ all_digits frac = true
    /\ 100 <= numeral_value whole * 100 + numeral_value frac <= 100000.
Proof.
  intros Ht HT Nt NT Ee EE Emax Hk Hle Hlt.
  destruct (quotient_range h t T mt mT et eT Ht HT Nt NT Ee EE Emax Hk Hle Hlt)
    as (m & e & Hq & He & Hm).
  assert (Hlt21 : (abs (h / t) <? 1e21)%float = true).
  { rewrite FloatAxioms.ltb_spec, FloatAxioms.abs_spec, Hq.
    set (c := Prim2SF 1e21). vm_compute in c. subst c.
    unfold SFabs, SFltb. rewrite SFcompare_finite.
    destruct (Z.compare_spec e 17); [lia|reflexivity|lia]. }
  destruct (toFixed_value (h / t) 2 false m e Hq Hlt21)
    as (whole & frac & E & L & Dw & Df & V).
  { discriminate. }
  exists whole, frac. split; [exact E|]. split; [exact L|].
  split; [exact Dw|]. split; [exact Df|].
  change (pow10 2) with 100 in V. rewrite V.
  rewrite (nearest_scaled_neg 2 m e He).
  change (pow10 2) with 100.
  set (P := 2 ^ (- e)) in *.
  assert (Ppos : 0 < P) by (apply Z.pow_pos_nonneg; lia).
  replace (2 ^ (- e + 1)) with (2 * P)
    by (unfold P; rewrite Z.pow_add_r by lia; change (2 ^ 1) with 2; lia).
  split.
  - apply Z.div_le_lower_bound; lia.
  - apply Z.lt_succ_r. apply Z.div_lt_upper_bound; lia.
Qed.

End DivisionFacts.

(** The built-ins on values whose JavaScript results are well known. *)
Module BuiltinExamples.
Import JS.
Local Open Scope float_scope.

Example toFixed_rounds_the_binary_value :
  toFixed 1.005 2 = "1.00" /\ toFixed 1.45 1 = "1.4"
  /\ toFixed 123.456 2 = "123.46".
Proof. split; [|split]; vm_compute; reflexivity. Qed.

Example toFixed_ties_go_up :
  toFixed 0.5 0 = "1" /\ toFixed 2.5 0 = "3" /\ toFixed 0.125 2 = "0.13".
Proof. split; [|split]; vm_compute; reflexivity. Qed.

Example toFixed_signs :
  toFixed (-2.5) 0 = "-3" /\ toFixed (-0.001) 2 = "-0.00"
  /\ toFixed (-0) 2 = "0.00".
Proof. split; [|split]; vm_compute; reflexivity. Qed.

Example toFixed_large_and_special :
  toFixed 1e21 2 = "1e+21" /\ toFixed nan 2 = "NaN"
  /\ toFixed infinity 2 = "Infinity".
Proof. split; [|split]; vm_compute; reflexivity. Qed.

Example toString_shortest_digits :
  toString 0.1 = "0.1" /\ toString (0.1 + 0.2) = "0.30000000000000004"
  /\ toString (1 / 3) = "0.3333333333333333".
Proof. split; [|split]; vm_compute; reflexivity. Qed.

Example toString_notations :
  toString 123456789012345680000 = "123456789012345680000"
  /\ toString 1e21 = "1e+21" /\ toString 0.000001 = "0.000001"
  /\ toString 1e-7 = "1e-7" /\ toString 5e-324 = "5e-324".
Proof. split; [|split; [|split; [|split]]]; vm_compute; reflexivity. Qed.

Example toString_integers :
  toString 0x1p60 = "1152921504606847000" /\ toString (-60) = "-60"
  /\ toString (-0) = "0".
Proof. split; [|split]; vm_compute; reflexivity. Qed.

Example Math_floor_values :
  Math_floor 3.999 = 3 /\ Math_floor (-0.5) = (-1) /\ Math_floor 0.5 = 0
  /\ Math_floor (-0) = (-0) /\ Math_floor nan = nan.
Proof. split; [|split; [|split; [|split]]]; vm_compute; reflexivity. Qed.

Example Math_min_values :
  Math_min 3 10 = 3 /\ Math_min 250 100 = 100 /\ Math_min nan 3 = nan
  /\ Math_min 0 (-0) = (-0).
Proof. split; [|split; [|split]]; vm_compute; reflexivity. Qed.

Example falsy_numbers :
  truthy 0 = false /\ truthy (-0) = false /\ truthy nan = false
  /\ truthy (-600) = true /\ truthy infinity = true.
Proof. split; [|split; [|split; [|split]]]; reflexivity. Qed.

End BuiltinExamples.

(* ================================================================== *)
(** * The formatters *)
(* ================================================================== *)

Module FormattersFacts.
Import JS Formatters NumberFacts StringFacts DivisionFacts.
Local Open Scope float_scope.

(** On a truthy value the conditional chain of [formatHashRate] is the
    selection of the largest unit met. *)
Lemma formatHashRate_truthy (h : number) :
  truthy h = true -> formatHashRate (Some h) = formatHashRate_described (Some h).
Proof.
  intros T. unfold formatHashRate, formatHashRate_described.
  assert (Z : is_zero h = false).
  { unfold truthy in T. apply negb_true_iff, orb_false_iff in T. tauto. }
  rewrite T, Z. simpl negb. cbv iota.
  unfold largest_unit_met, units. simpl find.
  destruct (geb h 1e12); [reflexivity|].
  destruct (geb h 1e9); [reflexivity|].
  destruct (geb h 1e6); [reflexivity|].
  destruct (geb h 1e3); reflexivity.
Qed.

(** A unit is selected only when its threshold is met, and below [10^15]
    the value is then less than a thousand times the threshold. *)
Lemma largest_unit_met_range (h t : number) (u : string) :
  largest_unit_met h = Some (t, u) -> (h <? 1e15) = true ->
  (t <=? h) = true /\ (h <? 1000 * t) = true.
Proof.
  unfold largest_unit_met, units, geb. simpl find. intros Hsel Hlt.
  destruct (1e12 <=? h) eqn:H12.
  { inversion Hsel; subst. split; [exact H12|exact Hlt]. }
  destruct (1e9 <=? h) eqn:H9.
  { inversion Hsel; subst. split; [exact H9|].
    now apply (ltb_of_not_leb 1e9 1e12 h). }
  destruct (1e6 <=? h) eqn:H6.
  { inversion Hsel; subst. split; [exact H6|].
    now apply (ltb_of_not_leb 1e6 1e9 h). }
  destruct (1e3 <=? h) eqn:H3.
  { inversion Hsel; subst. split; [exact H3|].
    now apply (ltb_of_not_leb 1e3 1e6 h). }
  discriminate Hsel.
Qed.

(** Each threshold and its thousandfold are normal numbers, ten binary
    exponents apart, so the quotient of a value between them by the
    threshold is displayed between 1.00 and 1000.00. *)
Lemma threshold_display (h t T : number) :
  In (t, T) [(1e3, 1e6); (1e6, 1e9); (1e9, 1e12); (1e12, 1e15)] ->
  (t <=? h) = true -> (h <? T) = true ->
  exists whole frac : string,
    toFixed (h / t) 2 = whole ++ "." ++ frac
    /\ String.length frac = 2%nat
    /\ all_digits whole = true /\ all_digits frac = true
    /\ (100 <= numeral_value whole * 100 + numeral_value frac <= 100000)%Z.
Proof.
  intros Hin Hle Hlt.
  assert (Hex : exists mt mT et eT,
    Prim2SF t = S754_finite false mt et
    /\ Prim2SF T = S754_finite false mT eT
    /\ (2 ^ 52 <= Zpos mt < 2 ^ 53)%Z /\ (2 ^ 52 <= Zpos mT < 2 ^ 53)%Z
    /\ (-1074 < et)%Z /\ (et <= eT <= et + 10)%Z /\ (eT <= 1000)%Z
    /\ (Zpos mT * 2 ^ (eT - et) = 1000 * Zpos mt)%Z).
  { simpl in Hin.
    destruct Hin as [E|[E|[E|[E|[]]]]]; inversion E; subst t T; clear E;
      eexists _, _, _, _;
      (split; [vm_compute; reflexivity|]);
      (split; [vm_compute; reflexivity|]);
      vm_compute; intuition congruence. }
  destruct Hex as (mt & mT & et & eT & Ht & HT & Nt & NT & Ee & EE & Em & Hk).
  exact (quotient_display h t T mt mT et eT Ht HT Nt NT Ee EE Em Hk Hle Hlt).
Qed.

(** With a unit selected and the value below [10^15], the string returned
    is a whole part, a point, two decimals and the unit, and the magnitude
    written is between 1.00 and 1000.00. *)
Lemma displayed_magnitude_range (h t : number) (u : string) :
  largest_unit_met h = Some (t, u) -> (h <? 1e15) = true ->
  exists whole frac : string,
    formatHashRate (Some h) = whole ++ "." ++ frac ++ u
    /\ String.length frac = 2%nat
    /\ all_digits whole = true /\ all_digits frac = true
    /\ (100 <= numeral_value whole * 100 + numeral_value frac <= 100000)%Z.
Proof.
  intros Hsel Hlt.
  destruct (largest_unit_met_range h t u Hsel Hlt) as [Hle HltT].
  pose proof (find_some _ _ Hsel) as [Hin _].
  unfold units in Hin. simpl in Hin.
  assert (Hpair : In (t, 1000 * t)
            [(1e3, 1e6); (1e6, 1e9); (1e9, 1e12); (1e12, 1e15)]).
  { destruct Hin as [E|[E|[E|[E|[]]]]]; inversion E; subst t u.
    - right; right; right; left. reflexivity.
    - right; right; left. reflexivity.
    - right; left. reflexivity.
    - left. reflexivity. }
  assert (Tr : truthy h = true).
  { apply (truthy_of_leb t); [|exact Hle].
    destruct Hin as [E|[E|[E|[E|[]]]]]; inversion E; reflexivity. }
  destruct (threshold_display h t (1000 * t) Hpair Hle HltT)
    as (whole & frac & E & L & Dw & Df & V).
  exists whole, frac.
  split; [|split; [exact L|split; [exact Dw|split; [exact Df|exact V]]]].
  rewrite (formatHashRate_truthy h Tr).
  unfold formatHashRate_described. rewrite Hsel.
  assert (Z : is_zero h = false).
  { unfold truthy in Tr. apply negb_true_iff, orb_false_iff in Tr. tauto. }
  rewrite Z, E. now rewrite !append_assoc.
Qed.

(** C3, as amended.  [formatHashRate] returns ["0 H/s"] for an absent,
    zero or NaN value.  For every other value it is what the specification
    describes: the quotient by the largest threshold met among [10^12]
    (TH/s), [10^9] (GH/s), [10^6] (MH/s) and [10^3] (KH/s), or the raw
    value (H/s), formatted by [toFixed(2)].  A selected threshold [t] is
    met, and a value below [10^15] is below [1000 * t], so the quotient is
    taken of a value in [[t, 1000 t)]; what is then displayed is a whole
    part, a point and two decimals reading between 1.00 and 1000.00, the
    upper end included since the two decimals may round up to [1000.00].
    The four examples of the claim hold. *)
Theorem formatHashRate_units :
  formatHashRate None = "0 H/s"
  /\ (forall h : number, truthy h = false -> formatHashRate (Some h) = "0 H/s")
  /\ (forall h : number, is_nan h = false ->
        formatHashRate (Some h) = formatHashRate_described (Some h))
  /\ (forall (h t : number) (u : string),
        largest_unit_met h = Some (t, u) -> (h <? 1e15) = true ->
        (t <=? h) = true /\ (h <? 1000 * t) = true)
  /\ (forall (h t : number) (u : string),
        largest_unit_met h = Some (t, u) -> (h <? 1e15) = true ->
        exists whole frac : string,
          formatHashRate (Some h) = whole ++ "." ++ frac ++ u
          /\ String.length frac = 2%nat
          /\ all_digits whole = true /\ all_digits frac = true
          /\ (100 <= numeral_value whole * 100 + numeral_value frac
                  <= 100000)%Z)
  /\ formatHashRate (Some 999) = "999.00 H/s"
  /\ formatHashRate (Some 1000) = "1.00 KH/s"
  /\ formatHashRate (Some 2500000) = "2.50 MH/s"
  /\ formatHashRate (Some 1500000000000) = "1.50 TH/s".
Proof.
  split; [reflexivity|].
  split.
  { intros h T. unfold formatHashRate. now rewrite T. }
  split.
  { intros h N. destruct (truthy h) eqn:T.
    - now apply formatHashRate_truthy.
    - apply falsy_inv in T. destruct T as [T|[T|T]]; subst h.
      + reflexivity.
      + reflexivity.
      + discriminate N. }
  split; [exact largest_unit_met_range|].
  split; [exact displayed_magnitude_range|].
  split; [vm_compute; reflexivity|].
  split; [vm_compute; reflexivity|].
  split; vm_compute; reflexivity.
Qed.

(** The hypotheses of [formatHashRate_units] hold at 2,500,000 H/s. *)
Lemma formatHashRate_units_witness :
  formatHashRate (Some 2500000) = formatHashRate_described (Some 2500000)
  /\ (1e6 <=? 2500000) = true /\ (2500000 <? 1000 * 1e6) = true
  /\ (exists whole frac : string,
        formatHashRate (Some 2500000) = whole ++ "." ++ frac ++ " MH/s"
        /\ String.length frac = 2%nat
        /\ all_digits whole = true /\ all_digits frac = true
        /\ (100 <= numeral_value whole * 100 + numeral_value frac
                <= 100000)%Z)
  /\ formatHashRate (Some (-0)) = "0 H/s".
Proof.
  destruct formatHashRate_units as (_ & Hzero & Hdesc & Hrange & Hshown & _).
  split; [apply Hdesc; reflexivity|].
  split; [apply (Hrange 2500000 1e6 " MH/s"); reflexivity|].
  split; [apply (Hrange 2500000 1e6 " MH/s"); reflexivity|].
  split; [apply (Hshown 2500000 1e6 " MH/s"); reflexivity|].
  apply Hzero; reflexivity.
Defined.

(** C3, as the claim states it, fails: with the KH/s threshold met, 999,999
    H/s is displayed with the magnitude [1000.00], and so is [10^15] H/s
    with the TH/s threshold met; neither is in [[1, 1000)]. *)
Lemma formatHashRate_magnitude_counterexample :
  geb 999999 1e3 = true
  /\ formatHashRate (Some 999999) = "1000.00 KH/s"
  /\ geb 1e15 1e12 = true
  /\ formatHashRate (Some 1e15) = "1000.00 TH/s".
Proof.
  split; [vm_compute; reflexivity|].
  split; [vm_compute; reflexivity|].
  split; vm_compute; reflexivity.
Qed.

(** C4.  Both [formatXMR] return ["0"] for an absent or zero value (and for
    NaN, which is falsy like zero); for every other value the exported one
    is [toFixed(8)] and the chain visualisation's own is [toFixed(4)] of
    the value divided by [10^12], which writes exactly 8, respectively 4,
    decimals while the quotient is below [10^21] in magnitude.  One whole
    coin is ["1.00000000"] and ["1.0000"]. *)
Theorem formatXMR_precisions :
  (Formatters.formatXMR None = "0" /\ ChainVisual.formatXMR None = "0")
  /\ (forall a : number, is_zero a = true ->
        Formatters.formatXMR (Some a) = "0"
        /\ ChainVisual.formatXMR (Some a) = "0")
  /\ (forall a : number, is_nan a = true ->
        Formatters.formatXMR (Some a) = "0"
        /\ ChainVisual.formatXMR (Some a) = "0")
  /\ (forall a : number, is_zero a = false -> is_nan a = false ->
        Formatters.formatXMR (Some a) = toFixed (a / 1e12) 8
        /\ ChainVisual.formatXMR (Some a) = toFixed (a / 1e12) 4)
  /\ (forall a : number, is_zero a = false -> (abs (a / 1e12) <? 1e21) = true ->
        decimals_exactly 8 (Formatters.formatXMR (Some a))
        /\ decimals_exactly 4 (ChainVisual.formatXMR (Some a)))
  /\ Formatters.formatXMR (Some 1000000000000) = "1.00000000"
  /\ ChainVisual.formatXMR (Some 1000000000000) = "1.0000".
Proof.
  assert (Hfalsy : forall a, truthy a = false ->
            Formatters.formatXMR (Some a) = "0"
            /\ ChainVisual.formatXMR (Some a) = "0").
  { intros a T. unfold Formatters.formatXMR, ChainVisual.formatXMR.
    rewrite T. split; reflexivity. }
  assert (Htruthy : forall a, truthy a = true ->
            Formatters.formatXMR (Some a) = toFixed (a / 1e12) 8
            /\ ChainVisual.formatXMR (Some a) = toFixed (a / 1e12) 4).
  { intros a T. unfold Formatters.formatXMR, ChainVisual.formatXMR.
    rewrite T. split; reflexivity. }
  split; [split; reflexivity|].
  split.
  { intros a Z. apply Hfalsy. unfold truthy. now rewrite Z. }
  split.
  { intros a N. apply Hfalsy. unfold truthy. rewrite N.
    now rewrite orb_true_r. }
  split.
  { intros a Z N. apply Htruthy. unfold truthy. now rewrite Z, N. }
  split.
  { intros a Z Hq.
    assert (N : is_nan a = false).
    { destruct (is_nan a) eqn:N; [|reflexivity].
      apply is_nan_inv in N. subst a. vm_compute in Hq. discriminate Hq. }
    assert (T : truthy a = true) by (unfold truthy; now rewrite Z, N).
    destruct (Htruthy a T) as [H8 H4].
    rewrite H8, H4.
    split; apply toFixed_decimals; (discriminate || exact Hq). }
  split; vm_compute; reflexivity.
Qed.

(** The hypotheses of [formatXMR_precisions] hold at 2.5 coins, at zero and
    at NaN. *)
Lemma formatXMR_precisions_witness :
  Formatters.formatXMR (Some 2500000000000) = toFixed (2500000000000 / 1e12) 8
  /\ decimals_exactly 4 (ChainVisual.formatXMR (Some 2500000000000))
  /\ Formatters.formatXMR (Some (-0)) = "0"
  /\ ChainVisual.formatXMR (Some nan) = "0".
Proof.
  destruct formatXMR_precisions as (_ & Hzero & Hnan & Hfix & Hdec & _).
  split; [apply Hfix; reflexivity|].
  split; [apply Hdec; reflexivity|].
  split; [apply Hzero; reflexivity|].
  apply Hnan; reflexivity.
Defined.

End FormattersFacts.

(* ================================================================== *)
(** * The full chain visualisation *)
(* ================================================================== *)

Module ChainVisualFacts.
Import JS ChainVisual NumberFacts.
Local Open Scope float_scope.

(** The three conditional chains of [BlockCard] pick the classes of the
    tier of the effort they are given. *)
Lemma effort_classes (e : number) (t : Tier) :
  tier_of e = Some t ->
  (effortBorder e, effortColor e, effortGlow e) = tier_classes t.
Proof.
  unfold tier_of, effortBorder, effortColor, effortGlow.
  destruct (e <? 50) eqn:H50.
  { intros H; injection H as <-. reflexivity. }
  destruct (50 <=? e) eqn:G50; simpl andb.
  - destruct (e <? 100) eqn:H100.
    { intros H; injection H as <-. reflexivity. }
    destruct (100 <=? e) eqn:G100; simpl andb.
    + destruct (e <? 150) eqn:H150.
      { intros H; injection H as <-. reflexivity. }
      destruct (150 <=? e); intros H; [|discriminate H].
      injection H as <-. reflexivity.
    + destruct (150 <=? e) eqn:G150; intros H; [|discriminate H].
      injection H as <-.
      rewrite (ltb_false_of_leb _ _ G150). reflexivity.
  - destruct (100 <=? e) eqn:G100; simpl andb.
    + rewrite (ltb_false_of_leb _ _ G100).
      destruct (e <? 150) eqn:H150.
      { intros H; injection H as <-. reflexivity. }
      destruct (150 <=? e); intros H; [|discriminate H].
      injection H as <-. reflexivity.
    + destruct (150 <=? e) eqn:G150; intros H; [|discriminate H].
      injection H as <-.
      rewrite (ltb_false_above 100 150 e) by (reflexivity || exact G150).
      rewrite (ltb_false_of_leb _ _ G150). reflexivity.
Qed.

(** [block.effort || 0] is [block.effort ?? 0], except that a falsy effort
    ([+0], [-0], NaN) becomes [+0]. *)
Lemma or_zero_nullish (x : option number) :
  or_zero x = nullish_zero x
  \/ (or_zero x = 0
      /\ (nullish_zero x = 0 \/ nullish_zero x = -0 \/ nullish_zero x = nan)).
Proof.
  destruct x as [v|]; simpl; [|now left].
  unfold or_else. destruct (truthy v) eqn:T; [now left|].
  right. split; [reflexivity|]. now apply falsy_inv.
Qed.

(** C5.  With [effort = block.effort ?? 0], a card's border, fill gradient
    and glow are those of one and the same tier: green below 50, cyan from
    50 to below 100, orange from 100 to below 150, red from 150 on.  The
    boundaries are closed below and open above: 49.999 is green, 50 cyan,
    99.999 cyan, 100 orange, 149.999 orange and 150 red. *)
Theorem effort_tiers :
  (forall (toLocaleString : number -> string) (now : number)
          (block : Block) (index : nat) (isLatest : bool) (t : Tier),
      tier_of (nullish_zero (effort block)) = Some t ->
      let card := BlockCard toLocaleString now block index isLatest in
      (card_border card, card_gradient card, card_glow card) = tier_classes t)
  /\ (forall e : number, (e <? 50) = true -> tier_of e = Some Green)
  /\ (forall e : number,
        (50 <=? e) = true -> (e <? 100) = true -> tier_of e = Some Cyan)
  /\ (forall e : number,
        (100 <=? e) = true -> (e <? 150) = true -> tier_of e = Some Orange)
  /\ (forall e : number, (150 <=? e) = true -> tier_of e = Some Red)
  /\ tier_of 49.999 = Some Green
  /\ tier_of 50 = Some Cyan
  /\ tier_of 99.999 = Some Cyan
  /\ tier_of 100 = Some Orange
  /\ tier_of 149.999 = Some Orange
  /\ tier_of 150 = Some Red.
Proof.
  split.
  { intros toLocaleString now block index isLatest t Ht. unfold BlockCard.
    cbn [card_border card_gradient card_glow].
    destruct (or_zero_nullish (effort block)) as [E|[E Hz]].
    - rewrite E. now apply effort_classes.
    - rewrite E. apply effort_classes.
      destruct Hz as [Hz|[Hz|Hz]]; rewrite Hz in Ht.
      + exact Ht.
      + exact Ht.
      + discriminate Ht. }
  split.
  { intros e H. unfold tier_of. now rewrite H. }
  split.
  { intros e G H. unfold tier_of.
    rewrite (ltb_false_of_leb _ _ G), G, H. reflexivity. }
  split.
  { intros e G H. unfold tier_of.
    rewrite (ltb_false_above 50 100 e) by (reflexivity || exact G).
    rewrite (ltb_false_of_leb _ _ G), andb_false_r, G, H. reflexivity. }
  split.
  { intros e G. unfold tier_of.
    rewrite (ltb_false_above 50 150 e) by (reflexivity || exact G).
    rewrite (ltb_false_above 100 150 e) by (reflexivity || exact G).
    rewrite (ltb_false_of_leb _ _ G), !andb_false_r, G. reflexivity. }
  split; [reflexivity|].
  split; [reflexivity|].
  split; [reflexivity|].
  split; [reflexivity|].
  split; reflexivity.
Qed.

(** The hypotheses of [effort_tiers] hold for a block of effort 120 (on a
    host that writes numbers without grouping), and at the efforts 20, 75,
    120 and 400. *)
Lemma effort_tiers_witness :
  (let card :=
     BlockCard toString 1700000600000
       {| hash := "9f8e7d6c5b4a"; height := 3100000; ts := 1700000000;
          difficulty := None; value := 600000000000; fee := 0;
          effort := Some 120; solo := None |} 0 true in
   (card_border card, card_gradient card, card_glow card) = tier_classes Orange)
  /\ tier_of 20 = Some Green /\ tier_of 75 = Some Cyan
  /\ tier_of 120 = Some Orange /\ tier_of 400 = Some Red.
Proof.
  destruct effort_tiers as (Hcard & Hg & Hc & Ho & Hr & _).
  split; [apply Hcard; reflexivity|].
  split; [apply Hg; reflexivity|].
  split; [apply Hc; reflexivity|].
  split; [apply Ho; reflexivity|].
  apply Hr; reflexivity.
Defined.

(** C6, as amended.  The estimate is [floor(difficulty / poolHashRate)]
    when both are truthy (neither zero nor NaN), as they are when both are
    positive, and [0] when either is absent, zero or NaN, so that nothing
    is divided by a zero hash rate; the minutes displayed are
    [floor(estimatedSeconds / 60)].  A difficulty of 600 at 10 H/s is
    displayed as 1 minute. *)
Theorem pending_eta_estimate :
  (forall d p : number,
      truthy d = true -> truthy p = true ->
      estimatedSeconds d p = Math_floor (d / p))
  /\ (forall d p : number,
        (0 <? d) = true -> (0 <? p) = true ->
        estimatedSeconds d p = Math_floor (d / p))
  /\ (forall d p : number,
        truthy d = false \/ truthy p = false -> estimatedSeconds d p = 0)
  /\ (forall d p : number,
        estimatedMinutes d p = Math_floor (estimatedSeconds d p / 60))
  /\ (forall (currentEffort : nullable)
             (difficulty poolHashRate : option number),
        pending_eta (PendingBlock currentEffort difficulty poolHashRate)
        = "~" ++ toString (estimatedMinutes (nullish_zero difficulty)
                             (nullish_zero poolHashRate)) ++ "m ETA")
  /\ estimatedSeconds 600 10 = 60
  /\ estimatedMinutes 600 10 = 1
  /\ (forall currentEffort : nullable,
        pending_eta (PendingBlock currentEffort (Some 600) (Some 10))
        = "~1m ETA")
  /\ (forall d : number, estimatedSeconds d 0 = 0)
  /\ (forall (currentEffort : nullable) (d : number),
        pending_eta (PendingBlock currentEffort (Some d) (Some 0)) = "~0m ETA"
        /\ pending_eta (PendingBlock currentEffort (Some d) None) = "~0m ETA").
Proof.
  assert (Hzero : forall d : number, estimatedSeconds d 0 = 0).
  { intros d. unfold estimatedSeconds.
    change (truthy 0) with false. now rewrite andb_false_r. }
  split.
  { intros d p Td Tp. unfold estimatedSeconds. now rewrite Td, Tp. }
  split.
  { intros d p Hd Hp. unfold estimatedSeconds.
    now rewrite (truthy_of_pos d Hd), (truthy_of_pos p Hp). }
  split.
  { intros d p [T|T]; unfold estimatedSeconds; rewrite T;
      [reflexivity|now rewrite andb_false_r]. }
  split; [reflexivity|].
  split; [reflexivity|].
  split; [vm_compute; reflexivity|].
  split; [vm_compute; reflexivity|].
  split; [intros ce; vm_compute; reflexivity|].
  split; [exact Hzero|].
  intros ce d. unfold PendingBlock, estimatedMinutes. cbn [pending_eta nullish_zero].
  rewrite Hzero. split; vm_compute; reflexivity.
Qed.

(** The hypotheses of [pending_eta_estimate] hold at a difficulty of 1200
    and 10 H/s, and at an absent (zero) difficulty. *)
Lemma pending_eta_estimate_witness :
  estimatedSeconds 1200 10 = Math_floor (1200 / 10)
  /\ estimatedSeconds 0 10 = 0.
Proof.
  destruct pending_eta_estimate as (_ & Hpos & Hfalsy & _).
  split; [apply Hpos; reflexivity|].
  apply Hfalsy. left. reflexivity.
Defined.

(** C6, as the claim states it, fails: a difficulty of -600 is not
    positive, yet it is truthy, and the estimate at 10 H/s is [-60]
    seconds ([-1] minute), not [0]. *)
Lemma pending_eta_negative_counterexample :
  (0 <? -600) = false
  /\ estimatedSeconds (-600) 10 = (-60)
  /\ estimatedMinutes (-600) 10 = (-1)
  /\ (estimatedSeconds (-600) 10 =? 0) = false.
Proof.
  split; [reflexivity|].
  split; [vm_compute; reflexivity|].
  split; vm_compute; reflexivity.
Qed.

(** The sample of the stats bar: the first ten blocks, counted by
    [Math.min(blocks.length, 10)]. *)
Lemma sample_count (blocks : list Block) :
  List.length (slice_to 10 blocks) = sampleCount blocks.
Proof. unfold slice_to, sampleCount. rewrite length_firstn. apply Nat.min_comm. Qed.

Lemma sample_guard (blocks : list Block) :
  Nat.ltb 0 (List.length (slice_to 10 blocks)) = true <-> blocks <> [].
Proof.
  rewrite sample_count, Nat.ltb_lt. unfold sampleCount.
  destruct blocks as [|b rest]; simpl; split; intros H; try congruence; lia.
Qed.

(** A count from 1 to 10 is a non-zero Number. *)
Lemma count_nonzero (k : nat) :
  (1 <= k <= 10)%nat -> is_zero (of_nat k) = false /\ truthy (of_nat k) = true.
Proof.
  intros [H1 H10].
  do 11 (destruct k as [|k]; [first [lia | split; reflexivity]|]). lia.
Qed.

(** C7.  For a non-empty sequence the stats row that [BlockchainVisual]
    renders is computed over the first [min(length, 10)] blocks: the average
    effort it displays is the sum of the sampled [effort || 0] divided by
    the sample count, written by [toFixed(1)], and the average reward it
    displays is the chain visualisation's 4-decimal [formatXMR] of the sum
    of the sampled [value || 0] divided by the sample count, whatever the
    other props.  A present, non-zero effort or value enters the sum as
    itself, an absent effort as [0].  Efforts 10, 20, 30 with values
    [10^12], [2 * 10^12], [3 * 10^12] give 20.0 and [formatXMR(2 * 10^12)]. *)
Theorem aggregate_stats :
  (forall (toLocaleString : number -> string) (now : number)
          (currentEffort : nullable)
          (networkDifficulty poolHashRate : option number)
          (blocks : list Block),
      blocks <> [] ->
      let sample := firstn 10 blocks in
      let count := List.length sample in
      let stats :=
        view_stats (BlockchainVisual toLocaleString now (Some blocks)
                      currentEffort networkDifficulty poolHashRate) in
      count = Nat.min (List.length blocks) 10
      /\ (1 <= count <= 10)%nat
      /\ stat_avgEffort stats
         = toFixed (fold_left (fun acc b => acc + or_zero (effort b)) sample 0
                    / of_nat count) 1 ++ "%"
      /\ stat_avgReward stats
         = formatXMR
             (Some (fold_left (fun acc b => acc + or_else (value b) 0) sample 0
                    / of_nat count)))
  /\ or_zero None = 0
  /\ (forall e : number, truthy e = true ->
        or_zero (Some e) = e /\ or_else e 0 = e)
  /\ (forall (toLocaleString : number -> string) (now : number)
             (currentEffort : nullable)
             (networkDifficulty poolHashRate : option number)
             (b1 b2 b3 : Block),
        effort b1 = Some 10 -> effort b2 = Some 20 -> effort b3 = Some 30 ->
        value b1 = 1e12 -> value b2 = 2e12 -> value b3 = 3e12 ->
        let stats :=
          view_stats (BlockchainVisual toLocaleString now (Some [b1; b2; b3])
                        currentEffort networkDifficulty poolHashRate) in
        stat_avgEffort stats = "20.0%"
        /\ stat_avgReward stats = formatXMR (Some 2e12)
        /\ formatXMR (Some 2e12) = "2.0000").
Proof.
  split.
  { intros toLocaleString now ce nd ph blocks Hne sample count stats.
    assert (Hcount : count = sampleCount blocks) by apply sample_count.
    assert (Hguard : Nat.ltb 0 (List.length (slice_to 10 blocks)) = true)
      by now apply sample_guard.
    split; [exact Hcount|].
    split.
    { rewrite Hcount. unfold sampleCount.
      destruct blocks as [|b rest]; [congruence|]. simpl List.length. lia. }
    unfold stats, BlockchainVisual.
    cbn [view_stats stat_avgEffort stat_avgReward].
    unfold avgEffort, avgReward. rewrite Hguard, Hcount.
    split; reflexivity. }
  split; [reflexivity|].
  split.
  { intros e T. unfold or_zero, or_else. rewrite T. split; reflexivity. }
  intros toLocaleString now ce nd ph
         [h1 ht1 t1 d1 v1 f1 e1 s1] [h2 ht2 t2 d2 v2 f2 e2 s2]
         [h3 ht3 t3 d3 v3 f3 e3 s3].
  cbn [effort value]. intros -> -> -> -> -> ->. cbv zeta.
  unfold BlockchainVisual.
  cbn [view_stats stat_avgEffort stat_avgReward].
  split; [vm_compute; reflexivity|].
  split; vm_compute; reflexivity.
Qed.

(** The hypothesis of [aggregate_stats] holds for twelve blocks of effort
    90, of which ten are sampled, and its example for three blocks, on a
    host that writes numbers without grouping. *)
Lemma aggregate_stats_witness :
  let b e v :=
    {| hash := "9f8e7d6c5b4a"; height := 3100000; ts := 1700000000;
       difficulty := None; value := v; fee := 0; effort := Some e;
       solo := None |} in
  let stats blocks :=
    view_stats (BlockchainVisual toString 1700000600000 (Some blocks)
                  Undefined None None) in
  List.length (firstn 10 (repeat (b 90 6e11) 12)) = 10%nat
  /\ stat_avgEffort (stats (repeat (b 90 6e11) 12)) = "90.0%"
  /\ stat_avgReward (stats (repeat (b 90 6e11) 12)) = "0.6000"
  /\ stat_avgEffort (stats [b 10 1e12; b 20 2e12; b 30 3e12]) = "20.0%"
  /\ or_zero (Some 90) = 90.
Proof.
  intros b stats. destruct aggregate_stats as (Hstats & _ & Hdef & Hex).
  assert (Hne : repeat (b 90 6e11) 12 <> []) by discriminate.
  destruct (Hstats toString 1700000600000 Undefined None None
              (repeat (b 90 6e11) 12) Hne) as (Hcount & _ & Heffort & Hreward).
  split; [exact Hcount|].
  split.
  { unfold stats. rewrite Heffort. vm_compute. reflexivity. }
  split.
  { unfold stats. rewrite Hreward. vm_compute. reflexivity. }
  split.
  { exact (proj1 (Hex toString 1700000600000 Undefined None None
                    (b 10 1e12) (b 20 2e12) (b 30 3e12)
                    eq_refl eq_refl eq_refl eq_refl eq_refl eq_refl)). }
  apply Hdef. reflexivity.
Defined.

(** C8.  For an absent or empty sequence the stats bar shows a dash for the
    latest height and for the age of the last block, ["0%"] for the average
    effort and ["0"] for the average reward.  Both divisions by the sample
    count stand behind the length check [hasSample]: where it fails the
    averages are these constants, and where it holds the sample count is
    between 1 and 10, a non-zero divisor. *)
Theorem empty_stats :
  (forall (toLocaleString : number -> string) (now : number)
          (blocks : option (list Block)) (currentEffort : nullable)
          (networkDifficulty poolHashRate : option number),
      blocks = None \/ blocks = Some [] ->
      view_stats (BlockchainVisual toLocaleString now blocks currentEffort
                    networkDifficulty poolHashRate)
      = {| stat_latestHeight := "-"; stat_avgEffort := "0%";
           stat_avgReward := "0"; stat_lastFound := "-" |})
  /\ (forall blocks : option (list Block),
        hasSample blocks = false ->
        (blocks = None \/ blocks = Some [])
        /\ avgEffort blocks = "0%" /\ avgReward blocks = "0")
  /\ (forall blocks : list Block,
        hasSample (Some blocks) = true ->
        (1 <= sampleCount blocks <= 10)%nat
        /\ is_zero (of_nat (sampleCount blocks)) = false
        /\ avgEffort (Some blocks)
           = toFixed (sumEffort blocks / of_nat (sampleCount blocks)) 1 ++ "%"
        /\ avgReward (Some blocks)
           = formatXMR (Some (sumValue blocks / of_nat (sampleCount blocks)))).
Proof.
  split.
  { intros toLocaleString now blocks ce nd ph [->| ->]; reflexivity. }
  split.
  { intros [bs|] H.
    - assert (E : bs = []).
      { destruct bs as [|b rest]; [reflexivity|discriminate H]. }
      subst bs. split; [now right|]. split; reflexivity.
    - split; [now left|]. split; reflexivity. }
  intros blocks H. unfold hasSample in H.
  assert (Hrange : (1 <= sampleCount blocks <= 10)%nat).
  { pose proof H as H'. rewrite sample_count in H'. apply Nat.ltb_lt in H'.
    split; [lia|]. unfold sampleCount. apply Nat.le_min_r. }
  split; [exact Hrange|].
  split; [now apply count_nonzero|].
  unfold avgEffort, avgReward. rewrite H. split; reflexivity.
Qed.

(** The hypotheses of [empty_stats] hold for an absent sequence, and for a
    sequence of one block. *)
Lemma empty_stats_witness :
  view_stats (BlockchainVisual toString 1700000600000 None Undefined None
                None)
  = {| stat_latestHeight := "-"; stat_avgEffort := "0%";
       stat_avgReward := "0"; stat_lastFound := "-" |}
  /\ avgEffort (Some []) = "0%"
  /\ is_zero
       (of_nat (sampleCount
                  [ {| hash := "9f8e7d6c5b4a"; height := 3100000;
                       ts := 1700000000; difficulty := None;
                       value := 600000000000; fee := 0; effort := Some 90;
                       solo := None |} ])) = false.
Proof.
  destruct empty_stats as (Hdash & Hoff & Hon).
  split; [apply Hdash; now left|].
  split; [apply (Hoff (Some [])); reflexivity|].
  apply Hon. reflexivity.
Defined.

End ChainVisualFacts.

(* ================================================================== *)
(** * The compact block feed *)
(* ================================================================== *)

Module BlockVisualizerFacts.
Import JS BlockVisualizer.

(** The feed of a rendered panel: rows for the first five blocks, or the
    empty-state message. *)
Lemma compact_feed_panel
    (toLocaleString toLocaleTimeString : number -> string) (props : Props) :
  exists panel,
    BlockchainVisual toLocaleString toLocaleTimeString props = Loaded panel
    /\ panel_feed panel =
       match blocks props with
       | Some (b :: rest) =>
           FeedRows (rows_from toLocaleTimeString 0 (slice_to 5 (b :: rest)))
       | _ => FeedEmpty "No blocks found yet"
       end.
Proof.
  unfold BlockchainVisual. eexists. split; [reflexivity|].
  cbn [panel_feed]. destruct (blocks props) as [[|b rest]|]; reflexivity.
Qed.

(** The early return is never taken: the default [blocks = []] has replaced
    an absent sequence before [blocks === undefined] is computed. *)
Lemma compact_feed_never_loading
    (toLocaleString toLocaleTimeString : number -> string) (props : Props)
    (bars : list nat) :
  BlockchainVisual toLocaleString toLocaleTimeString props <> Loading bars.
Proof.
  destruct (compact_feed_panel toLocaleString toLocaleTimeString props)
    as (panel & H & _).
  rewrite H. discriminate.
Qed.

(** C1: what the code does at an absent sequence.  It renders the panel
    with the empty-state message, not the three loading bars; the
    empty-state message is shown exactly when the sequence is absent or
    empty, and the loading state for no input at all. *)
Theorem undefined_blocks_render_empty_state
    (toLocaleString toLocaleTimeString : number -> string)
    (currentEffort : nullable)
    (networkDifficulty poolHashRate : option number) :
  (exists panel,
      BlockchainVisual toLocaleString toLocaleTimeString
        {| blocks := None; currentEffort := currentEffort;
           networkDifficulty := networkDifficulty;
           poolHashRate := poolHashRate |} = Loaded panel
      /\ panel_feed panel = FeedEmpty "No blocks found yet")
  /\ (forall (props : Props) (bars : list nat),
        BlockchainVisual toLocaleString toLocaleTimeString props
        <> Loading bars)
  /\ (forall props : Props,
        (exists panel,
            BlockchainVisual toLocaleString toLocaleTimeString props
            = Loaded panel
            /\ panel_feed panel = FeedEmpty "No blocks found yet")
        <-> (blocks props = None \/ blocks props = Some [])).
Proof.
  split.
  { destruct (compact_feed_panel toLocaleString toLocaleTimeString
                {| blocks := None; currentEffort := currentEffort;
                   networkDifficulty := networkDifficulty;
                   poolHashRate := poolHashRate |}) as (panel & H & Hfeed).
    exists panel. split; [exact H|exact Hfeed]. }
  split; [intros props bars; apply compact_feed_never_loading|].
  intros props.
  destruct (compact_feed_panel toLocaleString toLocaleTimeString props)
    as (panel & H & Hfeed).
  split.
  - intros (panel' & H' & Hempty). rewrite H in H'. injection H' as <-.
    rewrite Hfeed in Hempty.
    destruct (blocks props) as [[|b rest]|]; [now right|discriminate|now left].
  - intros Hb. exists panel. split; [exact H|]. rewrite Hfeed.
    destruct Hb as [-> | ->]; reflexivity.
Qed.

(** At most five rows are rendered. *)
Lemma compact_feed_rows
    (toLocaleTimeString : number -> string) (index : nat) (bs : list Block) :
  List.length (rows_from toLocaleTimeString index bs) = List.length bs.
Proof.
  revert index. induction bs as [|b rest IH]; intros index; simpl;
    [reflexivity|now rewrite IH].
Qed.

End BlockVisualizerFacts.

(* ================================================================== *)
(** * The dashboard page *)
(* ================================================================== *)

Module IndexFacts.
Import JS Index.
Local Open Scope float_scope.

(** [slice(-n)] keeps the last [n] elements. *)
Lemma slice_last_length {A} (n : nat) (xs : list A) :
  List.length (slice_last n xs) = Nat.min (List.length xs) n.
Proof. unfold slice_last. rewrite length_skipn. lia. Qed.

Lemma slice_last_all {A} (n : nat) (xs : list A) :
  (List.length xs <= n)%nat -> slice_last n xs = xs.
Proof.
  intros H. unfold slice_last.
  replace (List.length xs - n)%nat with 0%nat by lia. apply skipn_0.
Qed.

Lemma slice_last_map {A B} (f : A -> B) (n : nat) (xs : list A) :
  slice_last n (map f xs) = map f (slice_last n xs).
Proof. unfold slice_last. now rewrite length_map, skipn_map. Qed.

(** C9.  The derived chart series maps each raw point to its localized
    hour-and-minute string and its rate divided by [10^6], and keeps the
    last 48 points in the supplied order: 48 of 100 points, namely the
    points 52 to 99, and the whole of a series of 48 points or fewer; an
    absent series derives the empty one. *)
Theorem chart_series_window
    (toLocaleHourMinute : number -> string) (raw : list ChartPoint) :
  let derive point :=
    {| time := toLocaleHourMinute (ts point); pool := hs point / 1e6 |} in
  let derived := processedChartData toLocaleHourMinute (Some raw) in
  derived = map derive (slice_last 48 raw)
  /\ List.length derived = Nat.min (List.length raw) 48
  /\ (forall i : nat,
        nth_error derived i
        = option_map derive (nth_error raw (List.length raw - 48 + i)))
  /\ (List.length raw = 100%nat ->
      List.length derived = 48%nat
      /\ forall i : nat,
           (i < 48)%nat ->
           exists point,
             nth_error raw (52 + i) = Some point
             /\ nth_error derived i = Some (derive point))
  /\ ((List.length raw <= 48)%nat -> derived = map derive raw)
  /\ processedChartData toLocaleHourMinute None = [].
Proof.
  intros derive derived.
  assert (E : derived = map derive (slice_last 48 raw)).
  { subst derived. unfold processedChartData. apply slice_last_map. }
  assert (Hnth : forall i : nat,
             nth_error derived i
             = option_map derive (nth_error raw (List.length raw - 48 + i))).
  { intros i. rewrite E, nth_error_map. unfold slice_last.
    now rewrite nth_error_skipn. }
  split; [exact E|].
  split; [rewrite E, length_map; apply slice_last_length|].
  split; [exact Hnth|].
  split.
  { intros H100. split.
    - rewrite E, length_map, slice_last_length, H100. reflexivity.
    - intros i Hi. specialize (Hnth i). rewrite H100 in Hnth.
      change (100 - 48 + i)%nat with (52 + i)%nat in Hnth.
      destruct (nth_error raw (52 + i)) as [point|] eqn:P.
      + exists point. split; [reflexivity|exact Hnth].
      + apply nth_error_None in P. lia. }
  split; [|reflexivity].
  intros Hle. rewrite E. now rewrite slice_last_all.
Qed.

(** The hypotheses of [chart_series_window] hold for 100 points, of which
    the first derived one is the raw point 52, and for 3 points. *)
Lemma chart_series_window_witness :
  let raw :=
    map (fun i => {| ts := of_nat i * 60000; hs := of_nat i * 1e6 |})
      (seq 0 100) in
  List.length (processedChartData toString (Some raw)) = 48%nat
  /\ processedChartData toString (Some (firstn 3 raw))
     = [ {| time := "0"; pool := 0 |}; {| time := "60000"; pool := 1 |};
         {| time := "120000"; pool := 2 |} ].
Proof.
  intros raw.
  split.
  - exact (proj1 (proj1 (proj2 (proj2 (proj2
             (chart_series_window toString raw)))) eq_refl)).
  - rewrite (proj1 (proj2 (proj2 (proj2 (proj2
               (chart_series_window toString (firstn 3 raw))))))).
    + vm_compute. reflexivity.
    + vm_compute. lia.
Defined.

(** The pool fee read from the response: the configured fee when it is
    truthy, [0.9] when it is absent, zero or NaN. *)
Lemma poolFee_value (poolData : option PoolStatsResponse) :
  poolFee poolData =
  match opt (opt poolData config) pplns_fee with
  | Some fee => if truthy fee then fee else 0.9
  | None => 0.9
  end.
Proof. unfold poolFee, or_default, or_else. reflexivity. Qed.

(** Without an error of the pool-statistics query the page is rendered, and
    its sections are these. *)
Lemma MoneroPool_dashboard
    (toLocaleString toLocaleTimeString toLocaleHourMinute : number -> string)
    (clock : string)
    (poolQuery : Query PoolStatsResponse)
    (chartQuery : Query (list ChartPoint))
    (blocksQuery : Query (list BlockVisualizer.Block)) :
  error poolQuery = None ->
  exists page,
    MoneroPool toLocaleString toLocaleTimeString toLocaleHourMinute clock
      poolQuery chartQuery blocksQuery = Dashboard page
    /\ cfg_fee (page_config page) = toString (poolFee (data poolQuery)) ++ "%"
    /\ page_chart page =
       (let processed :=
          processedChartData toLocaleHourMinute (data chartQuery) in
        if Nat.ltb 0 (List.length processed)
        then AreaChart processed else ChartSkeleton)
    /\ page_blocks page =
       BlockVisualizer.BlockchainVisual toLocaleString toLocaleTimeString
         {| BlockVisualizer.blocks := data blocksQuery;
            BlockVisualizer.currentEffort :=
              opt_field
                (opt (opt (data poolQuery) pool_statistics) collective)
                currentEffort;
            BlockVisualizer.networkDifficulty :=
              opt (opt (data poolQuery) network_statistics) net_difficulty;
            BlockVisualizer.poolHashRate :=
              opt (opt (opt (data poolQuery) pool_statistics) collective)
                hashRate |}.
Proof.
  intros Herr. unfold MoneroPool. rewrite Herr. eexists.
  split; [reflexivity|]. cbn [page_config cfg_fee page_chart page_blocks].
  split; [reflexivity|]. split; reflexivity.
Qed.

(** C10.  A fee of zero in the response is displayed as the default 0.9,
    exactly as an absent fee is, because the default replaces every falsy
    value. *)
Theorem zero_fee_shows_default
    (toLocaleString toLocaleTimeString toLocaleHourMinute : number -> string)
    (clock : string)
    (poolQuery : Query PoolStatsResponse)
    (chartQuery : Query (list ChartPoint))
    (blocksQuery : Query (list BlockVisualizer.Block))
    (response : PoolStatsResponse) (cfg : Config) :
  error poolQuery = None ->
  data poolQuery = Some response ->
  config response = Some cfg ->
  pplns_fee cfg = Some 0 \/ pplns_fee cfg = None ->
  poolFee (data poolQuery) = 0.9
  /\ exists page,
       MoneroPool toLocaleString toLocaleTimeString toLocaleHourMinute clock
         poolQuery chartQuery blocksQuery = Dashboard page
       /\ cfg_fee (page_config page) = "0.9%".
Proof.
  intros Herr Hdata Hcfg Hfee.
  assert (Hdefault : poolFee (data poolQuery) = 0.9).
  { rewrite poolFee_value, Hdata. cbn [opt]. rewrite Hcfg. cbn [opt].
    destruct Hfee as [-> | ->]; reflexivity. }
  split; [exact Hdefault|].
  destruct (MoneroPool_dashboard toLocaleString toLocaleTimeString
              toLocaleHourMinute clock poolQuery chartQuery blocksQuery Herr)
    as (page & Hpage & Hfeetext & _).
  exists page. split; [exact Hpage|].
  rewrite Hfeetext, Hdefault. vm_compute. reflexivity.
Qed.

(** The hypotheses of [zero_fee_shows_default] hold for a response whose
    only field is a configuration with a fee of 0. *)
Lemma zero_fee_shows_default_witness :
  poolFee
    (Some {| pool_statistics := None; network_statistics := None;
             market := None; block_template := None;
             config := Some {| pplns_fee := Some 0; payout := None;
                               maturity_depth := None |};
             online := None |}) = 0.9.
Proof.
  set (cfg := {| pplns_fee := Some 0; payout := None; maturity_depth := None |}).
  set (response :=
         {| pool_statistics := None; network_statistics := None;
            market := None; block_template := None; config := Some cfg;
            online := None |}).
  exact (proj1 (zero_fee_shows_default toString toString toString "12:00:00"
                  {| data := Some response; isLoading := false; error := None |}
                  {| data := None; isLoading := false; error := None |}
                  {| data := None; isLoading := false; error := None |}
                  response cfg eq_refl eq_refl eq_refl (or_introl eq_refl))).
Defined.

(** A non-empty raw series derives a non-empty series. *)
Lemma processedChartData_nonempty
    (toLocaleHourMinute : number -> string)
    (point : ChartPoint) (points : list ChartPoint) :
  Nat.ltb 0 (List.length
               (processedChartData toLocaleHourMinute (Some (point :: points))))
  = true.
Proof.
  unfold processedChartData. rewrite slice_last_length, length_map.
  apply Nat.ltb_lt. simpl List.length. lia.
Qed.

(** C2, as amended.  The full-page error view is rendered if and only if
    the pool-statistics query holds an error; otherwise the page is
    rendered, whatever the state of the chart and blocks queries, whose
    errors the page never reads: what is rendered depends on those two
    queries through their data alone, and the header, the four stat cards,
    the network, pool, solo and market panels and the configuration panel
    do not depend on them at all.  The chart
    section shows its loading placeholder when the chart query holds no
    data or an empty series, and the series it holds otherwise; the blocks
    section shows its empty state when the blocks query holds no data or no
    block. *)
Theorem error_gate
    (toLocaleString toLocaleTimeString toLocaleHourMinute : number -> string)
    (clock : string)
    (poolQuery : Query PoolStatsResponse)
    (chartQuery : Query (list ChartPoint))
    (blocksQuery : Query (list BlockVisualizer.Block)) :
  let render :=
    MoneroPool toLocaleString toLocaleTimeString toLocaleHourMinute clock
      poolQuery in
  (render chartQuery blocksQuery
   = ErrorScreen "Failed to load pool data" "Retry"
   <-> error poolQuery <> None)
  /\ ((exists page, render chartQuery blocksQuery = Dashboard page)
      <-> error poolQuery = None)
  /\ (forall chartQuery' blocksQuery',
        data chartQuery' = data chartQuery ->
        data blocksQuery' = data blocksQuery ->
        render chartQuery' blocksQuery' = render chartQuery blocksQuery)
  /\ (forall chartQuery' blocksQuery' page page',
        render chartQuery blocksQuery = Dashboard page ->
        render chartQuery' blocksQuery' = Dashboard page' ->
        page_refreshSpinning page' = page_refreshSpinning page
        /\ page_clock page' = page_clock page
        /\ page_networkHash page' = page_networkHash page
        /\ page_poolHash page' = page_poolHash page
        /\ page_minersOnline page' = page_minersOnline page
        /\ page_price page' = page_price page
        /\ page_network page' = page_network page
        /\ page_pool page' = page_pool page
        /\ page_solo page' = page_solo page
        /\ page_market page' = page_market page
        /\ page_config page' = page_config page)
  /\ (forall page,
        render chartQuery blocksQuery = Dashboard page ->
        (data chartQuery = None \/ data chartQuery = Some [] ->
         page_chart page = ChartSkeleton)
        /\ (forall point points,
              data chartQuery = Some (point :: points) ->
              page_chart page
              = AreaChart (processedChartData toLocaleHourMinute
                             (Some (point :: points))))
        /\ (data blocksQuery = None \/ data blocksQuery = Some [] ->
            exists panel,
              page_blocks page = BlockVisualizer.Loaded panel
              /\ BlockVisualizer.panel_feed panel
                 = BlockVisualizer.FeedEmpty "No blocks found yet")).
Proof.
  intros render.
  assert (Hdash : error poolQuery = None ->
            forall chartQuery0 blocksQuery0, exists page,
              render chartQuery0 blocksQuery0 = Dashboard page).
  { intros Herr chartQuery0 blocksQuery0.
    destruct (MoneroPool_dashboard toLocaleString toLocaleTimeString
                toLocaleHourMinute clock poolQuery chartQuery0 blocksQuery0
                Herr) as (page & Hpage & _).
    now exists page. }
  assert (Herror : forall msg, error poolQuery = Some msg ->
            forall chartQuery0 blocksQuery0,
              render chartQuery0 blocksQuery0
              = ErrorScreen "Failed to load pool data" "Retry").
  { intros msg Herr chartQuery0 blocksQuery0. subst render.
    unfold MoneroPool. now rewrite Herr. }
  split.
  { split.
    - intros Hscreen Herr.
      destruct (Hdash Herr chartQuery blocksQuery) as (page & Hpage).
      rewrite Hpage in Hscreen. discriminate Hscreen.
    - intros Herr. destruct (error poolQuery) as [msg|] eqn:E;
        [|congruence]. now apply (Herror msg). }
  split.
  { split.
    - intros (page & Hpage). destruct (error poolQuery) as [msg|] eqn:E;
        [|reflexivity].
      rewrite (Herror msg eq_refl) in Hpage. discriminate Hpage.
    - intros Herr. now apply Hdash. }
  split.
  { intros chartQuery' blocksQuery' Hc Hb. subst render.
    unfold MoneroPool. now rewrite Hc, Hb. }
  split.
  { intros chartQuery' blocksQuery' page page' Hpage Hpage'. subst render.
    unfold MoneroPool in Hpage, Hpage'.
    destruct (error poolQuery); [discriminate Hpage|].
    injection Hpage as <-. injection Hpage' as <-.
    cbn [page_refreshSpinning page_clock page_networkHash page_poolHash
         page_minersOnline page_price page_network page_pool page_solo
         page_market page_config].
    repeat (split; [reflexivity|]). reflexivity. }
  intros page Hpage.
  assert (Herr : error poolQuery = None).
  { destruct (error poolQuery) as [msg|] eqn:E; [|reflexivity].
    rewrite (Herror msg eq_refl) in Hpage. discriminate Hpage. }
  destruct (MoneroPool_dashboard toLocaleString toLocaleTimeString
              toLocaleHourMinute clock poolQuery chartQuery blocksQuery Herr)
    as (page0 & Hpage0 & _ & Hchart & Hblocks).
  fold render in Hpage0. rewrite Hpage in Hpage0. injection Hpage0 as <-.
  split.
  { intros [Hc|Hc]; rewrite Hchart, Hc; reflexivity. }
  split.
  { intros point points Hc. rewrite Hchart, Hc. cbv zeta.
    now rewrite processedChartData_nonempty. }
  intros Hb. rewrite Hblocks.
  match goal with
  | |- context [BlockVisualizer.BlockchainVisual ?a ?b ?props] =>
      destruct (BlockVisualizerFacts.compact_feed_panel a b props)
        as (panel & Hpanel & Hfeed)
  end.
  exists panel. split; [exact Hpanel|]. rewrite Hfeed.
  cbn [BlockVisualizer.blocks]. destruct Hb as [-> | ->]; reflexivity.
Qed.

(** The hypotheses of [error_gate] hold where the pool-statistics query has
    failed, and where the chart query holds no data. *)
Lemma error_gate_witness :
  let idle A : Query A :=
    {| data := None; isLoading := false; error := None |} in
  MoneroPool toString toString toString "12:00:00"
    {| data := None; isLoading := false;
       error := Some "Failed to fetch pool stats" |}
    (idle (list ChartPoint)) (idle (list BlockVisualizer.Block))
  = ErrorScreen "Failed to load pool data" "Retry"
  /\ exists page,
       MoneroPool toString toString toString "12:00:00"
         (idle PoolStatsResponse)
         {| data := None; isLoading := false;
            error := Some "Failed to fetch chart data" |}
         (idle (list BlockVisualizer.Block)) = Dashboard page.
Proof.
  intros idle. split.
  - apply (proj1 (error_gate toString toString toString "12:00:00"
                    {| data := None; isLoading := false;
                       error := Some "Failed to fetch pool stats" |}
                    (idle (list ChartPoint))
                    (idle (list BlockVisualizer.Block)))).
    discriminate.
  - apply (proj1 (proj2 (error_gate toString toString toString "12:00:00"
                           (idle PoolStatsResponse)
                           {| data := None; isLoading := false;
                              error := Some "Failed to fetch chart data" |}
                           (idle (list BlockVisualizer.Block))))).
    reflexivity.
Defined.

(** C2, as the claim states it, fails: when a refetch of the chart has
    failed, the chart query holds both an error and the series of its last
    successful fetch, and the chart section shows that series, neither its
    loading placeholder nor an empty state. *)
Lemma stale_chart_counterexample :
  exists page,
    MoneroPool toString toString (fun _ => "22:13") "22:14:05"
      {| data := None; isLoading := false; error := None |}
      {| data := Some [ {| ts := 1700000000000; hs := 2500000 |} ];
         isLoading := false; error := Some "Failed to fetch chart data" |}
      {| data := None; isLoading := false; error := None |}
    = Dashboard page
    /\ page_chart page = AreaChart [ {| time := "22:13"; pool := 2.5 |} ]
    /\ page_chart page <> ChartSkeleton.
Proof.
  eexists. split; [reflexivity|].
  cbn [page_chart]. split; [vm_compute; reflexivity|].
  vm_compute. discriminate.
Qed.

End IndexFacts.

Module NumeralFacts.
Import JS NumberFacts StringFacts.

(** ** Numerals are never empty *)

Lemma digits_from_length (fuel : nat) (n : Z) (acc : string) :
  (String.length acc <= String.length (digits_from fuel n acc))%nat.
Proof.
  revert n acc. induction fuel as [|fuel IH]; intros n acc; cbn [digits_from].
  - lia.
  - destruct (n / 10 =? 0)%Z.
    + cbn [String.length]. lia.
    + specialize (IH (n / 10)%Z (String (digit n) acc)).
      cbn [String.length] in IH. lia.
Qed.

Lemma digits_nonempty (n : Z) : (0 < String.length (digits n))%nat.
Proof.
  unfold digits. cbn [digits_from].
  destruct (n / 10 =? 0)%Z.
  - cbn [String.length]. lia.
  - pose proof (digits_from_length (Z.to_nat (Z.log2 n)) (n / 10)
                  (String (digit n) "")) as H.
    cbn [String.length] in H. lia.
Qed.

Lemma fixed_string_nonempty (f : nat) (n : Z) :
  (0 < String.length (fixed_string f n))%nat.
Proof.
  unfold fixed_string. destruct f as [|f]; [apply digits_nonempty|].
  rewrite length_append. pose proof (digits_nonempty (n / pow10 (S f))). lia.
Qed.

Lemma positive_toString_nonempty (m : positive) (e : Z) :
  (0 < String.length (positive_toString m e))%nat.
Proof.
  unfold positive_toString. destruct (shortest m e) as [s p].
  cbv zeta.
  pose proof (digits_nonempty s) as Hd.
  repeat match goal with
         | |- context [if ?c then _ else _] => destruct c
         end;
    rewrite ?length_append; cbn [String.length]; lia.
Qed.

(** [toFixed] never returns the empty string. *)
Lemma toFixed_nonempty (x : number) (f : nat) :
  (0 < String.length (toFixed x f))%nat.
Proof.
  unfold toFixed. destruct (Prim2SF x) as [s|s| |s m e].
  - apply fixed_string_nonempty.
  - destruct s; cbn [String.length]; lia.
  - cbn [String.length]; lia.
  - rewrite length_append.
    destruct (geb (abs x) 1e21).
    + pose proof (positive_toString_nonempty m e). lia.
    + pose proof (fixed_string_nonempty f (nearest_scaled f m e)). lia.
Qed.

Lemma string_or_else_nonempty (a b : string) :
  (0 < String.length a)%nat -> string_or_else a b = a.
Proof.
  unfold string_or_else. destruct a as [|c a]; simpl; [lia|reflexivity].
Qed.

End NumeralFacts.

Module ChainLayoutFacts.
Import JS NumberFacts StringFacts.
Import ChainVisual.

(** The card at position [k] of [cards_from] is built from the block at
    position [k], with the running index. *)
Lemma cards_from_nth (toLocaleString : number -> string) (now : number)
    (bs : list Block) :
  forall (i k : nat),
    nth_error (cards_from toLocaleString now i bs) k
    = option_map
        (fun b => BlockCard toLocaleString now b (i + k) (Nat.eqb (i + k) 0))
        (nth_error bs k).
Proof.
  induction bs as [|b rest IH]; intros i k.
  - destruct k; reflexivity.
  - destruct k as [|k]; cbn [cards_from nth_error option_map].
    + now rewrite Nat.add_0_r.
    + rewrite IH. now replace (S i + k)%nat with (i + S k)%nat by lia.
Qed.

Lemma cards_from_length (toLocaleString : number -> string) (now : number)
    (bs : list Block) (i : nat) :
  List.length (cards_from toLocaleString now i bs) = List.length bs.
Proof.
  revert i. induction bs as [|b rest IH]; intros i; simpl;
    [reflexivity|now rewrite IH].
Qed.

Lemma nth_error_slice_to {A} (n k : nat) (xs : list A) :
  (k < n)%nat -> nth_error (slice_to n xs) k = nth_error xs k.
Proof.
  unfold slice_to. revert k xs. induction n as [|n IH]; intros k xs Hk; [lia|].
  destruct xs as [|x xs]; [reflexivity|].
  destruct k as [|k]; [reflexivity|]. simpl. apply IH. lia.
Qed.

Lemma slice_to_length {A} (n : nat) (xs : list A) :
  List.length (slice_to n xs) = Nat.min n (List.length xs).
Proof. unfold slice_to. apply length_firstn. Qed.

(** The recent-blocks row of the chain visualisation: one card for each of
    the first six blocks, in order; only the first is marked as the latest,
    and every card but the sixth has a connector to its right, also the
    last card of a shorter row. *)
Theorem chain_cards_layout (toLocaleString : number -> string) (now : number)
    (bs : list Block) :
  let cs := cards toLocaleString now (Some bs) in
  List.length cs = Nat.min 6 (List.length bs)
  /\ (forall (k : nat) (b : Block),
        (k < 6)%nat -> nth_error bs k = Some b ->
        nth_error cs k
        = Some (BlockCard toLocaleString now b k (Nat.eqb k 0)))
  /\ (forall (k : nat) (c : Card),
        nth_error cs k = Some c ->
        (card_latest c = true <-> k = 0%nat)
        /\ (card_connector c = true <-> (k < 5)%nat))
  /\ ((List.length bs <= 5)%nat -> forallb card_connector cs = true)
  /\ cards toLocaleString now None = []
  /\ view_cards (BlockchainVisual toLocaleString now (Some bs) Undefined None None)
     = cs.
Proof.
  cbv zeta. unfold cards.
  assert (Hnth : forall k c,
    nth_error (cards_from toLocaleString now 0 (slice_to 6 bs)) k = Some c ->
    exists b, c = BlockCard toLocaleString now b k (Nat.eqb k 0)).
  { intros k c H. rewrite cards_from_nth in H. cbn [Nat.add] in H.
    destruct (nth_error (slice_to 6 bs) k) as [b|]; [|discriminate].
    exists b. now injection H as <-. }
  split.
  { now rewrite cards_from_length, slice_to_length. }
  split.
  { intros k b Hk Hb. rewrite cards_from_nth, nth_error_slice_to by exact Hk.
    rewrite Hb. reflexivity. }
  split.
  { intros k c H. destruct (Hnth k c H) as [b ->].
    cbn [BlockCard card_latest card_connector].
    split; [apply Nat.eqb_eq|apply Nat.ltb_lt]. }
  split.
  { intros Hlen. apply forallb_forall. intros c Hin.
    apply In_nth_error in Hin. destruct Hin as [k Hk].
    assert (Hklt : (k < 5)%nat).
    { assert (k < List.length
                (cards_from toLocaleString now 0 (slice_to 6 bs)))%nat
        by (apply nth_error_Some; congruence).
      rewrite cards_from_length, slice_to_length in H. lia. }
    destruct (Hnth k c Hk) as [b ->]. cbn [BlockCard card_connector].
    now apply Nat.ltb_lt. }
  split; reflexivity.
Qed.

Local Abbreviation sample_block :=
  {| hash := "9f8e7d6c5b4a"; height := 3100000%float; ts := 1700000000%float;
     difficulty := None; value := 600000000000%float; fee := 0%float;
     effort := Some 120%float; solo := None |}.

(** Seven blocks give six cards, the sixth without a connector; two
    blocks give two cards, both with one. *)
Lemma chain_cards_layout_witness :
  nth_error
    (cards toString 1700000600000
       (Some [sample_block; sample_block; sample_block; sample_block;
              sample_block; sample_block; sample_block])) 5
  = Some (BlockCard toString 1700000600000 sample_block 5 false)
  /\ forallb card_connector
       (cards toString 1700000600000 (Some [sample_block; sample_block]))
     = true.
Proof.
  split.
  - apply (chain_cards_layout toString 1700000600000
             [sample_block; sample_block; sample_block; sample_block;
              sample_block; sample_block; sample_block]);
      [lia|reflexivity].
  - apply (chain_cards_layout toString 1700000600000
             [sample_block; sample_block]). simpl. lia.
Defined.

End ChainLayoutFacts.

Module CompactFeedLayoutFacts.
Import JS NumberFacts StringFacts.
Import BlockVisualizer BlockVisualizerFacts ChainLayoutFacts.

(** The row at position [k] of [rows_from] is built from the block at
    position [k], with the running index. *)
Lemma rows_from_nth (toLocaleTimeString : number -> string)
    (bs : list Block) :
  forall (i k : nat),
    nth_error (rows_from toLocaleTimeString i bs) k
    = option_map
        (fun block =>
           {| row_height := "#" ++ toString (height block);
              row_time := toLocaleTimeString (ts block * 1000)%float;
              row_hash := prefix_chars 16 (hash block) ++ "...";
              row_reward :=
                Formatters.formatXMR (Some (reward block)) ++ " XMR";
              row_fee := "Fee: " ++ Formatters.formatXMR (Some (fee block));
              row_justFound := Nat.eqb (i + k) 0 |})
        (nth_error bs k).
Proof.
  induction bs as [|b rest IH]; intros i k.
  - destruct k; reflexivity.
  - destruct k as [|k]; cbn [rows_from nth_error option_map].
    + now rewrite Nat.add_0_r.
    + rewrite IH. now replace (S i + k)%nat with (i + S k)%nat by lia.
Qed.

(** The panel, field by field, after the defaults of the props. *)
Lemma compact_feed_fields
    (toLocaleString toLocaleTimeString : number -> string) (props : Props) :
  let bs := match blocks props with Some bs => bs | None => [] end in
  let effort := with_default (currentEffort props) 0 in
  BlockchainVisual toLocaleString toLocaleTimeString props
  = Loaded
      {| panel_effort := progressText effort;
         panel_barWidth :=
           toString
             (Math_min
                (Math_min
                   (match nullish effort with
                    | Some effort => or_else effort 0
                    | None => 0
                    end / 100 * 100) 100) 100)
           ++ "%";
         panel_feed :=
           if Nat.ltb 0 (List.length (slice_to 5 bs))
           then FeedRows (rows_from toLocaleTimeString 0 (slice_to 5 bs))
           else FeedEmpty "No blocks found yet";
         panel_totalBlocks :=
           Formatters.formatNumber toLocaleString
             (Some (of_nat (List.length (slice_to 5 bs))));
         panel_networkDiff :=
           Formatters.formatNumber toLocaleString
             (Some match networkDifficulty props with
                   | Some v => v
                   | None => 0%float
                   end);
         panel_poolHash :=
           Formatters.formatNumber toLocaleString
             (Some match poolHashRate props with
                   | Some v => v
                   | None => 0%float
                   end) |}.
Proof. reflexivity. Qed.

(** The compact feed: one row for each of the first five blocks, in order,
    only the first marked as just found; the TOTAL BLOCKS figure of the
    footer is the number of rows shown, hence 5 at most whatever the number
    of blocks supplied, and ["0"] without any. *)
Theorem compact_feed_layout
    (toLocaleString toLocaleTimeString : number -> string) (props : Props) :
  let bs := match blocks props with Some bs => bs | None => [] end in
  exists panel : Panel,
    BlockchainVisual toLocaleString toLocaleTimeString props = Loaded panel
    /\ match panel_feed panel with
       | FeedRows rows =>
           bs <> []
           /\ List.length rows = Nat.min 5 (List.length bs)
           /\ forall (k : nat) (block : Block),
                (k < 5)%nat -> nth_error bs k = Some block ->
                nth_error rows k
                = Some
                    {| row_height := "#" ++ toString (height block);
                       row_time := toLocaleTimeString (ts block * 1000)%float;
                       row_hash := prefix_chars 16 (hash block) ++ "...";
                       row_reward :=
                         Formatters.formatXMR (Some (reward block)) ++ " XMR";
                       row_fee :=
                         "Fee: " ++ Formatters.formatXMR (Some (fee block));
                       row_justFound := Nat.eqb k 0 |}
       | FeedEmpty message =>
           bs = [] /\ message = "No blocks found yet"
       end
    /\ panel_totalBlocks panel
       = if Nat.eqb (List.length bs) 0 then "0"
         else toLocaleString (of_nat (Nat.min 5 (List.length bs))).
Proof.
  cbv zeta.
  pose proof (compact_feed_fields toLocaleString toLocaleTimeString props)
    as Hfields.
  cbv zeta in Hfields. rewrite Hfields. clear Hfields.
  set (bs := match blocks props with Some bs => bs | None => [] end).
  eexists. split; [reflexivity|].
  cbn [panel_feed panel_totalBlocks]. rewrite slice_to_length. split.
  - destruct bs as [|b rest] eqn:Hbs.
    + split; reflexivity.
    + replace (Nat.ltb 0 (Nat.min 5 (List.length (b :: rest)))) with true
        by (symmetry; apply Nat.ltb_lt; simpl; lia).
      split; [discriminate|]. split.
      * now rewrite compact_feed_rows, slice_to_length.
      * intros k block Hk Hb.
        rewrite rows_from_nth, nth_error_slice_to by exact Hk.
        rewrite Hb. reflexivity.
  - unfold Formatters.formatNumber.
    destruct (List.length bs) as [|[|[|[|[|n]]]]]; reflexivity.
Qed.

Local Abbreviation sample_block :=
  {| hash := "9f8e7d6c5b4a39281706f5e4d3c2b1a0"; height := 3100000%float;
     ts := 1700000000%float; difficulty := 350000000000%float;
     reward := 600000000000%float; fee := 1000000%float |}.

(** Seven blocks supplied: five rows, and a TOTAL BLOCKS figure of 5. *)
Lemma compact_feed_layout_witness :
  exists panel : Panel,
    BlockchainVisual toString toString
      {| blocks := Some [sample_block; sample_block; sample_block;
                         sample_block; sample_block; sample_block;
                         sample_block];
         currentEffort := Undefined; networkDifficulty := None;
         poolHashRate := None |} = Loaded panel
    /\ panel_totalBlocks panel = "5".
Proof.
  destruct (compact_feed_layout toString toString
              {| blocks := Some [sample_block; sample_block; sample_block;
                                 sample_block; sample_block; sample_block;
                                 sample_block];
                 currentEffort := Undefined; networkDifficulty := None;
                 poolHashRate := None |}) as (panel & H & _ & Htotal).
  exists panel. split; [exact H|]. rewrite Htotal. vm_compute. reflexivity.
Defined.

End CompactFeedLayoutFacts.

Module SliceFacts.
Import JS NumberFacts StringFacts.

Lemma substring_all (n : nat) (s : string) :
  (String.length s <= n)%nat -> substring 0 n s = s.
Proof.
  revert n. induction s as [|c s IH]; intros n Hn.
  - now destruct n.
  - destruct n as [|n]; [simpl in Hn; lia|].
    simpl. f_equal. apply IH. simpl in Hn. lia.
Qed.

Lemma substring_length (k n : nat) (s : string) :
  (k + n <= String.length s)%nat -> String.length (substring k n s) = n.
Proof.
  revert k n. induction s as [|c s IH]; intros k n H.
  - simpl in H. assert (k = 0 /\ n = 0)%nat as [-> ->] by lia. reflexivity.
  - destruct k as [|k].
    + destruct n as [|n]; [reflexivity|].
      simpl. f_equal. apply (IH 0%nat). simpl in H. lia.
    + simpl. apply IH. simpl in H. lia.
Qed.

(** A string is its first [k] characters, the [n] that follow, and the
    rest. *)
Lemma substring_split (k n : nat) (s : string) :
  (k + n <= String.length s)%nat ->
  s = substring 0 k s ++ substring k n s
      ++ substring (k + n) (String.length s - (k + n)) s.
Proof.
  revert k n. induction s as [|c s IH]; intros k n H.
  - simpl in H. assert (k = 0 /\ n = 0)%nat as [-> ->] by lia. reflexivity.
  - destruct k as [|k].
    + destruct n as [|n].
      * simpl. f_equal. symmetry. apply substring_all. lia.
      * cbn [substring append Nat.add String.length Nat.sub].
        f_equal. simpl in H.
        specialize (IH 0%nat n ltac:(lia)).
        cbn [Nat.add] in IH.
        assert (E : substring 0 0 s = "") by (destruct s; reflexivity).
        rewrite E in IH. exact IH.
    + cbn [substring append Nat.add String.length Nat.sub].
      f_equal. apply IH. simpl in H. lia.
Qed.

End SliceFacts.

Module HashPreviewFacts.
Import JS NumberFacts StringFacts.
Import Index SliceFacts.

(** The abbreviated hash of the network and last-block panels.  An absent
    hash leaves the three dots alone; a hash of at most 8 characters
    appears in full on both sides of them; from 8 characters on the text has
    19 characters, and from 16 on its two ends are disjoint parts of the
    hash, the first 8 and the last 8 characters. *)
Theorem hash_ends_shape :
  hashEnds None = "..."
  /\ (forall h : string,
        (String.length h <= 8)%nat -> hashEnds (Some h) = h ++ "..." ++ h)
  /\ (forall h : string,
        (8 <= String.length h)%nat ->
        String.length (hashEnds (Some h)) = 19%nat)
  /\ (forall h : string,
        (16 <= String.length h)%nat ->
        exists first middle last : string,
          h = first ++ middle ++ last
          /\ String.length first = 8%nat /\ String.length last = 8%nat
          /\ hashEnds (Some h) = first ++ "..." ++ last).
Proof.
  split; [reflexivity|]. split.
  { intros h Hh. unfold hashEnds, prefix_chars, suffix_chars.
    replace (String.length h - 8)%nat with 0%nat by lia.
    now rewrite (substring_all 8 h Hh). }
  split.
  { intros h Hh. unfold hashEnds, prefix_chars, suffix_chars.
    rewrite !length_append.
    rewrite (substring_length 0 8 h), (substring_length _ 8 h) by lia.
    reflexivity. }
  intros h Hh. unfold hashEnds, prefix_chars, suffix_chars.
  exists (substring 0 8 h), (substring 8 (String.length h - 16) h),
    (substring (String.length h - 8) 8 h).
  split.
  { pose proof (substring_split 8 (String.length h - 16) h ltac:(lia)) as E.
    replace (8 + (String.length h - 16))%nat with (String.length h - 8)%nat
      in E by lia.
    replace (String.length h - (String.length h - 8))%nat with 8%nat
      in E by lia.
    exact E. }
  split; [apply substring_length; lia|].
  split; [apply substring_length; lia|reflexivity].
Qed.

(** A 64-character hash, and a 3-character one. *)
Lemma hash_ends_shape_witness :
  hashEnds (Some "abc") = "abc...abc"
  /\ String.length
       (hashEnds
          (Some "9f8e7d6c5b4a39281706f5e4d3c2b1a09f8e7d6c5b4a39281706f5e4d3c2b1a0"))
     = 19%nat
  /\ exists first middle last : string,
       "9f8e7d6c5b4a39281706f5e4d3c2b1a09f8e7d6c5b4a39281706f5e4d3c2b1a0"
       = first ++ middle ++ last
       /\ String.length first = 8%nat /\ String.length last = 8%nat
       /\ hashEnds
            (Some "9f8e7d6c5b4a39281706f5e4d3c2b1a09f8e7d6c5b4a39281706f5e4d3c2b1a0")
          = first ++ "..." ++ last.
Proof.
  destruct hash_ends_shape as (_ & Hshort & Hlen & Hlong).
  split; [apply (Hshort "abc"); simpl; lia|].
  split; [apply Hlen; simpl; lia|apply Hlong; simpl; lia].
Defined.

End HashPreviewFacts.

Module EffortTextFacts.
Import JS NumberFacts StringFacts.
Import NumeralFacts.

(** The two current-effort texts, [{currentEffort?.toFixed(f) || '0'}%].
    [toFixed] never returns the empty string, so for a number, NaN
    included, the fallback [|| '0'] does not apply and the text is
    [toFixed] of the effort.  The fallback applies to a [null] effort only,
    which the default [= 0] of the props does not replace: it reads ["0%"],
    where an absent effort reads ["0.0%"] on the pending block and
    ["0.00%"] on the compact feed. *)
Theorem effort_text_fallback :
  (forall (currentEffort : nullable)
          (difficulty poolHashRate : option number),
      ChainVisual.pending_effort
        (ChainVisual.PendingBlock currentEffort difficulty poolHashRate)
      = match currentEffort with
        | Undefined => "0.0%"
        | Null => "0%"
        | Num effort => toFixed effort 1 ++ "%"
        end)
  /\ (forall (toLocaleString : number -> string) (now : number)
             (blocks : option (list ChainVisual.Block))
             (currentEffort : nullable)
             (networkDifficulty poolHashRate : option number),
        ChainVisual.pending_effort
          (ChainVisual.view_pending
             (ChainVisual.BlockchainVisual toLocaleString now blocks
                currentEffort networkDifficulty poolHashRate))
        = match currentEffort with
          | Undefined => "0.0%"
          | Null => "0%"
          | Num effort => toFixed effort 1 ++ "%"
          end)
  /\ (forall (toLocaleString toLocaleTimeString : number -> string)
             (props : BlockVisualizer.Props),
        exists panel : BlockVisualizer.Panel,
          BlockVisualizer.BlockchainVisual toLocaleString toLocaleTimeString
            props = BlockVisualizer.Loaded panel
          /\ BlockVisualizer.panel_effort panel
             = match BlockVisualizer.currentEffort props with
               | Undefined => "0.00%"
               | Null => "0%"
               | Num effort => toFixed effort 2 ++ "%"
               end)
  /\ (forall (effort : number) (f : nat), toFixed effort f <> "")
  /\ ChainVisual.pendingEffortText (Num nan) = "NaN%"
  /\ BlockVisualizer.progressText (Num nan) = "NaN%".
Proof.
  assert (H1 : forall currentEffort : nullable,
             ChainVisual.pendingEffortText (with_default currentEffort 0)
             = match currentEffort with
               | Undefined => "0.0%"
               | Null => "0%"
               | Num effort => toFixed effort 1 ++ "%"
               end).
  { intros [| |effort]; [vm_compute; reflexivity|reflexivity|].
    unfold ChainVisual.pendingEffortText.
    cbn [with_default nullish option_map optional_string_or_else].
    now rewrite string_or_else_nonempty by apply toFixed_nonempty. }
  assert (H2 : forall currentEffort : nullable,
             BlockVisualizer.progressText (with_default currentEffort 0)
             = match currentEffort with
               | Undefined => "0.00%"
               | Null => "0%"
               | Num effort => toFixed effort 2 ++ "%"
               end).
  { intros [| |effort]; [vm_compute; reflexivity|reflexivity|].
    unfold BlockVisualizer.progressText.
    cbn [with_default nullish option_map optional_string_or_else].
    now rewrite string_or_else_nonempty by apply toFixed_nonempty. }
  split.
  { intros ce d h. unfold ChainVisual.PendingBlock.
    cbn [ChainVisual.pending_effort]. apply H1. }
  split.
  { intros tl now blocks ce nd ph.
    unfold ChainVisual.BlockchainVisual, ChainVisual.PendingBlock.
    cbn [ChainVisual.view_pending ChainVisual.pending_effort].
    rewrite <- (H1 ce). f_equal. destruct ce; reflexivity. }
  split.
  { intros tl tt props. eexists. split; [reflexivity|].
    cbn [BlockVisualizer.panel_effort]. apply H2. }
  split.
  { intros effort f E. pose proof (toFixed_nonempty effort f) as L.
    rewrite E in L. simpl in L. lia. }
  split; vm_compute; reflexivity.
Qed.

End EffortTextFacts.

Module ClampFacts.
Import JS NumberFacts StringFacts.
Local Open Scope float_scope.

Lemma Prim2SF_inj (x y : number) : Prim2SF x = Prim2SF y -> x = y.
Proof.
  intros E. rewrite <- (SF2Prim_Prim2SF x), E. apply SF2Prim_Prim2SF.
Qed.

Lemma is_nan_spec (x : number) :
  is_nan x = match Prim2SF x with S754_nan => true | _ => false end.
Proof.
  unfold is_nan. rewrite FloatAxioms.eqb_spec. unfold SFeqb.
  destruct (Prim2SF x) as [s|s| |s m e] eqn:E; try reflexivity;
    now rewrite SFcompare_refl by discriminate.
Qed.

Lemma compare_not_nan (x y : number) :
  is_nan x = false -> is_nan y = false ->
  exists c, SFcompare (Prim2SF x) (Prim2SF y) = Some c.
Proof.
  rewrite !is_nan_spec. intros Hx Hy.
  destruct (SFcompare (Prim2SF x) (Prim2SF y)) as [c|] eqn:E; [now exists c|].
  apply SFcompare_None in E. destruct E as [E|E]; rewrite E in *; discriminate.
Qed.

Lemma ltb_irrefl (x : number) : (x <? x) = false.
Proof.
  rewrite FloatAxioms.ltb_spec. unfold SFltb.
  destruct (Prim2SF x) as [s|s| |s m e] eqn:E; try reflexivity;
    now rewrite SFcompare_refl by discriminate.
Qed.

Lemma ltb_asym (x y : number) : (x <? y) = true -> (y <? x) = false.
Proof.
  intros H. destruct (y <? x) eqn:E; [|reflexivity].
  pose proof (ltb_trans _ _ _ H E) as C. now rewrite ltb_irrefl in C.
Qed.

Lemma ltb_leb (x y : number) : (x <? y) = true -> (x <=? y) = true.
Proof.
  rewrite FloatAxioms.ltb_spec, FloatAxioms.leb_spec. unfold SFltb, SFleb.
  destruct (SFcompare (Prim2SF x) (Prim2SF y)) as [[]|]; congruence.
Qed.

(** Two numbers, neither below the other and neither NaN, compare equal;
    a finite non-zero number is then the other one. *)
Lemma SFcompare_Eq_finite (x : spec_float) (s : bool) (m : positive) (e : Z) :
  SFcompare x (S754_finite s m e) = Some Eq -> x = S754_finite s m e.
Proof.
  destruct x as [sx|sx| |sx mx ex]; simpl.
  - destruct s; discriminate.
  - destruct sx; discriminate.
  - discriminate.
  - destruct sx, s; try discriminate;
      destruct (Z.compare_spec ex e) as [E|E|E]; try discriminate; subst;
      intros H; injection H as H.
    + apply (f_equal CompOpp) in H. rewrite CompOpp_involutive in H.
      simpl in H.
      change (Pos.compare_cont Eq mx m) with (Pos.compare mx m) in H.
      apply Pos.compare_eq in H. now subst.
    + change (Pos.compare_cont Eq mx m) with (Pos.compare mx m) in H.
      apply Pos.compare_eq in H. now subst.
Qed.

Lemma trichotomy_finite (x c : number) (s : bool) (m : positive) (e : Z) :
  Prim2SF c = S754_finite s m e ->
  is_nan x = false -> (x <? c) = false -> (c <? x) = false -> x = c.
Proof.
  intros Hc Hx Hlt Hgt.
  assert (Hcn : is_nan c = false) by (rewrite is_nan_spec, Hc; reflexivity).
  destruct (compare_not_nan x c Hx Hcn) as [cmp Hcmp].
  rewrite FloatAxioms.ltb_spec in Hlt, Hgt. unfold SFltb in Hlt, Hgt.
  rewrite (SFcompare_antisym (Prim2SF x) (Prim2SF c)) in Hgt.
  rewrite Hcmp in Hlt, Hgt.
  destruct cmp; try discriminate.
  rewrite Hc in Hcmp. apply SFcompare_Eq_finite in Hcmp.
  rewrite <- (SF2Prim_Prim2SF x), <- (SF2Prim_Prim2SF c). congruence.
Qed.

(** [Math.min] with a finite non-zero bound [c]: the result is not above
    [c], and a second clamp at a larger or equal bound changes nothing. *)
Lemma Math_min_cases (x c : number) (s : bool) (m : positive) (e : Z) :
  Prim2SF c = S754_finite s m e ->
  is_nan x = false ->
  ((x <? c) = true /\ Math_min x c = x)
  \/ ((x <? c) = false /\ Math_min x c = c).
Proof.
  intros Hc Hx.
  assert (Hcn : is_nan c = false) by (rewrite is_nan_spec, Hc; reflexivity).
  unfold Math_min. rewrite Hx, Hcn. cbn [orb].
  destruct (x <? c) eqn:Hlt; [now left|]. right. split; [reflexivity|].
  destruct (c <? x) eqn:Hgt; [reflexivity|].
  rewrite (trichotomy_finite x c s m e Hc Hx Hlt Hgt).
  now destruct (get_sign c).
Qed.

Lemma Math_min_not_nan (x c : number) (s : bool) (m : positive) (e : Z) :
  Prim2SF c = S754_finite s m e ->
  is_nan x = false -> is_nan (Math_min x c) = false.
Proof.
  intros Hc Hx.
  assert (Hcn : is_nan c = false) by (rewrite is_nan_spec, Hc; reflexivity).
  destruct (Math_min_cases x c s m e Hc Hx) as [[_ ->]|[_ ->]]; assumption.
Qed.

Lemma Math_min_below (x c : number) (s : bool) (m : positive) (e : Z) :
  Prim2SF c = S754_finite s m e ->
  is_nan x = false -> (Math_min x c <=? c) = true.
Proof.
  intros Hc Hx.
  destruct (Math_min_cases x c s m e Hc Hx) as [[H ->]|[_ ->]].
  - now apply ltb_leb.
  - rewrite FloatAxioms.leb_spec, Hc. unfold SFleb.
    now rewrite SFcompare_refl by discriminate.
Qed.

Lemma Math_min_nan (c : number) : Math_min nan c = nan.
Proof. reflexivity. Qed.

(** Clamping twice at the same bound is clamping once. *)
Lemma Math_min_twice (x c : number) (s : bool) (m : positive) (e : Z) :
  Prim2SF c = S754_finite s m e ->
  Math_min (Math_min x c) c = Math_min x c.
Proof.
  intros Hc. destruct (is_nan x) eqn:Hx.
  - apply is_nan_inv in Hx. subst x. reflexivity.
  - destruct (Math_min_cases x c s m e Hc Hx) as [[H E]|[H E]]; rewrite E.
    + exact E.
    + assert (Hcn : is_nan c = false) by (rewrite is_nan_spec, Hc; reflexivity).
      destruct (Math_min_cases c c s m e Hc Hcn) as [[_ ->]|[_ ->]];
        reflexivity.
Qed.

(** Clamping at [d] and then at a smaller [c] is clamping at [c]. *)
Lemma Math_min_smaller (x c d : number)
    (sc sd : bool) (mc md : positive) (ec ed : Z) :
  Prim2SF c = S754_finite sc mc ec -> Prim2SF d = S754_finite sd md ed ->
  (c <? d) = true -> is_nan x = false ->
  Math_min (Math_min x d) c = Math_min x c
  /\ (c <? Math_min x d) = (c <? x).
Proof.
  intros Hc Hd Hcd Hx.
  assert (Hcn : is_nan c = false) by (rewrite is_nan_spec, Hc; reflexivity).
  assert (Hdn : is_nan d = false) by (rewrite is_nan_spec, Hd; reflexivity).
  destruct (Math_min_cases x d sd md ed Hd Hx) as [[H E]|[H E]]; rewrite E.
  - split; reflexivity.
  - assert (Hcx : (c <? x) = true).
    { destruct (d <? x) eqn:Hdx.
      - exact (ltb_trans _ _ _ Hcd Hdx).
      - now rewrite (trichotomy_finite x d sd md ed Hd Hx H Hdx). }
    rewrite Hcd, Hcx. split; [|reflexivity].
    destruct (Math_min_cases d c sc mc ec Hc Hdn) as [[Hdc _]|[_ ->]].
    + rewrite (ltb_asym _ _ Hcd) in Hdc. discriminate.
    + destruct (Math_min_cases x c sc mc ec Hc Hx) as [[Hxc _]|[_ ->]];
        [|reflexivity].
      rewrite (ltb_asym _ _ Hcx) in Hxc. discriminate.
Qed.

(** [x || d] is never NaN when [d] is not. *)
Lemma or_else_not_nan (x d : number) :
  is_nan d = false -> is_nan (or_else x d) = false.
Proof.
  intros Hd. unfold or_else, truthy.
  destruct (is_nan x) eqn:Hx.
  - now rewrite orb_true_r.
  - destruct (is_zero x); simpl; assumption.
Qed.

End ClampFacts.

Module RoundingFacts.
Import JS NumberFacts StringFacts.
Import ClampFacts.
Local Open Scope Z_scope.

Lemma shr_1_nonneg (mrs : shr_record) :
  0 <= shr_m mrs -> 0 <= shr_m (shr_1 mrs).
Proof.
  destruct mrs as [m r s]. cbn [shr_m]. intros H.
  destruct m as [|p|p]; [reflexivity| |lia].
  destruct p; cbn [shr_1 shr_m]; lia.
Qed.

Lemma iter_shr_1_nonneg (p : positive) (mrs : shr_record) :
  0 <= shr_m mrs -> 0 <= shr_m (iter_pos shr_1 p mrs).
Proof.
  revert mrs. induction p as [p IH|p IH|]; intros mrs H; cbn [iter_pos].
  - apply IH, IH, shr_1_nonneg, H.
  - apply IH, IH, H.
  - apply shr_1_nonneg, H.
Qed.

Lemma shr_fexp_nonneg (m e : Z) (l : location) :
  0 <= m -> 0 <= shr_m (fst (shr_fexp prec emax m e l)).
Proof.
  intros H. unfold shr_fexp, shr.
  assert (H0 : 0 <= shr_m (shr_record_of_loc m l))
    by (destruct l as [|[]]; exact H).
  destruct (fexp prec emax (Zdigits2 m + e) - e) as [|p|p]; cbn [fst];
    [exact H0| |exact H0].
  now apply iter_shr_1_nonneg.
Qed.

(** The rounding of a non-negative mantissa is never NaN. *)
Lemma binary_round_aux_not_nan (sx : bool) (mx ex : Z) (lx : location) :
  0 <= mx -> binary_round_aux prec emax sx mx ex lx <> S754_nan.
Proof.
  intros H. unfold binary_round_aux.
  pose proof (shr_fexp_nonneg mx ex lx H) as H1.
  destruct (shr_fexp prec emax mx ex lx) as [mrs' e'].
  cbn [fst] in H1.
  set (m2 := round_nearest_even (shr_m mrs') (loc_of_shr_record mrs')).
  assert (H2 : 0 <= m2).
  { subst m2. destruct (loc_of_shr_record mrs') as [|[]];
      cbn [round_nearest_even]; try lia.
    destruct (Z.even (shr_m mrs')); lia. }
  pose proof (shr_fexp_nonneg m2 e' loc_Exact H2) as H3.
  destruct (shr_fexp prec emax m2 e' loc_Exact) as [mrs'' e''].
  cbn [fst] in H3.
  destruct (shr_m mrs'') as [|p|p]; [discriminate| |lia].
  destruct (e'' <=? emax - prec); discriminate.
Qed.

Lemma SFdiv_core_nonneg (m1 m2 : positive) (e1 e2 : Z) :
  0 <= fst (fst (SFdiv_core_binary prec emax (Zpos m1) e1 (Zpos m2) e2)).
Proof.
  unfold SFdiv_core_binary.
  set (e' := Z.min _ _). set (s := e1 - e2 - e').
  set (m' := match s with Zpos _ => Z.shiftl (Zpos m1) s
                     | Z0 => Zpos m1 | Zneg _ => 0 end).
  assert (Hm : 0 <= m').
  { subst m'. destruct s; try lia. apply Z.shiftl_nonneg. lia. }
  pose proof (Z.div_eucl_eq m' (Zpos m2) ltac:(lia)) as E.
  pose proof (Z.mod_pos_bound m' (Zpos m2) ltac:(lia)) as B.
  unfold Z.modulo in B.
  destruct (Z.div_eucl m' (Zpos m2)) as [q r]. cbn [fst].
  nia.
Qed.

(** A quotient by a finite non-zero number is NaN only if the dividend
    is. *)
Lemma div_not_nan (x y : number) (s : bool) (m : positive) (e : Z) :
  Prim2SF y = S754_finite s m e ->
  is_nan x = false -> is_nan (x / y)%float = false.
Proof.
  intros Hy Hx. rewrite is_nan_spec in *.
  rewrite FloatAxioms.div_spec, Hy.
  destruct (Prim2SF x) as [sx|sx| |sx mx ex]; try reflexivity;
    [discriminate|].
  unfold SF64div, SFdiv.
  pose proof (SFdiv_core_nonneg mx m ex e) as Hq.
  destruct (SFdiv_core_binary prec emax (Zpos mx) ex (Zpos m) e)
    as [[q e'] l]. cbn [fst] in Hq.
  pose proof (binary_round_aux_not_nan (xorb sx s) q e' l Hq) as Hn.
  destruct (binary_round_aux prec emax (xorb sx s) q e' l); congruence.
Qed.

(** A product with a finite non-zero number is NaN only if the other
    factor is. *)
Lemma mul_not_nan (x y : number) (s : bool) (m : positive) (e : Z) :
  Prim2SF y = S754_finite s m e ->
  is_nan x = false -> is_nan (x * y)%float = false.
Proof.
  intros Hy Hx. rewrite is_nan_spec in *.
  rewrite FloatAxioms.mul_spec, Hy.
  destruct (Prim2SF x) as [sx|sx| |sx mx ex]; try reflexivity;
    [discriminate|].
  unfold SF64mul, SFmul.
  pose proof (binary_round_aux_not_nan (xorb sx s) (Zpos (mx * m)) (ex + e)
                loc_Exact ltac:(lia)) as Hn.
  destruct (binary_round_aux prec emax (xorb sx s) (Zpos (mx * m)) (ex + e)
              loc_Exact); congruence.
Qed.

End RoundingFacts.

Module MeterFacts.
Import JS NumberFacts StringFacts.
Import ClampFacts RoundingFacts.
Local Open Scope float_scope.

Lemma or_default_not_nan (x : option number) (d : number) :
  is_nan d = false -> is_nan (Index.or_default x d) = false.
Proof.
  intros Hd. destruct x as [v|]; [now apply or_else_not_nan|exact Hd].
Qed.

(** The effort meters of the pool and solo panels, for the four colours
    the component has a theme for.  With [v] the value, or 0 when it is
    absent, zero or NaN: the text is [v] with two decimals, not clamped; the
    bar's width is [min(v, 100)], at most 100 and never NaN, and not clamped
    from below; the text pulses in orange exactly when [v > 100].  The cap
    at 200 of the source is not observable. *)
Theorem effort_meter_clamps
    (label : string) (value : option number) (color : Index.Color) :
  color <> Index.purple ->
  let v := Index.or_default value 0 in
  let meter := Index.EffortMeter label value color in
  is_nan v = false
  /\ Index.meter_value meter = toFixed v 2 ++ "%"
  /\ Index.meter_width meter = toString (Math_min v 100) ++ "%"
  /\ (Math_min v 100 <=? 100) = true
  /\ is_nan (Math_min v 100) = false
  /\ Index.meter_valueClass meter
     = (if 100 <? v then "text-orange-400 animate-pulse"
        else "text-" ++ Index.color_name color ++ "-400")
  /\ ((v <? 100) = true -> Index.meter_width meter = toString v ++ "%").
Proof.
  intros _. cbv zeta.
  set (v := Index.or_default value 0).
  assert (Hv : is_nan v = false) by (apply or_default_not_nan; reflexivity).
  assert (H100 : Prim2SF 100 = S754_finite false 7036874417766400 (-46))
    by (vm_compute; reflexivity).
  assert (H200 : Prim2SF 200 = S754_finite false 7036874417766400 (-45))
    by (vm_compute; reflexivity).
  destruct (Math_min_smaller v 100 200 _ _ _ _ _ _ H100 H200 eq_refl Hv)
    as [Hmin Hgt].
  unfold Index.EffortMeter. fold v.
  cbn [Index.meter_value Index.meter_width Index.meter_valueClass].
  unfold gtb. rewrite Hmin, Hgt.
  split; [exact Hv|]. split; [reflexivity|]. split; [reflexivity|].
  split; [exact (Math_min_below v 100 _ _ _ H100 Hv)|].
  split; [exact (Math_min_not_nan v 100 _ _ _ H100 Hv)|].
  split; [reflexivity|].
  intros Hlt.
  destruct (Math_min_cases v 100 _ _ _ H100 Hv) as [[_ ->]|[H _]];
    [reflexivity|congruence].
Qed.

(** An effort of 250 is written in full over a bar of width 100; a negative
    one gives a negative width. *)
Lemma effort_meter_clamps_witness :
  Index.meter_value (Index.EffortMeter "Current Effort" (Some 250) Index.pink)
  = "250.00%"
  /\ Index.meter_width
       (Index.EffortMeter "Current Effort" (Some 250) Index.pink) = "100%"
  /\ Index.meter_valueClass
       (Index.EffortMeter "Current Effort" (Some 250) Index.pink)
     = "text-orange-400 animate-pulse"
  /\ Index.meter_width
       (Index.EffortMeter "Current Effort" (Some (-5)) Index.pink) = "-5%".
Proof.
  assert (Hpink : Index.pink <> Index.purple) by discriminate.
  destruct (effort_meter_clamps "Current Effort" (Some 250) Index.pink Hpink)
    as (_ & Hvalue & Hwidth & _ & _ & Hclass & _).
  destruct (effort_meter_clamps "Current Effort" (Some (-5)) Index.pink Hpink)
    as (_ & _ & _ & _ & _ & _ & Hlow).
  split; [rewrite Hvalue; vm_compute; reflexivity|].
  split; [rewrite Hwidth; vm_compute; reflexivity|].
  split; [rewrite Hclass; vm_compute; reflexivity|].
  rewrite Hlow; vm_compute; reflexivity.
Defined.

End MeterFacts.

Module ProgressBarFacts.
Import JS NumberFacts StringFacts.
Import BlockVisualizer ClampFacts RoundingFacts CompactFeedLayoutFacts.
Local Open Scope float_scope.

(** The two clamps at 100 of a value that is not NaN. *)
Lemma clamped_twice (e : number) :
  is_nan e = false ->
  let width := Math_min (e / 100 * 100) 100 in
  toString (Math_min width 100) ++ "%" = toString width ++ "%"
  /\ (width <=? 100) = true
  /\ is_nan width = false.
Proof.
  intros He. cbv zeta.
  assert (H100 : Prim2SF 100 = S754_finite false 7036874417766400 (-46))
    by (vm_compute; reflexivity).
  assert (Hq : is_nan (e / 100 * 100) = false).
  { apply (mul_not_nan _ 100 _ _ _ H100).
    apply (div_not_nan _ 100 _ _ _ H100). exact He. }
  rewrite (Math_min_twice _ 100 _ _ _ H100).
  split; [reflexivity|].
  split; [exact (Math_min_below _ 100 _ _ _ H100 Hq)|].
  exact (Math_min_not_nan _ 100 _ _ _ H100 Hq).
Qed.

(** The progress bar of the compact feed.  With [e] the current effort, or
    0 when it is absent, [null], zero or NaN, the width is
    [min(e / 100 * 100, 100)]: the second clamp of the source changes
    nothing, the width is at most 100 and never NaN, and it is not clamped
    from below. *)
Theorem progress_bar_width
    (toLocaleString toLocaleTimeString : number -> string) (props : Props) :
  let e :=
    match nullish (currentEffort props) with
    | Some effort => or_else effort 0
    | None => 0
    end in
  let width := Math_min (e / 100 * 100) 100 in
  exists panel : Panel,
    BlockchainVisual toLocaleString toLocaleTimeString props = Loaded panel
    /\ panel_barWidth panel = toString width ++ "%"
    /\ (width <=? 100) = true
    /\ is_nan width = false.
Proof.
  cbv zeta.
  pose proof (compact_feed_fields toLocaleString toLocaleTimeString props)
    as Hfields.
  cbv zeta in Hfields. rewrite Hfields. clear Hfields.
  eexists. split; [reflexivity|]. cbn [panel_barWidth].
  destruct (currentEffort props) as [| |effort]; cbn [with_default nullish].
  - exact (clamped_twice 0 eq_refl).
  - exact (clamped_twice 0 eq_refl).
  - apply (clamped_twice (or_else effort 0)).
    apply or_else_not_nan. reflexivity.
Qed.

End ProgressBarFacts.

Module SignFacts.
Import JS NumberFacts StringFacts.
Import ClampFacts.
Local Open Scope float_scope.

Lemma abs_abs (x : number) : abs (abs x) = abs x.
Proof.
  assert (E : Prim2SF (abs (abs x)) = Prim2SF (abs x)).
  { rewrite !FloatAxioms.abs_spec. now destruct (Prim2SF x). }
  rewrite <- (SF2Prim_Prim2SF (abs (abs x))), E. apply SF2Prim_Prim2SF.
Qed.

(** [toFixed] writes a negative number as a minus sign and its
    magnitude. *)
Lemma toFixed_sign (x : number) (f : nat) :
  toFixed x f
  = (match Prim2SF x with
     | S754_finite true _ _ | S754_infinity true => "-"
     | _ => ""
     end) ++ toFixed (abs x) f.
Proof.
  unfold toFixed at 1 2. rewrite abs_abs, FloatAxioms.abs_spec.
  destruct (Prim2SF x) as [s|s| |s m e]; cbn [SFabs append]; try reflexivity;
    now destruct s.
Qed.

(** Above zero: finite or infinite with the sign bit clear. *)
Lemma positive_spec (x : number) :
  (0 <? x) = match Prim2SF x with
             | S754_finite false _ _ | S754_infinity false => true
             | _ => false
             end.
Proof.
  rewrite FloatAxioms.ltb_spec. unfold SFltb.
  change (Prim2SF 0) with (S754_zero false).
  destruct (Prim2SF x) as [s|s| |s m e]; try reflexivity; now destruct s.
Qed.

(** [change && change > 0] is [change > 0]. *)
Lemma truthy_and_positive (x : number) :
  truthy x && gtb x 0 = (0 <? x).
Proof.
  unfold gtb. destruct (0 <? x) eqn:H.
  - now rewrite (truthy_of_pos x H).
  - apply andb_false_r.
Qed.

Lemma truthy_spec (x : number) :
  truthy x = match Prim2SF x with
             | S754_zero _ | S754_nan => false
             | _ => true
             end.
Proof.
  unfold truthy. rewrite is_nan_spec.
  unfold is_zero. rewrite FloatAxioms.eqb_spec. unfold SFeqb.
  change (Prim2SF 0) with (S754_zero false).
  destruct (Prim2SF x) as [s|s| |s m e]; try reflexivity; now destruct s.
Qed.

(** A truthy number that is not above zero is written with a minus
    sign. *)
Lemma toFixed_negative (x : number) (f : nat) :
  truthy x = true -> (0 <? x) = false ->
  toFixed x f = "-" ++ toFixed (abs x) f.
Proof.
  rewrite truthy_spec, positive_spec, (toFixed_sign x f).
  destruct (Prim2SF x) as [s|s| |s m e]; try discriminate;
    destruct s; (discriminate || reflexivity).
Qed.

Lemma toFixed_positive (x : number) (f : nat) :
  (0 <? x) = true -> toFixed x f = toFixed (abs x) f.
Proof.
  rewrite positive_spec, (toFixed_sign x f).
  destruct (Prim2SF x) as [s|s| |s m e]; try discriminate;
    destruct s; (discriminate || reflexivity).
Qed.

End SignFacts.

Module PriceChangeFacts.
Import JS NumberFacts StringFacts.
Import Index ClampFacts SignFacts.
Local Open Scope float_scope.

(** A market row shows no change when the prop is [undefined]; a number is
    shown as an arrow, upwards exactly when it is above zero, and its
    magnitude with two decimals; [null] passes the test [!== undefined] and
    is shown as a downward arrow and ["0.00%"]. *)
Lemma MarketItem_change (label value : string) (change : nullable) :
  item_change (MarketItem label value change)
  = match change with
    | Undefined => None
    | Null => Some (down, "0.00%")
    | Num c => Some (if 0 <? c then up else down, toFixed (abs c) 2 ++ "%")
    end.
Proof.
  destruct change as [| |c]; [reflexivity|vm_compute; reflexivity|].
  cbn [MarketItem item_change nullish to_number].
  now rewrite truthy_and_positive.
Qed.

Lemma append_nonempty (a b : string) :
  (0 < String.length b)%nat -> String.eqb (a ++ b) "" = false.
Proof.
  intros H. destruct (a ++ b) as [|c r] eqn:E; [|reflexivity].
  apply (f_equal String.length) in E. rewrite length_append in E.
  simpl in E. lia.
Qed.

(** The price card and the XMR/USD row of the market panel, once the pool
    statistics are loaded.  Both show the same price.  The card always has
    its line for the 24-hour change: an absent, [null], zero or NaN change
    is ["0.00%"] with the downward trend.  The row shows no change only
    when the response has no such field; a [null] change passes the row's
    test [!== undefined] and reads a downward arrow and ["0.00%"], and a
    number reads an arrow, upwards exactly when it is above zero, and its
    magnitude.  For a number that is neither zero nor NaN the two agree:
    the same direction, and the card's text is the row's magnitude behind a
    plus or a minus sign. *)
Theorem price_change_display
    (toLocaleString toLocaleTimeString toLocaleHourMinute : number -> string)
    (clock : string)
    (poolQuery : Query PoolStatsResponse)
    (chartQuery : Query (list ChartPoint))
    (blocksQuery : Query (list BlockVisualizer.Block)) :
  error poolQuery = None -> isLoading poolQuery = false ->
  let market := opt (data poolQuery) market in
  let change := opt_field market percent_change_24h in
  let shown := or_default (nullish change) 0 in
  let price := "$" ++ toFixed (or_default (opt market price_usd) 0) 2 in
  exists (page : Page) (items : list MarketItemView),
    MoneroPool toLocaleString toLocaleTimeString toLocaleHourMinute clock
      poolQuery chartQuery blocksQuery = Dashboard page
    /\ page_market page = Ready items
    /\ stat_body (page_price page) = CardValue price
    /\ stat_sub (page_price page)
       = Some
           (Some (if 0 <? shown then up else down),
            (if 0 <? shown then "+" else "") ++ toFixed shown 2 ++ "%")
    /\ nth_error items 1
       = Some
           {| item_label := "XMR/USD"; item_value := price;
              item_change :=
                match change with
                | Undefined => None
                | Null => Some (down, "0.00%")
                | Num c =>
                    Some (if 0 <? c then up else down,
                          toFixed (abs c) 2 ++ "%")
                end |}
    /\ (truthy shown = false ->
        stat_sub (page_price page) = Some (Some down, "0.00%"))
    /\ (forall c : number,
          change = Num c -> truthy c = true ->
          stat_sub (page_price page)
          = Some
              (Some (if 0 <? c then up else down),
               (if 0 <? c then "+" else "-") ++ toFixed (abs c) 2 ++ "%")).
Proof.
  intros Herr Hload. cbv zeta. unfold MoneroPool. rewrite Herr, Hload.
  eexists. eexists. split; [reflexivity|]. split; [reflexivity|].
  cbn [page_price stat_body stat_sub StatCard nth_error].
  set (market := opt (data poolQuery) Index.market).
  set (change := opt_field market percent_change_24h).
  unfold gtb.
  rewrite append_nonempty
    by (rewrite length_append; cbn [String.length]; lia).
  cbn [negb andb].
  split; [reflexivity|]. split; [reflexivity|].
  split.
  { f_equal. unfold MarketItem at 1. f_equal.
    apply (MarketItem_change "XMR/USD" ""). }
  split.
  { intros Hfalsy. apply falsy_inv in Hfalsy.
    assert (Hn : is_nan (or_default (nullish change) 0) = false).
    { destruct change as [| |c]; [reflexivity|reflexivity|].
      now apply or_else_not_nan. }
    destruct Hfalsy as [-> | [-> | E]]; [reflexivity|reflexivity|].
    rewrite E in Hn. discriminate Hn. }
  intros c Hc Htruthy.
  assert (E : or_default (nullish change) 0 = c).
  { rewrite Hc. unfold or_default, or_else, nullish. now rewrite Htruthy. }
  rewrite E. destruct (0 <? c) eqn:Hpos.
  - now rewrite (toFixed_positive c 2 Hpos).
  - now rewrite (toFixed_negative c 2 Htruthy Hpos).
Qed.

Local Abbreviation no_data :=
  {| data := None; isLoading := false; error := None |}.

Local Abbreviation falling_market_response :=
  {| pool_statistics := None; network_statistics := None;
     market := Some {| price_usd := Some 150.25; price_btc := None;
                       price_eur := None; percent_change_24h := Num (-1.5);
                       percent_change_7d := Undefined; market_cap_btc := None;
                       volume_24h_btc := None |};
     block_template := None; config := None; online := None |}.

(** A price of 150.25 that fell by 1.5%: the card reads ["-1.50%"], the
    row a downward arrow and ["1.50%"]. *)
Lemma price_change_display_witness :
  exists (page : Page) (items : list MarketItemView),
    MoneroPool toString toString toString "12:00:00"
      {| data := Some falling_market_response; isLoading := false;
         error := None |} no_data no_data = Dashboard page
    /\ page_market page = Ready items
    /\ stat_body (page_price page) = CardValue "$150.25"
    /\ stat_sub (page_price page) = Some (Some down, "-1.50%")
    /\ nth_error items 1
       = Some {| item_label := "XMR/USD"; item_value := "$150.25";
                 item_change := Some (down, "1.50%") |}.
Proof.
  destruct (price_change_display toString toString toString "12:00:00"
              {| data := Some falling_market_response; isLoading := false;
                 error := None |} no_data no_data eq_refl eq_refl)
    as (page & items & Hpage & Hitems & Hprice & _ & Hrow & _ & Hsigned).
  exists page, items.
  split; [exact Hpage|]. split; [exact Hitems|].
  split; [rewrite Hprice; vm_compute; reflexivity|].
  split; [rewrite (Hsigned (-1.5) eq_refl eq_refl); vm_compute; reflexivity|].
  rewrite Hrow. vm_compute. reflexivity.
Defined.

End PriceChangeFacts.

Module DefaultsFacts.
Import JS NumberFacts StringFacts.
Import Index ClampFacts SignFacts.
Local Open Scope float_scope.

(** [x || d] is [d] for an absent or falsy [x], and [x] otherwise. *)
Lemma or_default_falsy (x : option number) (d : number) :
  is_falsy x = true -> or_default x d = d.
Proof.
  destruct x as [v|]; [|reflexivity].
  cbn [is_falsy or_default]. unfold or_else.
  now destruct (truthy v).
Qed.

Lemma or_default_truthy (v d : number) :
  truthy v = true -> or_default (Some v) d = v.
Proof. intros H. cbn [or_default]. unfold or_else. now rewrite H. Qed.

Lemma formatNumber_falsy (toLocaleString : number -> string)
    (x : option number) :
  is_falsy x = true -> Formatters.formatNumber toLocaleString x = "0".
Proof.
  destruct x as [v|]; [|reflexivity].
  cbn [is_falsy Formatters.formatNumber]. now intros ->.
Qed.

Lemma formatXMR_falsy (x : option number) :
  is_falsy x = true -> Formatters.formatXMR x = "0".
Proof.
  destruct x as [v|]; [|reflexivity].
  cbn [is_falsy Formatters.formatXMR]. now intros ->.
Qed.

Lemma formatHashRate_falsy (x : option number) :
  is_falsy x = true -> Formatters.formatHashRate x = "0 H/s".
Proof.
  destruct x as [v|]; [|reflexivity].
  cbn [is_falsy Formatters.formatHashRate]. now intros ->.
Qed.

(** The configuration panel.  It is rendered whether or not the pool
    statistics are loading.  Each figure has a fallback that replaces an
    absent field and a falsy one alike: a maturity depth that is absent, 0
    or NaN reads ["30 blocks"], a minimum payout ["0 XMR"], the online
    users ["0"]; without any response the panel shows its four defaults. *)
Theorem config_panel_defaults
    (toLocaleString toLocaleTimeString toLocaleHourMinute : number -> string)
    (clock : string)
    (poolQuery : Query PoolStatsResponse)
    (chartQuery : Query (list ChartPoint))
    (blocksQuery : Query (list BlockVisualizer.Block)) :
  error poolQuery = None ->
  let cfg := opt (data poolQuery) config in
  exists page : Page,
    MoneroPool toLocaleString toLocaleTimeString toLocaleHourMinute clock
      poolQuery chartQuery blocksQuery = Dashboard page
    /\ cfg_algorithm (page_config page) = "RandomX"
    /\ cfg_interval (page_config page) = "Hourly"
    /\ (is_falsy (opt cfg maturity_depth) = true ->
        cfg_maturity (page_config page) = "30 blocks")
    /\ (forall depth : number,
          opt cfg maturity_depth = Some depth -> truthy depth = true ->
          cfg_maturity (page_config page) = toString depth ++ " blocks")
    /\ (is_falsy (opt (opt cfg payout) minimum) = true ->
        cfg_minPayout (page_config page) = "0 XMR")
    /\ (is_falsy (opt (data poolQuery) online) = true ->
        cfg_online (page_config page) = "0")
    /\ (data poolQuery = None ->
        page_config page
        = {| cfg_algorithm := "RandomX"; cfg_fee := "0.9%";
             cfg_minPayout := "0 XMR"; cfg_interval := "Hourly";
             cfg_maturity := "30 blocks"; cfg_online := "0" |}).
Proof.
  intros Herr. cbv zeta. unfold MoneroPool. rewrite Herr.
  eexists. split; [reflexivity|].
  cbn [page_config cfg_algorithm cfg_interval cfg_maturity cfg_minPayout
       cfg_online].
  split; [reflexivity|]. split; [reflexivity|].
  unfold maturityDepth.
  split.
  { intros H. rewrite (or_default_falsy _ 30 H). vm_compute. reflexivity. }
  split.
  { intros depth Hd Ht. rewrite Hd, (or_default_truthy depth 30 Ht).
    reflexivity. }
  split.
  { intros H. now rewrite (formatXMR_falsy _ H). }
  split.
  { intros H. now rewrite (formatNumber_falsy _ _ H). }
  intros Hdata. rewrite Hdata. vm_compute. reflexivity.
Qed.

Local Abbreviation no_data :=
  {| data := None; isLoading := false; error := None |}.

Local Abbreviation zero_maturity_response :=
  {| pool_statistics := None; network_statistics := None;
     market := None; block_template := None;
     config := Some {| pplns_fee := None; payout := None;
                       maturity_depth := Some 0 |};
     online := None |}.

(** A maturity depth of 0 in the response reads 30 blocks; a depth of 60
    reads 60 blocks. *)
Lemma config_panel_defaults_witness :
  exists page : Page,
    MoneroPool toString toString toString "12:00:00"
      {| data := Some zero_maturity_response; isLoading := true;
         error := None |} no_data no_data = Dashboard page
    /\ cfg_maturity (page_config page) = "30 blocks"
    /\ cfg_minPayout (page_config page) = "0 XMR"
    /\ cfg_online (page_config page) = "0".
Proof.
  destruct (config_panel_defaults toString toString toString "12:00:00"
              {| data := Some zero_maturity_response; isLoading := true;
                 error := None |} no_data no_data eq_refl)
    as (page & Hpage & _ & _ & Hdepth & _ & Hpay & Honline & _).
  exists page. split; [exact Hpage|].
  split; [apply Hdepth; reflexivity|].
  split; [apply Hpay; reflexivity|apply Honline; reflexivity].
Defined.

End DefaultsFacts.

Module LoadingFacts.
Import JS NumberFacts StringFacts.
Import Index ClampFacts SignFacts DefaultsFacts.
Local Open Scope float_scope.

(** While the pool statistics are loading (and no error is held) the four
    stat cards and the network, pool, solo and market panels show their
    skeletons, whatever data the query holds, and the price card has no
    line for the change; the refresh icon spins.  The block feed, the chart
    and the configuration panel do not look at the loading flag: they are
    rendered as they are once loading is over. *)
Theorem loading_skeletons
    (toLocaleString toLocaleTimeString toLocaleHourMinute : number -> string)
    (clock : string)
    (poolQuery : Query PoolStatsResponse)
    (chartQuery : Query (list ChartPoint))
    (blocksQuery : Query (list BlockVisualizer.Block)) :
  error poolQuery = None -> isLoading poolQuery = true ->
  exists page loaded : Page,
    MoneroPool toLocaleString toLocaleTimeString toLocaleHourMinute clock
      poolQuery chartQuery blocksQuery = Dashboard page
    /\ MoneroPool toLocaleString toLocaleTimeString toLocaleHourMinute clock
         {| data := data poolQuery; isLoading := false; error := None |}
         chartQuery blocksQuery = Dashboard loaded
    /\ page_refreshSpinning page = true
    /\ stat_body (page_networkHash page) = CardSkeleton
    /\ stat_body (page_poolHash page) = CardSkeleton
    /\ stat_body (page_minersOnline page) = CardSkeleton
    /\ stat_body (page_price page) = CardSkeleton
    /\ stat_sub (page_price page) = None
    /\ page_network page = Skeletons [1; 2; 3; 4]%nat
    /\ page_pool page = Skeletons [1; 2; 3; 4]%nat
    /\ page_solo page = Skeletons [1; 2; 3; 4]%nat
    /\ page_market page = Skeletons [1; 2; 3; 4; 5]%nat
    /\ page_blocks page = page_blocks loaded
    /\ page_chart page = page_chart loaded
    /\ page_config page = page_config loaded
    /\ page_clock page = page_clock loaded.
Proof.
  intros Herr Hload. unfold MoneroPool. rewrite Herr, Hload.
  cbn [error isLoading data].
  eexists. eexists. split; [reflexivity|]. split; [reflexivity|].
  cbn [page_refreshSpinning page_networkHash page_poolHash page_minersOnline
       page_price page_network page_pool page_solo page_market page_blocks
       page_chart page_config page_clock StatCard stat_body stat_sub].
  rewrite andb_false_r.
  repeat (split; [reflexivity|]). reflexivity.
Qed.

Local Abbreviation no_data :=
  {| data := None; isLoading := false; error := None |}.

(** The first render: no data yet, loading. *)
Lemma loading_skeletons_witness :
  exists page loaded : Page,
    MoneroPool toString toString toString "12:00:00"
      {| data := None; isLoading := true; error := None |} no_data no_data
    = Dashboard page
    /\ MoneroPool toString toString toString "12:00:00"
         {| data := None; isLoading := false; error := None |} no_data no_data
       = Dashboard loaded
    /\ stat_body (page_price page) = CardSkeleton
    /\ page_market page = Skeletons [1; 2; 3; 4; 5]%nat
    /\ page_config page = page_config loaded.
Proof.
  destruct (loading_skeletons toString toString toString "12:00:00"
              {| data := None; isLoading := true; error := None |}
              no_data no_data eq_refl eq_refl)
    as (page & loaded & Hpage & Hloaded & _ & _ & _ & _ & Hprice & _ & _ & _
        & _ & Hmarket & _ & _ & Hconfig & _).
  exists page, loaded.
  split; [exact Hpage|]. split; [exact Hloaded|].
  split; [exact Hprice|]. split; [exact Hmarket|exact Hconfig].
Defined.

End LoadingFacts.

Module MinersFacts.
Import JS NumberFacts StringFacts.
Import Index ClampFacts SignFacts DefaultsFacts.
Local Open Scope float_scope.

(** Adding [0] to a truthy number leaves it as it is. *)
Lemma add_zero_r (x : number) : truthy x = true -> x + 0 = x.
Proof.
  rewrite truthy_spec. intros H. apply Prim2SF_inj.
  rewrite FloatAxioms.add_spec.
  change (Prim2SF 0) with (S754_zero false).
  destruct (Prim2SF x) as [s|s| |s m e]; try discriminate; reflexivity.
Qed.

Lemma add_zero_l (x : number) : truthy x = true -> 0 + x = x.
Proof.
  rewrite truthy_spec. intros H. apply Prim2SF_inj.
  rewrite FloatAxioms.add_spec.
  change (Prim2SF 0) with (S754_zero false).
  destruct (Prim2SF x) as [s|s| |s m e]; try discriminate; reflexivity.
Qed.

(** The Miners Online card adds the miners of the pool and solo segments,
    each counted as 0 when its segment or its figure is absent or falsy: with
    only one of them the card shows that one, with neither it shows
    ["0"]. *)
Theorem miners_online_sum
    (toLocaleString toLocaleTimeString toLocaleHourMinute : number -> string)
    (clock : string)
    (poolQuery : Query PoolStatsResponse)
    (chartQuery : Query (list ChartPoint))
    (blocksQuery : Query (list BlockVisualizer.Block)) :
  error poolQuery = None -> isLoading poolQuery = false ->
  let stats := opt (data poolQuery) pool_statistics in
  let poolMiners := opt (opt stats collective) miners in
  let soloMiners := opt (opt stats solo) miners in
  exists page : Page,
    MoneroPool toLocaleString toLocaleTimeString toLocaleHourMinute clock
      poolQuery chartQuery blocksQuery = Dashboard page
    /\ (is_falsy poolMiners = true -> is_falsy soloMiners = true ->
        stat_body (page_minersOnline page) = CardValue "0")
    /\ (forall p : number,
          poolMiners = Some p -> truthy p = true ->
          is_falsy soloMiners = true ->
          stat_body (page_minersOnline page) = CardValue (toLocaleString p))
    /\ (forall s : number,
          is_falsy poolMiners = true ->
          soloMiners = Some s -> truthy s = true ->
          stat_body (page_minersOnline page) = CardValue (toLocaleString s))
    /\ (forall p s : number,
          poolMiners = Some p -> truthy p = true ->
          soloMiners = Some s -> truthy s = true ->
          stat_body (page_minersOnline page)
          = CardValue (Formatters.formatNumber toLocaleString (Some (p + s)))).
Proof.
  intros Herr Hload. cbv zeta. unfold MoneroPool. rewrite Herr, Hload.
  eexists. split; [reflexivity|].
  cbn [page_minersOnline StatCard stat_body].
  set (stats := opt (data poolQuery) pool_statistics).
  set (poolMiners := opt (opt stats collective) miners).
  set (soloMiners := opt (opt stats Index.solo) miners).
  split.
  { intros Hp Hs.
    now rewrite (or_default_falsy _ 0 Hp), (or_default_falsy _ 0 Hs). }
  split.
  { intros p Hp Ht Hs.
    rewrite Hp, (or_default_truthy p 0 Ht), (or_default_falsy _ 0 Hs).
    rewrite (add_zero_r p Ht). cbn [Formatters.formatNumber].
    now rewrite Ht. }
  split.
  { intros s Hp Hs Ht.
    rewrite Hs, (or_default_truthy s 0 Ht), (or_default_falsy _ 0 Hp).
    rewrite (add_zero_l s Ht). cbn [Formatters.formatNumber].
    now rewrite Ht. }
  intros p s Hp Htp Hs Hts.
  now rewrite Hp, Hs, (or_default_truthy p 0 Htp), (or_default_truthy s 0 Hts).
Qed.

Local Abbreviation no_data :=
  {| data := None; isLoading := false; error := None |}.

Local Abbreviation pool_only_response :=
  {| pool_statistics :=
       Some {| collective :=
                 Some {| hashRate := None; miners := Some 1200;
                         currentEffort := Undefined; overallEffort := None;
                         totalBlocksFound := None; orphans := None;
                         pplnsWindowTime := None; lastFoundBlock := None |};
               solo := None |};
     network_statistics := None; market := None; block_template := None;
     config := None; online := None |}.

(** A response with 1200 pool miners and no solo segment. *)
Lemma miners_online_sum_witness :
  exists page : Page,
    MoneroPool toString toString toString "12:00:00"
      {| data := Some pool_only_response; isLoading := false; error := None |}
      no_data no_data = Dashboard page
    /\ stat_body (page_minersOnline page) = CardValue "1200".
Proof.
  destruct (miners_online_sum toString toString toString "12:00:00"
              {| data := Some pool_only_response; isLoading := false;
                 error := None |} no_data no_data eq_refl eq_refl)
    as (page & Hpage & _ & Hpool & _).
  exists page. split; [exact Hpage|].
  rewrite (Hpool 1200 eq_refl eq_refl eq_refl). vm_compute. reflexivity.
Defined.

End MinersFacts.

Module BlockCardFacts.
Import JS NumberFacts StringFacts.
Import ChainVisual ClampFacts SliceFacts.
Local Open Scope float_scope.

Lemma or_zero_not_nan (x : option number) : is_nan (or_zero x) = false.
Proof. destruct x as [v|]; [now apply or_else_not_nan|reflexivity]. Qed.

(** The texts of a block card.  The badge reads SOLO only for a block whose
    [solo] field is [true], and POOL when it is [false] or absent.  The
    effort, 0 when absent, is written with one decimal and is never NaN; it
    is written in green in the green and cyan tiers and in orange in the
    orange and red ones.  The hash preview is the first 8 characters of the
    hash, all of a shorter one, followed by three dots. *)
Theorem block_card_texts
    (toLocaleString : number -> string) (now : number)
    (block : Block) (index : nat) (isLatest : bool) :
  let card := BlockCard toLocaleString now block index isLatest in
  let e := or_zero (effort block) in
  (card_badge card = "SOLO" <-> solo block = Some true)
  /\ (card_badge card = "POOL" <-> solo block <> Some true)
  /\ card_effort card = toFixed e 1 ++ "%"
  /\ is_nan e = false
  /\ (tier_of e = Some Green \/ tier_of e = Some Cyan ->
      card_effortClass card = "text-green-400")
  /\ (tier_of e = Some Orange \/ tier_of e = Some Red ->
      card_effortClass card = "text-orange-400")
  /\ ((String.length (hash block) <= 8)%nat ->
      card_hash card = hash block ++ "...")
  /\ ((8 <= String.length (hash block))%nat ->
      String.length (card_hash card) = 11%nat
      /\ exists first rest : string,
           hash block = first ++ rest
           /\ String.length first = 8%nat
           /\ card_hash card = first ++ "...").
Proof.
  cbv zeta.
  cbn [BlockCard card_badge card_effort card_effortClass card_hash].
  set (e := or_zero (effort block)).
  split.
  { destruct (solo block) as [[]|]; split; intros H;
      (reflexivity || discriminate H). }
  split.
  { destruct (solo block) as [[]|]; split; intros H;
      try reflexivity; try discriminate H; congruence. }
  split; [reflexivity|].
  split; [apply or_zero_not_nan|].
  split.
  { unfold tier_of. intros H.
    destruct (e <? 50) eqn:H50.
    - assert (L : (50 <? 100)%float = true) by reflexivity.
      now rewrite (ltb_trans e 50 100 H50 L).
    - destruct ((50 <=? e) && (e <? 100)) eqn:Hc.
      + apply andb_true_iff in Hc. destruct Hc as [_ ->]. reflexivity.
      + destruct ((100 <=? e) && (e <? 150));
          [destruct H; discriminate|].
        destruct (150 <=? e); destruct H; discriminate. }
  split.
  { unfold tier_of. intros H.
    destruct (e <? 50) eqn:H50; [destruct H; discriminate|].
    destruct ((50 <=? e) && (e <? 100)) eqn:Hc; [destruct H; discriminate|].
    destruct ((100 <=? e) && (e <? 150)) eqn:Ho.
    - apply andb_true_iff in Ho. destruct Ho as [Ho _].
      now rewrite (ltb_false_of_leb _ _ Ho).
    - destruct (150 <=? e) eqn:Hr; [|destruct H; discriminate].
      assert (L : (100 <? 150)%float = true) by reflexivity.
      now rewrite (ltb_false_above 100 150 e L Hr). }
  split.
  { intros H. unfold prefix_chars. now rewrite (substring_all 8 _ H). }
  intros H. unfold prefix_chars. split.
  { rewrite length_append. now rewrite (substring_length 0 8 _) by lia. }
  exists (substring 0 8 (hash block)),
         (substring 8 (String.length (hash block) - 8) (hash block)).
  split; [|split; [apply substring_length; lia|reflexivity]].
  pose proof (substring_split 0 8 (hash block) H) as E.
  replace (substring 0 0 (hash block)) with "" in E
    by (destruct (hash block); reflexivity).
  exact E.
Qed.

Local Abbreviation sample_block :=
  {| hash := "9f8e7d6c5b4a"; height := 3100000; ts := 1700000000;
     difficulty := None; value := 600000000000; fee := 0;
     effort := Some 75; solo := Some false |}.

(** A pool block found at 75% effort: cyan tier, green text; its hash of
    12 characters is cut after the first 8. *)
Lemma block_card_texts_witness :
  card_badge (BlockCard toString 1700000600000 sample_block 0 true) = "POOL"
  /\ card_effortClass (BlockCard toString 1700000600000 sample_block 0 true)
     = "text-green-400"
  /\ (exists first rest : string,
        "9f8e7d6c5b4a" = first ++ rest
        /\ String.length first = 8%nat
        /\ card_hash (BlockCard toString 1700000600000 sample_block 0 true)
           = first ++ "...")
  /\ card_hash (BlockCard toString 1700000600000 sample_block 0 true)
     = "9f8e7d6c...".
Proof.
  destruct (block_card_texts toString 1700000600000 sample_block 0 true)
    as (_ & Hpool & _ & _ & Hgreen & _ & _ & Hlong).
  split; [apply Hpool; discriminate|].
  split; [apply Hgreen; right; reflexivity|].
  split; [|reflexivity].
  apply Hlong. simpl. lia.
Defined.

End BlockCardFacts.

Module ChainDelayFacts.
Import JS NumberFacts StringFacts.
Import ChainVisual ChainLayoutFacts.

Lemma cards_from_delays (toLocaleString : number -> string) (now : number)
    (bs : list Block) :
  forall i : nat,
    map card_animationDelay (cards_from toLocaleString now i bs)
    = map (fun k => toString (of_nat k * 0.1)%float ++ "s")
        (seq i (List.length bs)).
Proof.
  induction bs as [|b rest IH]; intros i; [reflexivity|].
  cbn [cards_from map seq List.length BlockCard card_animationDelay].
  now rewrite IH.
Qed.

(** The animation delays of the cards are [index * 0.1] seconds written by
    [Number::toString]: for the six cards that can be rendered, 0s, 0.1s,
    0.2s, 0.30000000000000004s, 0.4s and 0.5s, the fourth one carrying the
    rounding error of the binary64 product. *)
Theorem chain_cards_delays (toLocaleString : number -> string) (now : number)
    (bs : list Block) :
  map card_animationDelay (cards toLocaleString now (Some bs))
  = firstn (List.length bs)
      ["0s"; "0.1s"; "0.2s"; "0.30000000000000004s"; "0.4s"; "0.5s"].
Proof.
  unfold cards. rewrite cards_from_delays, slice_to_length.
  destruct (List.length bs) as [|[|[|[|[|[|n]]]]]];
    try (vm_compute; reflexivity).
  rewrite firstn_all2 by (simpl; lia).
  replace (Nat.min 6 (S (S (S (S (S (S n))))))) with 6%nat by lia.
  vm_compute. reflexivity.
Qed.

End ChainDelayFacts.

Module IntegerFacts.
Import JS NumberFacts StringFacts DivisionFacts ClampFacts.
Local Open Scope Z_scope.

(** ** The Number of an integer *)

(** A mantissa of 53 bits is kept as it is by the rounding. *)
Lemma round_aux_exact (s : bool) (m : positive) (e : Z) :
  2 ^ 52 <= Zpos m < 2 ^ 53 -> -1074 <= e <= 971 ->
  binary_round_aux prec emax s (Zpos m) e loc_Exact = S754_finite s m e.
Proof.
  intros Hm He. unfold binary_round_aux.
  assert (E : shr_fexp prec emax (Zpos m) e loc_Exact
              = (shr_record_of_loc (Zpos m) loc_Exact, e)).
  { unfold shr_fexp. cbn [Zdigits2].
    rewrite (digits2_pos_unique m 53) by (simpl; lia).
    rewrite fexp_normal by lia. rewrite Z.sub_diag. reflexivity. }
  rewrite E. cbn [shr_record_of_loc shr_m loc_of_shr_record round_nearest_even].
  rewrite E. cbn [shr_record_of_loc shr_m].
  replace (e <=? emax - prec) with true
    by (symmetry; apply Z.leb_le; unfold emax, prec; lia).
  reflexivity.
Qed.

Lemma iter_xO (k m : positive) :
  Zpos (Pos.iter xO m k) = Zpos m * 2 ^ Zpos k.
Proof.
  induction k as [|k IH] using Pos.peano_ind.
  - simpl. lia.
  - rewrite Pos.iter_succ, Pos2Z.inj_xO, IH, Pos2Z.inj_succ.
    rewrite Z.pow_succ_r by lia. lia.
Qed.

(** The normal form of [r * 2^E] held as the integer [M] at exponent
    [E <= 0], when [M] has at most 53 bits: the mantissa is [r] shifted to
    53 bits. *)
Lemma binary_normalize_integer (M : positive) (E d : Z) (s : bool) :
  -1021 <= E <= 0 -> Zpos M < 2 ^ 53 ->
  Zpos (digits2_pos M) = d ->
  exists m : positive,
    binary_round prec emax s M E = S754_finite s m (E + d - 53)
    /\ Zpos m = Zpos M * 2 ^ (53 - d)
    /\ 2 ^ 52 <= Zpos m < 2 ^ 53.
Proof.
  intros HE HM Hd.
  pose proof (digits2_pos_spec M) as Hspec. rewrite Hd in Hspec.
  assert (Hd53 : 1 <= d <= 53).
  { split; [lia|].
    destruct (Z_lt_le_dec 53 d) as [L|L]; [|exact L].
    assert (2 ^ 53 <= 2 ^ (d - 1)) by (apply Z.pow_le_mono_r; lia). lia. }
  unfold binary_round, shl_align. rewrite Hd.
  replace (fexp prec emax (d + E)) with (d + E - 53)
    by (unfold fexp, SpecFloat.emin, prec, emax; lia).
  replace (d + E - 53 - E) with (d - 53) by lia.
  assert (Hscale : 2 ^ (d - 1) * 2 ^ (53 - d) = 2 ^ 52).
  { rewrite <- Z.pow_add_r by lia. f_equal. lia. }
  assert (Hscale' : 2 ^ d * 2 ^ (53 - d) = 2 ^ 53).
  { rewrite <- Z.pow_add_r by lia. f_equal. lia. }
  assert (Hpos : 0 < 2 ^ (53 - d)) by (apply Z.pow_pos_nonneg; lia).
  destruct (d - 53) as [|p|p] eqn:Hsh; [|lia|]; cbv beta iota.
  - assert (Ed : d = 53) by lia. rewrite Ed in *.
    change (53 - 1) with 52 in Hspec.
    exists M. rewrite round_aux_exact by lia.
    split; [f_equal; lia|]. split; [|exact Hspec].
    change (53 - 53) with 0. lia.
  - assert (Hk : 53 - d = Zpos p) by lia.
    exists (Pos.iter xO M p).
    assert (Hval : Zpos (Pos.iter xO M p) = Zpos M * 2 ^ (53 - d))
      by (rewrite Hk; apply iter_xO).
    rewrite round_aux_exact; [| rewrite Hval; nia | lia].
    split; [f_equal; lia|]. split; [exact Hval|]. rewrite Hval. nia.
Qed.

(** [x] is the Number of the positive integer [n]: a normal number whose
    mantissa is [n] shifted to 53 bits. *)
Abbreviation represents x n :=
  (exists (m : positive) (e : Z),
      Prim2SF x = S754_finite false m e
      /\ -52 <= e <= 0 /\ Zpos m = n * 2 ^ (- e)
      /\ 2 ^ 52 <= Zpos m < 2 ^ 53).

Lemma of_int_nonneg (n : Z) :
  0 <= n < 2 ^ 53 -> Prim2SF (of_int n) = binary_normalize prec emax n 0 false.
Proof.
  intros Hn. unfold of_int.
  replace (n <? 0) with false by (symmetry; apply Z.ltb_ge; lia).
  rewrite FloatAxioms.of_uint63_spec, Uint63.of_Z_spec.
  rewrite Z.mod_small; [reflexivity|].
  split; [lia|]. apply Z.lt_trans with (2 ^ 53); [lia|reflexivity].
Qed.

Lemma of_int_zero : of_int 0 = 0%float.
Proof. reflexivity. Qed.

Lemma of_int_represents (n : Z) : 0 < n < 2 ^ 53 -> represents (of_int n) n.
Proof.
  intros Hn. rewrite of_int_nonneg by lia.
  destruct n as [|p|p]; try lia. cbn [binary_normalize].
  destruct (binary_normalize_integer p 0 (Zpos (digits2_pos p)) false)
    as (m & E & Hm & Hnorm); [lia|lia|reflexivity|].
  pose proof (digits2_pos_spec p) as Hspec.
  assert (Hd : 1 <= Zpos (digits2_pos p) <= 53).
  { split; [lia|].
    destruct (Z_lt_le_dec 53 (Zpos (digits2_pos p))) as [L|L]; [|exact L].
    assert (2 ^ 53 <= 2 ^ (Zpos (digits2_pos p) - 1))
      by (apply Z.pow_le_mono_r; lia).
    lia. }
  exists m, (0 + Zpos (digits2_pos p) - 53).
  split; [exact E|]. split; [lia|]. split; [|exact Hnorm].
  rewrite Hm. f_equal. f_equal. lia.
Qed.

(** The order of two such numbers is the order of the integers. *)
Lemma represents_compare (x y : number) (nx ny : Z) :
  represents x nx -> represents y ny ->
  SFcompare (Prim2SF x) (Prim2SF y) = Some (nx ?= ny).
Proof.
  intros (mx & ex & Hx & Hex & Vx & Nx) (my & ey & Hy & Hey & Vy & Ny).
  rewrite Hx, Hy, SFcompare_finite. f_equal.
  assert (Px : 0 < 2 ^ (- ex)) by (apply Z.pow_pos_nonneg; lia).
  assert (Py : 0 < 2 ^ (- ey)) by (apply Z.pow_pos_nonneg; lia).
  destruct (Z.compare_spec ex ey) as [E|E|E].
  - subst ey. rewrite Vy in Ny. rewrite Vx in Nx.
    change (Pos.compare_cont Eq mx my) with (Pos.compare mx my).
    rewrite Pos2Z.inj_compare, Vx, Vy.
    destruct (Z.compare_spec nx ny) as [C|C|C].
    + subst. apply Z.compare_refl.
    + apply Z.compare_lt_iff. nia.
    + apply Z.compare_gt_iff. nia.
  - symmetry. apply Z.compare_lt_iff.
    assert (S : 2 ^ (- ex) = 2 ^ (- ey) * 2 ^ (ey - ex))
      by (rewrite <- Z.pow_add_r by lia; f_equal; lia).
    assert (T : 2 <= 2 ^ (ey - ex)).
    { change 2 with (2 ^ 1) at 1. apply Z.pow_le_mono_r; lia. }
    destruct (Z_lt_le_dec nx ny) as [L|L]; [exact L|]. exfalso.
    assert (Zpos my * 2 <= Zpos mx); [|lia].
    rewrite Vx, Vy, S. nia.
  - symmetry. apply Z.compare_gt_iff.
    assert (S : 2 ^ (- ey) = 2 ^ (- ex) * 2 ^ (ex - ey))
      by (rewrite <- Z.pow_add_r by lia; f_equal; lia).
    assert (T : 2 <= 2 ^ (ex - ey)).
    { change 2 with (2 ^ 1) at 1. apply Z.pow_le_mono_r; lia. }
    destruct (Z_lt_le_dec ny nx) as [L|L]; [exact L|]. exfalso.
    assert (Zpos mx * 2 <= Zpos my); [|lia].
    rewrite Vx, Vy, S. nia.
Qed.

Lemma represents_ltb (x y : number) (nx ny : Z) :
  represents x nx -> represents y ny -> (x <? y)%float = (nx <? ny).
Proof.
  intros Hx Hy. rewrite FloatAxioms.ltb_spec. unfold SFltb.
  rewrite (represents_compare x y nx ny Hx Hy). unfold Z.ltb.
  now destruct (nx ?= ny).
Qed.

Lemma represents_pos (x : number) (n : Z) : represents x n -> 0 < n.
Proof.
  intros (m & e & _ & He & V & N).
  assert (0 < 2 ^ (- e)) by (apply Z.pow_pos_nonneg; lia). nia.
Qed.

End IntegerFacts.

Module DigitsFacts.
Import JS NumberFacts StringFacts DivisionFacts ClampFacts.
Local Open Scope Z_scope.

Lemma log2_fuel (n : Z) : 0 <= n -> n < 2 ^ Z.of_nat (S (Z.to_nat (Z.log2 n))).
Proof.
  intros Hn. rewrite Nat2Z.inj_succ, Z2Nat.id by apply Z.log2_nonneg.
  destruct (Z.eq_dec n 0) as [->|Hnz]; [reflexivity|].
  apply Z.log2_spec. lia.
Qed.

(** With enough fuel [digits_from] prepends the digits of [n]. *)
Lemma digits_from_digits (n : Z) :
  0 <= n ->
  forall (fuel : nat) (acc : string),
    n < 2 ^ Z.of_nat fuel -> (0 < fuel)%nat ->
    digits_from fuel n acc = digits n ++ acc.
Proof.
  intros Hn. pattern n. apply Zlt_0_ind; [|exact Hn].
  clear n Hn. intros n IH Hn fuel acc Hfuel Hpos.
  destruct fuel as [|fuel]; [lia|].
  unfold digits. cbn [digits_from].
  destruct (n / 10 =? 0) eqn:E; [reflexivity|].
  apply Z.eqb_neq in E.
  assert (Hq : 0 <= n / 10 < n).
  { split; [apply Z.div_pos; lia|]. apply Z.div_lt; [|lia].
    destruct (Z.eq_dec n 0) as [->|]; [now rewrite Z.div_0_l in E|lia]. }
  assert (Hhalf : forall f : nat, n < 2 ^ Z.of_nat (S f) ->
            n / 10 < 2 ^ Z.of_nat f).
  { intros f Hf. apply Z.div_lt_upper_bound; [lia|].
    rewrite Nat2Z.inj_succ, Z.pow_succ_r in Hf by lia. lia. }
  assert (Hnz : forall f : nat, n / 10 < 2 ^ Z.of_nat f -> (0 < f)%nat).
  { intros f Hf. destruct f; [simpl in Hf; lia|lia]. }
  rewrite (IH (n / 10) Hq fuel (String (digit n) acc))
    by (try apply Hnz; apply Hhalf; assumption).
  rewrite (IH (n / 10) Hq (Z.to_nat (Z.log2 n)) (String (digit n) ""))
    by (try apply Hnz; apply Hhalf; apply log2_fuel; lia).
  now rewrite append_assoc.
Qed.

(** The digits of a number are those of its tenth, then its last digit. *)
Lemma digits_step (n : Z) :
  0 <= n ->
  digits n = if n / 10 =? 0 then String (digit n) ""
             else digits (n / 10) ++ String (digit n) "".
Proof.
  intros Hn. unfold digits at 1. cbn [digits_from].
  destruct (n / 10 =? 0) eqn:E; [reflexivity|].
  apply Z.eqb_neq in E.
  apply digits_from_digits.
  - apply Z.div_pos; lia.
  - apply Z.div_lt_upper_bound; [lia|].
    pose proof (log2_fuel n Hn) as Hf.
    rewrite Nat2Z.inj_succ, Z.pow_succ_r in Hf by lia. lia.
  - destruct (Z.to_nat (Z.log2 n)) eqn:L; [|lia]. exfalso.
    assert (Z.log2 n <= 0).
    { destruct (Z_lt_le_dec 0 (Z.log2 n)) as [G|G]; [|exact G].
      apply (f_equal Z.of_nat) in L. rewrite Z2Nat.id in L by lia.
      simpl in L. lia. }
    assert (n < 2).
    { destruct (Z.eq_dec n 0) as [->|]; [lia|].
      pose proof (Z.log2_spec n ltac:(lia)) as [_ Hlt].
      replace (Z.succ (Z.log2 n)) with 1 in Hlt
        by (pose proof (Z.log2_nonneg n); lia).
      simpl in Hlt. lia. }
    apply E. apply Z.div_small. lia.
Qed.

Lemma digits_times_ten (t : Z) : 0 < t -> digits (10 * t) = digits t ++ "0".
Proof.
  intros Ht. rewrite digits_step by lia.
  assert (Q : 10 * t / 10 = t)
    by (rewrite (Z.mul_comm 10 t); apply Z.div_mul; lia).
  rewrite Q.
  replace (t =? 0) with false by (symmetry; apply Z.eqb_neq; lia).
  f_equal. unfold digit.
  assert (R : (10 * t) mod 10 = 0)
    by (rewrite (Z.mul_comm 10 t); apply Z.mod_mul; lia).
  rewrite R.
  reflexivity.
Qed.

Lemma zeros_snoc (k : nat) : zeros (S k) = zeros k ++ "0".
Proof. induction k as [|k IH]; [reflexivity|]. cbn [zeros append] in *. now rewrite <- IH. Qed.

Lemma zeros_length (k : nat) : String.length (zeros k) = k.
Proof. induction k as [|k IH]; simpl; [reflexivity|now rewrite IH]. Qed.

(** Trailing zeros: the digits of [s * 10^p]. *)
Lemma digits_scaled (s : Z) (p : nat) :
  0 < s -> digits (s * 10 ^ Z.of_nat p) = digits s ++ zeros p.
Proof.
  intros Hs. induction p as [|p IH].
  - simpl. now rewrite Z.mul_1_r, append_empty.
  - rewrite Nat2Z.inj_succ, Z.pow_succ_r by lia.
    replace (s * (10 * 10 ^ Z.of_nat p)) with (10 * (s * 10 ^ Z.of_nat p))
      by lia.
    assert (0 < 10 ^ Z.of_nat p) by (apply Z.pow_pos_nonneg; lia).
    rewrite digits_times_ten by nia.
    now rewrite IH, zeros_snoc, append_assoc.
Qed.

(** A number below [10^k] has at most [k] digits. *)
Lemma digits_length (k : nat) :
  forall n : Z, 0 <= n < 10 ^ Z.of_nat (S k) ->
    (String.length (digits n) <= S k)%nat.
Proof.
  induction k as [|k IH]; intros n Hn; rewrite digits_step by lia.
  - replace (n / 10 =? 0) with true
      by (symmetry; apply Z.eqb_eq, Z.div_small; simpl in Hn; lia).
    simpl. lia.
  - destruct (n / 10 =? 0); [simpl; lia|].
    rewrite length_append. cbn [String.length].
    assert (Hq : 0 <= n / 10 < 10 ^ Z.of_nat (S k)).
    { split; [apply Z.div_pos; lia|].
      apply Z.div_lt_upper_bound; [lia|].
      rewrite (Nat2Z.inj_succ (S k)), Z.pow_succ_r in Hn by lia. lia. }
    specialize (IH (n / 10) Hq). lia.
Qed.

End DigitsFacts.

Module IntegerStringFacts.
Import JS NumberFacts StringFacts DivisionFacts ClampFacts IntegerFacts
  DigitsFacts.
Local Open Scope Z_scope.

(** The rounding interval of the integer [n = m * 2^e], on the grid of
    [2^g]: [n] itself is at [X], a multiple of the grid step [G >= 2], and
    the interval reaches less than one step to either side. *)
Lemma rounding_interval_integer (m : positive) (e n : Z) :
  -52 <= e <= 0 -> Zpos m = n * 2 ^ (- e) ->
  exists L X H g G : Z,
    rounding_interval m e = (L, X, H, g)
    /\ g < 0 /\ G = 2 ^ (- g) /\ X = n * G
    /\ X - G < L < X /\ X < H < X + G.
Proof.
  intros He Hm. unfold rounding_interval.
  assert (P : 0 < 2 ^ (- e)) by (apply Z.pow_pos_nonneg; lia).
  destruct ((Zpos m =? 2 ^ 52) && (-1074 <? e)).
  - exists (4 * Zpos m - 1), (4 * Zpos m), (4 * Zpos m + 2), (e - 2),
      (2 ^ (- (e - 2))).
    split; [reflexivity|]. split; [lia|]. split; [reflexivity|].
    replace (- (e - 2)) with (- e + 2) by lia.
    rewrite Z.pow_add_r by lia. change (2 ^ 2) with 4. nia.
  - exists (2 * Zpos m - 1), (2 * Zpos m), (2 * Zpos m + 1), (e - 1),
      (2 ^ (- (e - 1))).
    split; [reflexivity|]. split; [lia|]. split; [reflexivity|].
    replace (- (e - 1)) with (- e + 1) by lia.
    rewrite Z.pow_add_r by lia. change (2 ^ 1) with 2. nia.
Qed.

(** A multiple of [10^p] in the rounding interval of an integer is that
    integer. *)
Lemma candidate_at_sound (m : positive) (e n p s : Z) :
  -52 <= e <= 0 -> Zpos m = n * 2 ^ (- e) -> 0 <= p ->
  candidate_at m e p = Some s -> s * 10 ^ p = n.
Proof.
  intros He Hm Hp.
  destruct (rounding_interval_integer m e n He Hm)
    as (L & X & H & g & G & HI & Hg & HG & HX & HL & HH).
  unfold candidate_at. rewrite HI.
  rewrite (Z.max_l p 0), (Z.max_l (- g) 0), (Z.max_r g 0), (Z.max_r (- p) 0)
    by lia.
  rewrite <- HG. change (2 ^ 0 * 10 ^ 0) with 1. rewrite !Z.mul_1_r.
  assert (Gpos : 0 < G) by (subst G; apply Z.pow_pos_nonneg; lia).
  assert (Tpos : 0 < 10 ^ p) by (apply Z.pow_pos_nonneg; lia).
  set (A := 10 ^ p * G).
  assert (Hin : forall t : Z,
            (if Z.even (Zpos m)
             then (L <=? t * A) && (t * A <=? H)
             else (L <? t * A) && (t * A <? H)) = true ->
            t * 10 ^ p = n).
  { intros t Ht.
    assert (B : L <= t * A <= H).
    { destruct (Z.even (Zpos m)); apply andb_true_iff in Ht;
        destruct Ht as [H1 H2].
      - apply Z.leb_le in H1. apply Z.leb_le in H2. lia.
      - apply Z.ltb_lt in H1. apply Z.ltb_lt in H2. lia. }
    unfold A in B.
    assert (C : - G < (t * 10 ^ p - n) * G < G) by nia.
    nia. }
  set (s_lo := X / A).
  destruct (if Z.even (Zpos m)
            then (L <=? s_lo * A) && (s_lo * A <=? H)
            else (L <? s_lo * A) && (s_lo * A <? H)) eqn:Elo;
    destruct (if Z.even (Zpos m)
              then (L <=? (s_lo + 1) * A) && ((s_lo + 1) * A <=? H)
              else (L <? (s_lo + 1) * A) && ((s_lo + 1) * A <? H)) eqn:Ehi.
  - pose proof (Hin _ Elo). pose proof (Hin _ Ehi). nia.
  - intros E. injection E as <-. now apply Hin.
  - intros E. injection E as <-. now apply Hin.
  - discriminate.
Qed.

(** At [p = 0] the integer itself is found. *)
Lemma candidate_at_zero (m : positive) (e n : Z) :
  -52 <= e <= 0 -> Zpos m = n * 2 ^ (- e) ->
  candidate_at m e 0 = Some n.
Proof.
  intros He Hm.
  destruct (rounding_interval_integer m e n He Hm)
    as (L & X & H & g & G & HI & Hg & HG & HX & HL & HH).
  unfold candidate_at. rewrite HI.
  rewrite (Z.max_l 0 0), (Z.max_l (- g) 0), (Z.max_r g 0), (Z.max_r (- 0) 0)
    by lia.
  rewrite <- HG. change (2 ^ 0 * 10 ^ 0) with 1. rewrite !Z.mul_1_r.
  change (10 ^ 0) with 1. rewrite Z.mul_1_l.
  assert (Gpos : 0 < G) by (subst G; apply Z.pow_pos_nonneg; lia).
  assert (Q : X / G = n) by (rewrite HX; apply Z.div_mul; lia).
  rewrite Q.
  assert (Elo : (if Z.even (Zpos m)
                 then (L <=? n * G) && (n * G <=? H)
                 else (L <? n * G) && (n * G <? H)) = true).
  { destruct (Z.even (Zpos m)); apply andb_true_iff; split;
      (apply Z.leb_le || apply Z.ltb_lt); lia. }
  assert (Ehi : (if Z.even (Zpos m)
                 then (L <=? (n + 1) * G) && ((n + 1) * G <=? H)
                 else (L <? (n + 1) * G) && ((n + 1) * G <? H)) = false).
  { destruct (Z.even (Zpos m)); apply andb_false_iff; right;
      (apply Z.leb_gt || apply Z.ltb_ge); nia. }
  rewrite Elo, Ehi. reflexivity.
Qed.

(** The search ends on a pair [(s, p)] with [s * 10^p = n]. *)
Lemma shortest_from_integer (m : positive) (e n : Z) :
  -52 <= e <= 0 -> Zpos m = n * 2 ^ (- e) ->
  forall (fuel : nat) (p : Z),
    0 <= p -> (Z.to_nat p < fuel)%nat ->
    exists s p' : Z,
      shortest_from fuel m e p = (s, p') /\ s * 10 ^ p' = n /\ 0 <= p' <= p.
Proof.
  intros He Hm. induction fuel as [|fuel IH]; intros p Hp Hfuel; [lia|].
  cbn [shortest_from].
  destruct (candidate_at m e p) as [s|] eqn:E.
  - exists s, p. split; [reflexivity|]. split; [|lia].
    exact (candidate_at_sound m e n p s He Hm Hp E).
  - destruct (Z.eq_dec p 0) as [->|Hnz].
    + rewrite (candidate_at_zero m e n He Hm) in E. discriminate.
    + destruct (IH (p - 1)) as (s & p' & Hs & Hv & Hp'); [lia|lia|].
      exists s, p'. split; [exact Hs|]. split; [exact Hv|lia].
Qed.

(** [Number::toString] writes a positive integer below [2^53] as its
    digits. *)
Lemma positive_toString_integer (m : positive) (e n : Z) :
  -52 <= e <= 0 -> Zpos m = n * 2 ^ (- e) -> 2 ^ 52 <= Zpos m < 2 ^ 53 ->
  positive_toString m e = digits n.
Proof.
  intros He Hm Hnorm.
  assert (P : 0 < 2 ^ (- e)) by (apply Z.pow_pos_nonneg; lia).
  assert (Hn : 0 < n < 2 ^ 53) by nia.
  unfold positive_toString, shortest.
  set (bits := Z.log2 (Zpos m) + e + 1).
  assert (Hlog : Z.log2 (Zpos m) = 52).
  { apply Z.log2_unique; [lia|]. change (Z.succ 52) with 53. lia. }
  assert (Hbits : 1 <= bits <= 53) by (unfold bits; lia).
  set (p0 := bits * 30103 / 100000 + 2).
  assert (Hp0 : 2 <= p0 <= 17).
  { unfold p0. split.
    - assert (0 <= bits * 30103 / 100000) by (apply Z.div_pos; lia). lia.
    - assert (bits * 30103 / 100000 < 16)
        by (apply Z.div_lt_upper_bound; lia).
      lia. }
  destruct (shortest_from_integer m e n He Hm 40 p0)
    as (s & p' & Hs & Hv & Hp'); [lia|lia|].
  rewrite Hs.
  assert (T : 0 < 10 ^ p') by (apply Z.pow_pos_nonneg; lia).
  assert (Hspos : 0 < s) by nia.
  pose proof (digits_scaled s (Z.to_nat p') Hspos) as Hd.
  rewrite Z2Nat.id, Hv in Hd by lia.
  assert (Hlen : (String.length (digits n) <= 16)%nat).
  { apply (digits_length 15). split; [lia|].
    apply Z.lt_trans with (2 ^ 53); [lia|reflexivity]. }
  rewrite Hd, length_append, zeros_length in Hlen.
  set (k := Z.of_nat (String.length (digits s))).
  assert (Hk : 0 <= k /\ k + p' <= 16) by (unfold k; lia).
  replace (k <=? k + p') with true by (symmetry; apply Z.leb_le; lia).
  replace (k + p' <=? 21) with true by (symmetry; apply Z.leb_le; lia).
  cbn [andb]. rewrite Hd. f_equal. f_equal. lia.
Qed.

(** [String(n)] for an integer of magnitude below [2^53] is its decimal
    numeral. *)
Lemma toString_of_int (z : Z) :
  - 2 ^ 53 < z < 2 ^ 53 -> toString (of_int z) = numeral z.
Proof.
  intros Hz. unfold numeral.
  destruct (Z.ltb_spec z 0) as [Hneg|Hpos].
  - assert (E : of_int z = (- of_int (- z))%float).
    { unfold of_int.
      replace (z <? 0) with true by (symmetry; apply Z.ltb_lt; lia).
      replace (- z <? 0) with false by (symmetry; apply Z.ltb_ge; lia).
      reflexivity. }
    destruct (of_int_represents (- z)) as (m & e & Hx & He & Hm & Hnorm);
      [lia|].
    unfold toString. rewrite E, FloatAxioms.opp_spec, Hx. cbn [SFopp negb].
    rewrite (positive_toString_integer m e (- z) He Hm Hnorm).
    f_equal. f_equal. lia.
  - destruct (Z.eq_dec z 0) as [->|Hnz]; [reflexivity|].
    destruct (of_int_represents z) as (m & e & Hx & He & Hm & Hnorm); [lia|].
    unfold toString. rewrite Hx. cbn [append].
    rewrite (positive_toString_integer m e z He Hm Hnorm).
    f_equal. lia.
Qed.

End IntegerStringFacts.

Module FloorFacts.
Import JS NumberFacts StringFacts DivisionFacts ClampFacts IntegerFacts.
Local Open Scope Z_scope.

(** [Math.floor] of a positive number with a negative exponent. *)
Lemma Math_floor_finite (x : number) (m : positive) (e : Z) :
  Prim2SF x = S754_finite false m e -> e < 0 ->
  Math_floor x = of_int (Zpos m / 2 ^ (- e)).
Proof.
  intros Hx He. unfold Math_floor. rewrite Hx.
  destruct e as [|p|p]; try lia. reflexivity.
Qed.

(** The floor of the binary64 quotient of two positive integers is their
    integer quotient. *)
Lemma floor_quotient (x y : number) (n k : Z) :
  represents x n -> represents y k -> n < 2 ^ 51 ->
  Math_floor (x / y) = of_int (n / k).
Proof.
  intros (mx & ex & Hx & Hex & Vx & Nx) (my & ey & Hy & Hey & Vy & Ny) Hn.
  assert (Px : 0 < 2 ^ (- ex)) by (apply Z.pow_pos_nonneg; lia).
  assert (Py : 0 < 2 ^ (- ey)) by (apply Z.pow_pos_nonneg; lia).
  assert (Hnpos : 0 < n) by nia.
  assert (Hkpos : 0 < k) by nia.
  assert (Ha : 2 <= - ex).
  { destruct (Z_lt_le_dec (- ex) 2) as [L|L]; [|exact L]. exfalso.
    assert (2 ^ (- ex) <= 2 ^ 1) by (apply Z.pow_le_mono_r; lia).
    change (2 ^ 1) with 2 in H. nia. }
  destruct (SF64div_normal mx my ex ey Nx Ny) as (m & kk & j & E & Hkk & Hj & B);
    [lia|].
  pose proof (FloatAxioms.div_spec x y) as D. rewrite Hx, Hy, E in D.
  set (a := - ex) in *. set (b := - ey) in *.
  rewrite (Math_floor_finite _ m _ D) by lia.
  f_equal.
  replace (- (ex - ey - 53 + kk + j)) with (a - b + 53 - kk - j) by lia.
  set (P := 2 ^ (a - b + 53 - kk - j)).
  set (A := 2 ^ (a - b + 53 - kk)).
  set (W := 2 ^ (a + 53 - b)).
  assert (Ppos : 0 < P) by (apply Z.pow_pos_nonneg; lia).
  assert (Kpos : 0 < 2 ^ kk) by (apply Z.pow_pos_nonneg; lia).
  assert (Jpos : 0 < 2 ^ j) by (apply Z.pow_pos_nonneg; lia).
  assert (HA : A = P * 2 ^ j).
  { unfold A, P. rewrite <- Z.pow_add_r by lia. f_equal. lia. }
  assert (HW : W = A * 2 ^ kk).
  { unfold W, A. rewrite <- Z.pow_add_r by lia. f_equal. lia. }
  assert (HWb : 2 ^ a * 2 ^ 53 = W * 2 ^ b).
  { unfold W. rewrite <- !Z.pow_add_r by lia. f_equal. lia. }
  assert (Hmz : Zpos mx * 2 ^ 53 / Zpos my = n * W / k).
  { rewrite Vx, Vy.
    replace (n * 2 ^ a * 2 ^ 53) with (n * W * 2 ^ b)
      by (rewrite <- (Z.mul_assoc n W), <- HWb; ring).
    apply Z.div_mul_cancel_r; lia. }
  rewrite Hmz in B. set (mz := n * W / k) in *.
  assert (Apos : 0 < A) by (apply Z.pow_pos_nonneg; lia).
  assert (Wpos : 0 < W) by (apply Z.pow_pos_nonneg; lia).
  set (Q := n / k).
  pose proof (Z.div_mod n k ltac:(lia)) as Hdm.
  pose proof (Z.mod_pos_bound n k ltac:(lia)) as Hmod.
  fold Q in Hdm.
  assert (HQ : 0 <= Q) by (apply Z.div_pos; lia).
  (* the quotient of the mantissas *)
  assert (Hmz_lo : Q * W <= mz).
  { unfold mz. apply Z.div_le_lower_bound; [lia|].
    replace (k * (Q * W)) with (k * Q * W) by ring.
    apply Z.mul_le_mono_nonneg_r; lia. }
  assert (Hmz_hi : mz * k <= n * W).
  { unfold mz. rewrite Z.mul_comm. apply Z.mul_div_le. lia. }
  assert (Hq_lo : Q * A <= mz / 2 ^ kk).
  { apply Z.div_le_lower_bound; [lia|].
    replace (2 ^ kk * (Q * A)) with (Q * (A * 2 ^ kk)) by ring.
    rewrite <- HW. exact Hmz_lo. }
  assert (Hq_hi : mz / 2 ^ kk * 2 ^ kk <= mz).
  { rewrite Z.mul_comm. apply Z.mul_div_le. lia. }
  (* the divisor is below [A] *)
  assert (HkA : k < A).
  { assert (k * 2 ^ b < 2 ^ 53) by lia.
    assert (2 ^ (53 - b) * 2 ^ b = 2 ^ 53)
      by (rewrite <- Z.pow_add_r by lia; f_equal; lia).
    assert (k < 2 ^ (53 - b))
      by (apply (Z.mul_lt_mono_pos_r (2 ^ b)); lia).
    assert (2 ^ (53 - b) <= A).
    { unfold A. apply Z.pow_le_mono_r; lia. }
    lia. }
  set (q2 := mz / 2 ^ kk) in *.
  assert (S2 : q2 * k <= n * A).
  { apply (Z.mul_le_mono_pos_r _ _ (2 ^ kk)); [lia|].
    apply Z.le_trans with (mz * k).
    - replace (q2 * k * 2 ^ kk) with (q2 * 2 ^ kk * k) by ring.
      apply Z.mul_le_mono_nonneg_r; lia.
    - rewrite HW in Hmz_hi. replace (n * A * 2 ^ kk) with (n * (A * 2 ^ kk))
        by ring. exact Hmz_hi. }
  assert (Hup : (Zpos m * 2 ^ j - 1) * k <= n * A).
  { apply Z.le_trans with (q2 * k); [|exact S2].
    apply Z.mul_le_mono_nonneg_r; lia. }
  assert (Hn_hi : n * A <= (Q * k + (k - 1)) * A).
  { apply Z.mul_le_mono_nonneg_r; lia. }
  assert (Hlt : Zpos m * 2 ^ j * k < (Q + 1) * P * 2 ^ j * k).
  { replace ((Q + 1) * P * 2 ^ j * k) with ((Q + 1) * k * A)
      by (rewrite HA; ring).
    replace (Zpos m * 2 ^ j * k) with ((Zpos m * 2 ^ j - 1) * k + k) by ring.
    replace ((Q + 1) * k * A) with ((Q * k + (k - 1)) * A + A) by ring.
    lia. }
  assert (Hm_hi : Zpos m < (Q + 1) * P).
  { apply (Z.mul_lt_mono_pos_r (2 ^ j * k)); [apply Z.mul_pos_pos; lia|].
    replace (Zpos m * (2 ^ j * k)) with (Zpos m * 2 ^ j * k) by ring.
    replace ((Q + 1) * P * (2 ^ j * k)) with ((Q + 1) * P * 2 ^ j * k) by ring.
    exact Hlt. }
  assert (Hm_lo : Q * P <= Zpos m).
  { apply (Z.mul_le_mono_pos_r _ _ (2 ^ j)); [lia|].
    replace (Q * P * 2 ^ j) with (Q * A) by (rewrite HA; ring).
    lia. }
  symmetry. apply (Z.div_unique_pos _ _ _ (Zpos m - Q * P)); lia.
Qed.

End FloorFacts.

Module RemainderFacts.
Import JS NumberFacts StringFacts DivisionFacts ClampFacts IntegerFacts.
Local Open Scope Z_scope.

(** A positive integer has one normal representation. *)
Lemma normal_unique (r : Z) (m1 m2 : positive) (e1 e2 : Z) :
  e1 <= 0 -> e2 <= 0 ->
  Zpos m1 = r * 2 ^ (- e1) -> Zpos m2 = r * 2 ^ (- e2) ->
  2 ^ 52 <= Zpos m1 < 2 ^ 53 -> 2 ^ 52 <= Zpos m2 < 2 ^ 53 ->
  e1 = e2 /\ m1 = m2.
Proof.
  intros He1 He2 V1 V2 N1 N2.
  assert (P1 : 0 < 2 ^ (- e1)) by (apply Z.pow_pos_nonneg; lia).
  assert (P2 : 0 < 2 ^ (- e2)) by (apply Z.pow_pos_nonneg; lia).
  assert (Hr : 0 < r) by nia.
  assert (E : e1 = e2).
  { destruct (Z.lt_trichotomy e1 e2) as [L|[L|L]]; [exfalso|exact L|exfalso].
    - assert (S : 2 ^ (- e1) = 2 ^ (- e2) * 2 ^ (e2 - e1))
        by (rewrite <- Z.pow_add_r by lia; f_equal; lia).
      assert (T : 2 ^ 1 <= 2 ^ (e2 - e1)) by (apply Z.pow_le_mono_r; lia).
      change (2 ^ 1) with 2 in T.
      assert (Zpos m2 * 2 <= Zpos m1); [|lia].
      rewrite V1, V2, S.
      replace (r * (2 ^ (- e2) * 2 ^ (e2 - e1)))
        with (r * 2 ^ (- e2) * 2 ^ (e2 - e1)) by ring.
      apply Z.mul_le_mono_nonneg_l; lia.
    - assert (S : 2 ^ (- e2) = 2 ^ (- e1) * 2 ^ (e1 - e2))
        by (rewrite <- Z.pow_add_r by lia; f_equal; lia).
      assert (T : 2 ^ 1 <= 2 ^ (e1 - e2)) by (apply Z.pow_le_mono_r; lia).
      change (2 ^ 1) with 2 in T.
      assert (Zpos m1 * 2 <= Zpos m2); [|lia].
      rewrite V1, V2, S.
      replace (r * (2 ^ (- e1) * 2 ^ (e1 - e2)))
        with (r * 2 ^ (- e1) * 2 ^ (e1 - e2)) by ring.
      apply Z.mul_le_mono_nonneg_l; lia. }
  split; [exact E|]. subst e2. apply Pos2Z.inj. congruence.
Qed.

(** The Number nearest to [r * 2^e0], held as the integer [r * 2^-e0] of at
    most 53 bits, is the Number of [r]. *)
Lemma of_scaled_integer (r e0 : Z) :
  0 <= r -> -1021 <= e0 <= 0 -> r * 2 ^ (- e0) < 2 ^ 53 ->
  of_scaled (r * 2 ^ (- e0)) e0 = of_int r.
Proof.
  intros Hr He0 Hbound. unfold of_scaled.
  assert (P0 : 0 < 2 ^ (- e0)) by (apply Z.pow_pos_nonneg; lia).
  destruct (Z.eq_dec r 0) as [->|Hnz]; [reflexivity|].
  assert (Hrlt : r < 2 ^ 53) by nia.
  destruct (r * 2 ^ (- e0)) as [|M|M] eqn:EM; [nia| |nia].
  cbn [binary_normalize].
  destruct (binary_normalize_integer M e0 (Zpos (digits2_pos M)) false)
    as (m & E & Hm & Hnorm); [lia|lia|reflexivity|].
  pose proof (digits2_pos_spec M) as Hspec.
  set (d := Zpos (digits2_pos M)) in *.
  assert (Hd : 1 <= d <= 53).
  { split; [unfold d; lia|].
    destruct (Z_lt_le_dec 53 d) as [L|L]; [|exact L].
    assert (2 ^ 53 <= 2 ^ (d - 1)) by (apply Z.pow_le_mono_r; lia). lia. }
  destruct (of_int_represents r) as (m' & e' & Hx & He' & Hm' & Hnorm');
    [lia|].
  assert (Hm2 : Zpos m = r * 2 ^ (- (e0 + d - 53))).
  { rewrite Hm, <- EM.
    replace (- (e0 + d - 53)) with (- e0 + (53 - d)) by lia.
    rewrite Z.pow_add_r by lia. ring. }
  destruct (normal_unique r m m' (e0 + d - 53) e')
    as [Ee Em]; [lia|lia|exact Hm2|exact Hm'|exact Hnorm|exact Hnorm'|].
  rewrite E, Ee, Em, <- Hx. apply SF2Prim_Prim2SF.
Qed.

(** The remainder of two positive integers. *)
Lemma remainder_integers (x y : number) (n k : Z) :
  represents x n -> represents y k ->
  remainder x y = of_int (n mod k).
Proof.
  intros (mx & ex & Hx & Hex & Vx & Nx) (my & ey & Hy & Hey & Vy & Ny).
  unfold remainder. rewrite Hx, Hy.
  set (e0 := Z.min ex ey).
  assert (Px : 0 < 2 ^ (- ex)) by (apply Z.pow_pos_nonneg; lia).
  assert (Py : 0 < 2 ^ (- ey)) by (apply Z.pow_pos_nonneg; lia).
  assert (P0 : 0 < 2 ^ (- e0)) by (apply Z.pow_pos_nonneg; lia).
  assert (Hn : 0 < n) by nia.
  assert (Hk : 0 < k) by nia.
  assert (EX : Zpos mx * 2 ^ (ex - e0) = n * 2 ^ (- e0)).
  { rewrite Vx. replace (- e0) with (- ex + (ex - e0)) by lia.
    rewrite Z.pow_add_r by lia. ring. }
  assert (EY : Zpos my * 2 ^ (ey - e0) = k * 2 ^ (- e0)).
  { rewrite Vy. replace (- e0) with (- ey + (ey - e0)) by lia.
    rewrite Z.pow_add_r by lia. ring. }
  rewrite EX, EY, Z.mul_mod_distr_r by lia.
  pose proof (Z.mod_pos_bound n k Hk) as Hmod.
  apply of_scaled_integer; [lia|lia|].
  destruct (Z.min_spec ex ey) as [[L E]|[L E]]; fold e0 in E; rewrite E.
  - apply Z.le_lt_trans with (n * 2 ^ (- ex)); [|lia].
    apply Z.mul_le_mono_nonneg_r; [lia|].
    apply Z.mod_le; lia.
  - apply Z.lt_trans with (k * 2 ^ (- ey)); [|lia].
    apply Z.mul_lt_mono_pos_r; lia.
Qed.

End RemainderFacts.

Module ExactFacts.
Import JS NumberFacts StringFacts DivisionFacts ClampFacts IntegerFacts.
Import RemainderFacts.
Local Open Scope Z_scope.

(** Shifting out [p] zero bits is exact. *)
Lemma shr_exact (p : positive) :
  forall M : Z, 0 <= M ->
    iter_pos shr_1 p
      {| shr_m := 2 ^ Zpos p * M; shr_r := false; shr_s := false |}
    = {| shr_m := M; shr_r := false; shr_s := false |}.
Proof.
  assert (Step : forall M : Z, 0 <= M ->
            shr_1 {| shr_m := 2 * M; shr_r := false; shr_s := false |}
            = {| shr_m := M; shr_r := false; shr_s := false |}).
  { intros M HM. destruct M as [|q|q]; try lia; reflexivity. }
  induction p as [p IH|p IH|]; intros M HM; cbn [iter_pos].
  - assert (Q : 0 < 2 ^ Zpos p) by (apply Z.pow_pos_nonneg; lia).
    assert (E : 2 ^ Zpos p~1 * M = 2 * (2 ^ Zpos p * (2 ^ Zpos p * M))).
    { assert (D : Zpos p~1 = 1 + Zpos p + Zpos p) by lia.
      rewrite D, !Z.pow_add_r by lia. change (2 ^ 1) with 2. ring. }
    rewrite E, Step by (apply Z.mul_nonneg_nonneg; [lia|];
                        apply Z.mul_nonneg_nonneg; lia).
    rewrite IH by (apply Z.mul_nonneg_nonneg; lia). now apply IH.
  - assert (Q : 0 < 2 ^ Zpos p) by (apply Z.pow_pos_nonneg; lia).
    assert (E : 2 ^ Zpos p~0 * M = 2 ^ Zpos p * (2 ^ Zpos p * M)).
    { assert (D : Zpos p~0 = Zpos p + Zpos p) by lia.
      rewrite D, !Z.pow_add_r by lia. ring. }
    rewrite E, IH by (apply Z.mul_nonneg_nonneg; lia). now apply IH.
  - change (2 ^ 1) with 2. now apply Step.
Qed.

(** The number of bits of a positive integer. *)
Lemma bits_of (r : Z) :
  0 < r < 2 ^ 53 ->
  exists d : Z, 1 <= d <= 53 /\ 2 ^ (d - 1) <= r < 2 ^ d.
Proof.
  intros Hr. exists (Z.log2 r + 1).
  pose proof (Z.log2_spec r ltac:(lia)) as [Hlo Hhi].
  pose proof (Z.log2_nonneg r).
  replace (Z.log2 r + 1 - 1) with (Z.log2 r) by lia.
  replace (Z.succ (Z.log2 r)) with (Z.log2 r + 1) in Hhi by lia.
  split; [|lia]. split; [lia|].
  destruct (Z_lt_le_dec 52 (Z.log2 r)) as [L|L]; [|lia].
  assert (2 ^ 53 <= 2 ^ Z.log2 r) by (apply Z.pow_le_mono_r; lia). lia.
Qed.

(** The rounding of the integer [r], held as the mantissa [M = r * 2^-E] at
    the exponent [E <= 0], is the normal form of [r]: nothing is lost. *)
Lemma binary_round_integer (s : bool) (M : positive) (E r : Z) :
  -1021 <= E <= 0 -> Zpos M = r * 2 ^ (- E) -> 0 < r < 2 ^ 53 ->
  exists (m : positive) (e : Z),
    binary_round prec emax s M E = S754_finite s m e
    /\ -52 <= e <= 0 /\ Zpos m = r * 2 ^ (- e)
    /\ 2 ^ 52 <= Zpos m < 2 ^ 53.
Proof.
  intros HE HM Hr.
  destruct (bits_of r Hr) as (d & Hd & Hbits).
  assert (PE : 0 < 2 ^ (- E)) by (apply Z.pow_pos_nonneg; lia).
  assert (HdM : Zpos (digits2_pos M) = d - E).
  { apply digits2_pos_unique. rewrite HM.
    replace (d - E - 1) with (d - 1 + - E) by lia.
    replace (d - E) with (d + - E) by lia.
    rewrite !Z.pow_add_r by lia. split.
    - apply Z.mul_le_mono_nonneg_r; lia.
    - apply Z.mul_lt_mono_pos_r; lia. }
  assert (Hnormal : 2 ^ 52 <= r * 2 ^ (53 - d) < 2 ^ 53).
  { assert (S1 : 2 ^ (d - 1) * 2 ^ (53 - d) = 2 ^ 52)
      by (rewrite <- Z.pow_add_r by lia; f_equal; lia).
    assert (S2 : 2 ^ d * 2 ^ (53 - d) = 2 ^ 53)
      by (rewrite <- Z.pow_add_r by lia; f_equal; lia).
    assert (Q : 0 < 2 ^ (53 - d)) by (apply Z.pow_pos_nonneg; lia).
    rewrite <- S1, <- S2. split.
    - apply Z.mul_le_mono_nonneg_r; lia.
    - apply Z.mul_lt_mono_pos_r; lia. }
  pose proof (digits2_pos_spec M) as HspecM. rewrite HdM in HspecM.
  destruct (Z_lt_le_dec (Zpos M) (2 ^ 53)) as [Hsmall|Hbig].
  - (* at most 53 bits: the mantissa is shifted to the left *)
    assert (HdE : d - E <= 53).
    { destruct (Z_lt_le_dec 53 (d - E)) as [L|L]; [|exact L].
      assert (2 ^ 53 <= 2 ^ (d - E - 1)) by (apply Z.pow_le_mono_r; lia).
      lia. }
    destruct (binary_normalize_integer M E (d - E) s HE Hsmall HdM)
      as (m & Em & Hm & Hnorm).
    exists m, (d - 53).
    split; [rewrite Em; f_equal; lia|]. split; [lia|]. split; [|exact Hnorm].
    rewrite Hm, HM, <- Z.mul_assoc, <- Z.pow_add_r by lia.
    f_equal. f_equal. lia.
  - (* more than 53 bits: the zero bits below are shifted out *)
    assert (HdE : 54 <= d - E).
    { destruct (Z_lt_le_dec (d - E) 54) as [L|L]; [|exact L].
      assert (2 ^ (d - E) <= 2 ^ 53) by (apply Z.pow_le_mono_r; lia). lia. }
    destruct (r * 2 ^ (53 - d)) as [|m0|m0] eqn:Em0; try lia.
    exists m0, (d - 53).
    split; [|split; [lia|split; [|exact Hnormal]]].
    2:{ rewrite <- Em0. f_equal. f_equal. lia. }
    unfold binary_round, shl_align. rewrite HdM.
    replace (fexp prec emax (d - E + E)) with (d - 53)
      by (unfold fexp, SpecFloat.emin, prec, emax; lia).
    destruct (d - 53 - E) as [|n|n] eqn:En; try lia.
    unfold binary_round_aux.
    assert (S1 : shr_fexp prec emax (Zpos M) E loc_Exact
                 = ({| shr_m := Zpos m0; shr_r := false; shr_s := false |},
                    d - 53)).
    { unfold shr_fexp. cbn [Zdigits2]. rewrite HdM.
      replace (fexp prec emax (d - E + E)) with (d - 53)
        by (unfold fexp, SpecFloat.emin, prec, emax; lia).
      rewrite En. cbn [shr shr_record_of_loc].
      assert (EM : Zpos M = 2 ^ Zpos n * Zpos m0).
      { rewrite HM, <- Em0, <- En.
        rewrite (Z.mul_comm (2 ^ (d - 53 - E))), <- Z.mul_assoc,
          <- Z.pow_add_r by lia.
        f_equal. f_equal. lia. }
      rewrite EM, shr_exact by lia. f_equal. lia. }
    rewrite S1. cbn [shr_m loc_of_shr_record round_nearest_even].
    assert (S2 : shr_fexp prec emax (Zpos m0) (d - 53) loc_Exact
                 = ({| shr_m := Zpos m0; shr_r := false; shr_s := false |},
                    d - 53)).
    { unfold shr_fexp. cbn [Zdigits2].
      rewrite (digits2_pos_unique m0 53) by (simpl; lia).
      rewrite fexp_normal by lia. rewrite Z.sub_diag. reflexivity. }
    rewrite S2. cbn [shr_m].
    replace (d - 53 <=? emax - prec) with true
      by (symmetry; apply Z.leb_le; unfold emax, prec; lia).
    reflexivity.
Qed.

(** The product of two positive integers is exact below [2^53]. *)
Lemma mul_integers (x y : number) (nx ny : Z) :
  represents x nx -> represents y ny -> nx * ny < 2 ^ 53 ->
  represents (x * y)%float (nx * ny).
Proof.
  intros (mx & ex & Hx & Hex & Vx & Nx) (my & ey & Hy & Hey & Vy & Ny) Hlt.
  assert (Px : 0 < 2 ^ (- ex)) by (apply Z.pow_pos_nonneg; lia).
  assert (Py : 0 < 2 ^ (- ey)) by (apply Z.pow_pos_nonneg; lia).
  assert (Hnx : 0 < nx) by nia.
  assert (Hny : 0 < ny) by nia.
  rewrite FloatAxioms.mul_spec, Hx, Hy. unfold SF64mul, SFmul. cbn [xorb].
  assert (HM : Zpos (mx * my) = nx * ny * 2 ^ (- (ex + ey))).
  { rewrite Pos2Z.inj_mul, Vx, Vy.
    replace (- (ex + ey)) with (- ex + - ey) by lia.
    rewrite Z.pow_add_r by lia. ring. }
  assert (Hbig : 2 ^ 53 <= Zpos (mx * my)).
  { rewrite Pos2Z.inj_mul.
    apply Z.le_trans with (2 ^ 52 * 2 ^ 52); [lia|].
    apply Z.mul_le_mono_nonneg; lia. }
  (* the product has more than 53 bits: no alignment to the left *)
  destruct (binary_round_integer false (mx * my) (ex + ey) (nx * ny))
    as (m & e & E & He & Hm & Hnorm); [lia|exact HM|split; [|exact Hlt]|].
  { apply Z.mul_pos_pos; lia. }
  exists m, e. split; [|split; [exact He|split; [exact Hm|exact Hnorm]]].
  rewrite <- E. unfold binary_round, shl_align.
  destruct (bits_of (nx * ny)) as (d & Hd & Hbits);
    [split; [apply Z.mul_pos_pos; lia|exact Hlt]|].
  assert (PE : 0 < 2 ^ (- (ex + ey))) by (apply Z.pow_pos_nonneg; lia).
  assert (HdM : Zpos (digits2_pos (mx * my)) = d - (ex + ey)).
  { apply digits2_pos_unique. rewrite HM.
    replace (d - (ex + ey) - 1) with (d - 1 + - (ex + ey)) by lia.
    replace (d - (ex + ey)) with (d + - (ex + ey)) by lia.
    rewrite !Z.pow_add_r by lia. split.
    - apply Z.mul_le_mono_nonneg_r; lia.
    - apply Z.mul_lt_mono_pos_r; lia. }
  rewrite HdM.
  replace (fexp prec emax (d - (ex + ey) + (ex + ey))) with (d - 53)
    by (unfold fexp, SpecFloat.emin, prec, emax; lia).
  assert (54 <= d - (ex + ey)).
  { destruct (Z_lt_le_dec (d - (ex + ey)) 54) as [L|L]; [|exact L].
    pose proof (digits2_pos_spec (mx * my)) as Hs. rewrite HdM in Hs.
    assert (2 ^ (d - (ex + ey)) <= 2 ^ 53) by (apply Z.pow_le_mono_r; lia).
    lia. }
  destruct (d - 53 - (ex + ey)) as [|n|n] eqn:En; try lia. reflexivity.
Qed.

Lemma shl_align_fst (m : positive) (e ez : Z) :
  ez <= e -> Zpos (fst (shl_align m e ez)) = Zpos m * 2 ^ (e - ez).
Proof.
  intros H. unfold shl_align.
  destruct (ez - e) as [|d|d] eqn:E; try lia; cbn [fst].
  - replace (e - ez) with 0 by lia. simpl. lia.
  - rewrite iter_xO. f_equal. f_equal. lia.
Qed.

Lemma represents_below (x : number) (n : Z) : represents x n -> n < 2 ^ 53.
Proof.
  intros (m & e & _ & He & V & N).
  assert (1 <= 2 ^ (- e)) by (apply (Z.pow_le_mono_r 2 0); lia).
  assert (0 < n) by nia.
  apply Z.le_lt_trans with (Zpos m); [|lia].
  rewrite V. rewrite <- (Z.mul_1_r n) at 1.
  apply Z.mul_le_mono_nonneg_l; lia.
Qed.

(** The integer that the difference of two positive integers rounds. *)
Lemma sub_mantissa (x y : number) (nx ny : Z) :
  represents x nx -> represents y ny ->
  exists ez : Z,
    -52 <= ez <= 0
    /\ Prim2SF (x - y)%float
       = binary_normalize prec emax ((nx - ny) * 2 ^ (- ez)) ez false.
Proof.
  intros (mx & ex & Hx & Hex & Vx & Nx) (my & ey & Hy & Hey & Vy & Ny).
  rewrite FloatAxioms.sub_spec, Hx, Hy. unfold SF64sub, SFsub.
  cbn [cond_Zopp].
  set (ez := Z.min ex ey).
  exists ez. split; [unfold ez; lia|].
  rewrite !shl_align_fst by (unfold ez; lia).
  f_equal. rewrite Vx, Vy.
  rewrite <- !Z.mul_assoc, <- !Z.pow_add_r by (unfold ez; lia).
  replace (- ex + (ex - ez)) with (- ez) by lia.
  replace (- ey + (ey - ez)) with (- ez) by lia.
  ring.
Qed.

(** The difference of two positive integers is exact. *)
Lemma sub_integers (x y : number) (nx ny : Z) :
  represents x nx -> represents y ny -> ny < nx ->
  represents (x - y)%float (nx - ny).
Proof.
  intros Rx Ry Hlt.
  destruct (sub_mantissa x y nx ny Rx Ry) as (ez & Hez & E).
  pose proof (represents_below x nx Rx) as Bx.
  pose proof (represents_pos y ny Ry) as Py.
  assert (PE : 0 < 2 ^ (- ez)) by (apply Z.pow_pos_nonneg; lia).
  destruct ((nx - ny) * 2 ^ (- ez)) as [|M|M] eqn:EM;
    [nia| |nia].
  cbn [binary_normalize] in E.
  destruct (binary_round_integer false M ez (nx - ny))
    as (m & e & Em & He & Hm & Hnorm); [lia|lia|lia|].
  exists m, e. rewrite E, Em. auto.
Qed.

Lemma sub_equal_integers (x y : number) (n : Z) :
  represents x n -> represents y n -> (x - y)%float = 0%float.
Proof.
  intros Rx Ry.
  destruct (sub_mantissa x y n n Rx Ry) as (ez & Hez & E).
  apply Prim2SF_inj. rewrite E, Z.sub_diag. reflexivity.
Qed.

End ExactFacts.

Module WindowFacts.
Import JS NumberFacts StringFacts DivisionFacts ClampFacts IntegerFacts.
Import DigitsFacts IntegerStringFacts FloorFacts RemainderFacts SignFacts.
Import Index DefaultsFacts.
Local Open Scope Z_scope.

Lemma represents_truthy (x : number) (n : Z) :
  represents x n -> truthy x = true.
Proof. intros (m & e & Hx & _). rewrite truthy_spec, Hx. reflexivity. Qed.

(** Seconds below 60, padded to two characters. *)
Lemma pad_seconds (r : Z) :
  0 <= r < 60 -> padStart_zeros 2 (digits r) = fixed_digits 2 r.
Proof.
  intros Hr. rewrite <- (Z2Nat.id r) by lia.
  assert (H : (Z.to_nat r < 60)%nat) by lia.
  generalize dependent (Z.to_nat r). clear r Hr. intros k Hk.
  do 60 (destruct k as [|k]; [vm_compute; reflexivity|]). lia.
Qed.

(** The PPLNS window of the pool panel: a whole number of seconds [t]
    below [2^51] is written as its minutes, a colon, and its seconds on two
    digits; an absent or zero time reads ["0:00"].  Nothing rounds or
    clamps a time that is not a whole number or is negative. *)
Theorem pplns_window_format :
  (forall t : Z,
      0 <= t < 2 ^ 51 ->
      pplnsWindow (Some (of_int t))
      = digits (t / 60) ++ ":" ++ fixed_digits 2 (t mod 60))
  /\ pplnsWindow None = "0:00"
  /\ pplnsWindow (Some 0%float) = "0:00"
  /\ pplnsWindow (Some 3725%float) = "62:05"
  /\ pplnsWindow (Some 90.5%float) = "1:30.5"
  /\ pplnsWindow (Some (-5)%float) = "-1:-5".
Proof.
  split.
  { intros t Ht. destruct (Z.eq_dec t 0) as [->|Hnz]; [reflexivity|].
    assert (Hx : represents (of_int t) t) by (apply of_int_represents; lia).
    assert (H60 : represents 60%float 60) by (apply (of_int_represents 60); lia).
    unfold pplnsWindow.
    rewrite (or_default_truthy (of_int t) 0%float
               (represents_truthy _ _ Hx)).
    rewrite (floor_quotient _ _ t 60 Hx H60) by lia.
    rewrite (remainder_integers _ _ t 60 Hx H60).
    pose proof (Z.mod_pos_bound t 60 ltac:(lia)) as Hmod.
    assert (Hq : 0 <= t / 60 < 2 ^ 51).
    { split; [apply Z.div_pos; lia|].
      apply Z.div_lt_upper_bound; lia. }
    rewrite !toString_of_int by lia.
    unfold numeral.
    replace (t / 60 <? 0) with false by (symmetry; apply Z.ltb_ge; lia).
    replace (t mod 60 <? 0) with false by (symmetry; apply Z.ltb_ge; lia).
    cbn [append]. rewrite !Z.abs_eq by lia.
    now rewrite pad_seconds by lia. }
  split; [vm_compute; reflexivity|].
  split; [vm_compute; reflexivity|].
  split; [vm_compute; reflexivity|].
  split; vm_compute; reflexivity.
Qed.

(** Two hours, three minutes and seven seconds. *)
Lemma pplns_window_format_witness :
  pplnsWindow (Some (of_int 7387)) = "123:07".
Proof.
  rewrite (proj1 pplns_window_format 7387) by lia.
  vm_compute. reflexivity.
Defined.

End WindowFacts.

Module TimeAgoFacts.
Import JS NumberFacts StringFacts DivisionFacts ClampFacts IntegerFacts.
Import DigitsFacts IntegerStringFacts FloorFacts RemainderFacts SignFacts.
Import ExactFacts WindowFacts.
Import ChainVisual.
Local Open Scope Z_scope.

(** The order of the Number of a non-negative integer and a positive
    integer constant. *)
Lemma of_int_ltb (s c : Z) :
  0 <= s < 2 ^ 53 -> 0 < c < 2 ^ 53 ->
  (of_int s <? of_int c)%float = (s <? c).
Proof.
  intros Hs Hc. destruct (Z.eq_dec s 0) as [->|Hnz].
  - rewrite positive_spec.
    destruct (of_int_represents c Hc) as (m & e & Hx & _). rewrite Hx.
    symmetry. apply Z.ltb_lt. lia.
  - apply represents_ltb; apply of_int_represents; lia.
Qed.

(** The floor of the quotient of the Number of a non-negative integer by a
    positive integer constant. *)
Lemma of_int_floor_div (s c : Z) :
  0 <= s < 2 ^ 51 -> 0 < c < 2 ^ 53 ->
  Math_floor (of_int s / of_int c) = of_int (s / c).
Proof.
  intros Hs Hc. destruct (Z.eq_dec s 0) as [->|Hnz].
  - destruct (of_int_represents c Hc) as (m & e & Hx & _).
    assert (E : (of_int 0 / of_int c)%float = 0%float).
    { apply Prim2SF_inj. rewrite FloatAxioms.div_spec, Hx. reflexivity. }
    rewrite E. reflexivity.
  - apply floor_quotient; [apply of_int_represents; lia| |lia].
    apply of_int_represents; lia.
Qed.

Lemma toString_nonneg (s : Z) :
  0 <= s < 2 ^ 53 -> toString (of_int s) = digits s.
Proof.
  intros Hs. rewrite toString_of_int by lia. unfold numeral.
  replace (s <? 0) with false by (symmetry; apply Z.ltb_ge; lia).
  cbn [append]. f_equal. lia.
Qed.

(** The age of a block whose whole number of elapsed seconds is [s]. *)
Lemma time_ago_of_seconds (now ts : number) (s : Z) :
  Math_floor ((now - ts * 1000) / 1000)%float = of_int s ->
  0 <= s < 2 ^ 51 ->
  formatTimeAgo now ts
  = if s <? 60 then digits s ++ "s ago"
    else if s <? 3600 then digits (s / 60) ++ "m ago"
    else if s <? 86400 then digits (s / 3600) ++ "h ago"
    else digits (s / 86400) ++ "d ago".
Proof.
  intros Hsec Hs. unfold formatTimeAgo. rewrite Hsec.
  change 60%float with (of_int 60). change 3600%float with (of_int 3600).
  change 86400%float with (of_int 86400).
  rewrite !of_int_ltb by lia.
  rewrite !of_int_floor_div by lia.
  assert (forall c, 0 < c -> 0 <= s / c < 2 ^ 53).
  { intros c Hc. split; [apply Z.div_pos; lia|].
    apply Z.le_lt_trans with s; [|lia].
    apply Z.div_le_upper_bound; [lia|]. nia. }
  rewrite !toString_nonneg by (auto with zarith; lia).
  reflexivity.
Qed.

(** [formatTimeAgo] for a block found at the whole second [ts] of the Unix
    epoch, read at the millisecond [now] of the clock, not before the block
    was found and below [2^51]: with [s] the whole seconds elapsed, the age
    is [s] in seconds below a minute, the whole minutes below an hour, the
    whole hours below a day, and the whole days from there on.  A NaN
    timestamp falls through every comparison and reads ["NaNd ago"]; a
    timestamp in the future gives a negative number of seconds. *)
Theorem time_ago_format :
  (forall now ts : Z,
      0 < ts -> ts * 1000 <= now < 2 ^ 51 ->
      let s := (now - ts * 1000) / 1000 in
      formatTimeAgo (of_int now) (of_int ts)
      = if s <? 60 then digits s ++ "s ago"
        else if s <? 3600 then digits (s / 60) ++ "m ago"
        else if s <? 86400 then digits (s / 3600) ++ "h ago"
        else digits (s / 86400) ++ "d ago")
  /\ (forall now : number, formatTimeAgo now nan = "NaNd ago")
  /\ formatTimeAgo 1700000000000%float 1700000005%float = "-5s ago".
Proof.
  split.
  { intros now ts Hts Hnow. cbv zeta.
    assert (Rts : represents (of_int ts) ts)
      by (apply of_int_represents; lia).
    assert (R1000 : represents 1000%float 1000)
      by (apply (of_int_represents 1000); lia).
    assert (Rms : represents (of_int ts * 1000)%float (ts * 1000))
      by (apply mul_integers; [exact Rts|exact R1000|lia]).
    assert (Rnow : represents (of_int now) now)
      by (apply of_int_represents; lia).
    assert (Hq : 0 <= (now - ts * 1000) / 1000 < 2 ^ 51).
    { split; [apply Z.div_pos; lia|].
      apply Z.div_lt_upper_bound; lia. }
    apply time_ago_of_seconds; [|exact Hq].
    destruct (Z.eq_dec now (ts * 1000)) as [E|Hne].
    - rewrite <- E in Rms.
      rewrite (sub_equal_integers _ _ now Rnow Rms).
      rewrite E, Z.sub_diag. reflexivity.
    - apply floor_quotient; [|exact R1000|lia].
      apply sub_integers; [exact Rnow|exact Rms|lia]. }
  split.
  { intros now.
    assert (E : (now - nan * 1000)%float = nan).
    { apply Prim2SF_inj. rewrite FloatAxioms.sub_spec.
      change (Prim2SF (nan * 1000)%float) with S754_nan.
      change (Prim2SF nan) with S754_nan.
      now destruct (Prim2SF now). }
    unfold formatTimeAgo. rewrite E. vm_compute. reflexivity. }
  vm_compute. reflexivity.
Qed.

(** A block found at 1 700 000 000 s, read 3 725.5 s later: one hour. *)
Lemma time_ago_format_witness :
  formatTimeAgo (of_int 1700003725500) (of_int 1700000000) = "1h ago".
Proof.
  rewrite (proj1 time_ago_format 1700003725500 1700000000) by lia.
  vm_compute. reflexivity.
Defined.

End TimeAgoFacts.

Module AmountFacts.
Import JS NumberFacts StringFacts DivisionFacts ClampFacts IntegerFacts.
Import DigitsFacts IntegerStringFacts FloorFacts RemainderFacts SignFacts.
Import ExactFacts WindowFacts.
Local Open Scope Z_scope.

(** The binary64 quotient of the integer [a] by the integer [T], as a
    mantissa [m] over [P = 2^p]: it is within [2 / A] of [a / T], where
    [A >= 2 T] is a multiple of [P]. *)
Lemma quotient_by (a T : Z) (y : number) :
  0 < a < 2 ^ 51 -> represents y T ->
  exists (m : positive) (p J A : Z),
    Prim2SF (of_int a / y)%float = S754_finite false m (- p)
    /\ 0 < p /\ 0 < J /\ A = 2 ^ p * J /\ 2 * T <= A
    /\ a * A - 2 * T <= Zpos m * J * T <= a * A + T.
Proof.
  intros Ha (my & ey & Hy & Hey & Vy & Ny).
  destruct (of_int_represents a) as (mx & ex & Hx & Hex & Vx & Nx); [lia|].
  assert (Px : 0 < 2 ^ (- ex)) by (apply Z.pow_pos_nonneg; lia).
  assert (Py : 0 < 2 ^ (- ey)) by (apply Z.pow_pos_nonneg; lia).
  assert (HT : 0 < T) by nia.
  assert (Hsh : 2 <= - ex).
  { destruct (Z_lt_le_dec (- ex) 2) as [L|L]; [|exact L]. exfalso.
    assert (2 ^ (- ex) <= 2 ^ 1) by (apply Z.pow_le_mono_r; lia).
    change (2 ^ 1) with 2 in H.
    assert (a * 2 ^ (- ex) <= a * 2) by (apply Z.mul_le_mono_nonneg_l; lia).
    lia. }
  destruct (SF64div_normal mx my ex ey Nx Ny)
    as (m & kk & j & E & Hkk & Hj & B); [lia|].
  pose proof (FloatAxioms.div_spec (of_int a) y) as D.
  rewrite Hx, Hy, E in D.
  set (sh := - ex) in *. set (b := - ey) in *.
  set (p := sh - b + 53 - kk - j).
  exists m, p, (2 ^ j), (2 ^ (sh - b + 53 - kk)).
  assert (Jpos : 0 < 2 ^ j) by (apply Z.pow_pos_nonneg; lia).
  assert (Kpos : 0 < 2 ^ kk) by (apply Z.pow_pos_nonneg; lia).
  split; [rewrite D; f_equal; unfold p; lia|].
  split; [unfold p; lia|]. split; [exact Jpos|].
  split; [unfold p; rewrite <- Z.pow_add_r by lia; f_equal; lia|].
  set (A := 2 ^ (sh - b + 53 - kk)).
  set (W := 2 ^ (sh - b + 53)).
  assert (HW : W = A * 2 ^ kk).
  { unfold W, A. rewrite <- Z.pow_add_r by lia. f_equal. lia. }
  assert (Apos : 0 < A) by (apply Z.pow_pos_nonneg; lia).
  assert (HA2T : 2 * T <= A).
  { assert (S : 2 ^ (53 - b) * 2 ^ b = 2 ^ 53)
      by (rewrite <- Z.pow_add_r by lia; f_equal; lia).
    assert (T < 2 ^ (53 - b)).
    { apply (Z.mul_lt_mono_pos_r (2 ^ b)); [lia|]. rewrite S, <- Vy. lia. }
    assert (2 ^ (54 - b) <= A) by (apply Z.pow_le_mono_r; lia).
    assert (2 ^ (54 - b) = 2 * 2 ^ (53 - b)).
    { replace (54 - b) with (1 + (53 - b)) by lia.
      rewrite Z.pow_add_r by lia. reflexivity. }
    lia. }
  split; [exact HA2T|].
  assert (Hmz : Zpos mx * 2 ^ 53 / Zpos my = a * W / T).
  { rewrite Vx, Vy.
    replace (a * 2 ^ sh * 2 ^ 53) with (a * W * 2 ^ b).
    - apply Z.div_mul_cancel_r; lia.
    - unfold W. rewrite <- !Z.mul_assoc, <- !Z.pow_add_r by lia.
      f_equal. f_equal. lia. }
  rewrite Hmz in B. set (mz := a * W / T) in *.
  set (q2 := mz / 2 ^ kk) in *.
  (* the two floors *)
  pose proof (Z.div_mod (a * W) T ltac:(lia)) as D1.
  pose proof (Z.mod_pos_bound (a * W) T ltac:(lia)) as M1.
  fold mz in D1.
  pose proof (Z.div_mod mz (2 ^ kk) ltac:(lia)) as D2.
  pose proof (Z.mod_pos_bound mz (2 ^ kk) ltac:(lia)) as M2.
  fold q2 in D2.
  set (r1 := (a * W) mod T) in *. set (r2 := mz mod 2 ^ kk) in *.
  assert (K12 : 1 <= 2 ^ kk <= 2) by (destruct Hkk as [-> | ->]; simpl; lia).
  assert (Hq : q2 * 2 ^ kk * T = a * A * 2 ^ kk - r1 - r2 * T).
  { rewrite HW in D1.
    replace (a * A * 2 ^ kk) with (a * (A * 2 ^ kk)) by ring.
    rewrite D1. rewrite D2 at 1. ring. }
  assert (Hr2 : 0 <= r2 * T <= (2 ^ kk - 1) * T).
  { split; [apply Z.mul_nonneg_nonneg; lia|].
    apply Z.mul_le_mono_nonneg_r; lia. }
  assert (HTk : T * 2 ^ kk <= 2 * T * 2 ^ kk /\ T <= T * 2 ^ kk).
  { split; [apply Z.mul_le_mono_nonneg_r; lia|].
    rewrite <- (Z.mul_1_r T) at 1. apply Z.mul_le_mono_nonneg_l; lia. }
  split.
  - apply Z.le_trans with (q2 * T); [|apply Z.mul_le_mono_nonneg_r; lia].
    apply (Z.mul_le_mono_pos_r _ _ (2 ^ kk)); [lia|].
    replace (q2 * T * 2 ^ kk) with (q2 * 2 ^ kk * T) by ring.
    rewrite Hq. lia.
  - apply Z.le_trans with ((q2 + 1) * T);
      [apply Z.mul_le_mono_nonneg_r; lia|].
    apply (Z.mul_le_mono_pos_r _ _ (2 ^ kk)); [lia|].
    replace ((q2 + 1) * T * 2 ^ kk) with (q2 * 2 ^ kk * T + T * 2 ^ kk)
      by ring.
    rewrite Hq. lia.
Qed.

(** [toFixed] of a positive number with a negative exponent, which is
    below [2^53]. *)
Lemma toFixed_finite_small (x : number) (f : nat) (m : positive) (e : Z) :
  Prim2SF x = S754_finite false m e -> e < 0 ->
  toFixed x f = fixed_string f (nearest_scaled f m e).
Proof.
  intros Hx He. unfold toFixed. rewrite Hx. cbn [append].
  assert (G : geb (abs x) 1e21 = false).
  { unfold geb. rewrite FloatAxioms.leb_spec, FloatAxioms.abs_spec, Hx.
    set (c := Prim2SF 1e21). vm_compute in c. subst c.
    unfold SFabs, SFleb. rewrite SFcompare_finite.
    destruct (Z.compare_spec 17 e); [lia|lia|reflexivity]. }
  now rewrite G.
Qed.

(** The integer [a] divided by the integer [T] and written with [f]
    decimals is [a] rounded to the nearest multiple of [2 G'], where
    [10^f * 2 G' = T], unless [a] is half-way between two. *)
Lemma quotient_rounded (a T : Z) (y : number) (f : nat) (G' : Z) :
  0 < a < 2 ^ 51 -> represents y T -> 0 < G' -> pow10 f * (2 * G') = T ->
  a mod (2 * G') <> G' ->
  toFixed (of_int a / y)%float f = fixed_string f ((a + G') / (2 * G')).
Proof.
  intros Ha Ry HG HT Hnt.
  destruct (quotient_by a T y Ha Ry)
    as (m & p & J & A & Hq & Hp & HJ & HA & HA2T & Hlo & Hhi).
  rewrite (toFixed_finite_small _ f m (- p) Hq) by lia.
  f_equal. rewrite nearest_scaled_neg by lia.
  rewrite Z.opp_involutive.
  set (P := 2 ^ p) in *. set (F := pow10 f) in *.
  assert (Ppos : 0 < P) by (apply Z.pow_pos_nonneg; lia).
  assert (Fpos : 0 < F) by (apply Z.pow_pos_nonneg; lia).
  replace (2 ^ (p + 1)) with (2 * P)
    by (unfold P; rewrite Z.pow_add_r by lia; change (2 ^ 1) with 2; ring).
  set (R := (a + G') / (2 * G')).
  pose proof (Z.div_mod (a + G') (2 * G') ltac:(lia)) as Hdm.
  pose proof (Z.mod_pos_bound (a + G') (2 * G') ltac:(lia)) as Hmod.
  fold R in Hdm. set (r := (a + G') mod (2 * G')) in *.
  assert (Hr : r <> 0).
  { intros Hr0. apply Hnt.
    assert (E : a = G' + (R - 1) * (2 * G')) by lia.
    rewrite E, Z.mod_add by lia. apply Z.mod_small. lia. }
  assert (HR : 0 <= R) by (apply Z.div_pos; lia).
  set (M := Zpos m * J) in *.
  assert (HMT : M * T = 2 * M * F * G') by (rewrite <- HT; ring).
  assert (Ha_lo : ((2 * R - 1) * G' + 1) * A <= a * A)
    by (apply Z.mul_le_mono_nonneg_r; lia).
  assert (Ha_hi : a * A <= ((2 * R + 1) * G' - 1) * A)
    by (apply Z.mul_le_mono_nonneg_r; lia).
  assert (Tpos : 0 < T).
  { rewrite <- HT. apply Z.mul_pos_pos; lia. }
  assert (Lo : (2 * R - 1) * A * G' <= 2 * M * F * G').
  { rewrite <- HMT.
    replace ((2 * R - 1) * A * G') with (((2 * R - 1) * G' + 1) * A - A)
      by ring.
    lia. }
  assert (Hi : 2 * M * F * G' < (2 * R + 1) * A * G').
  { rewrite <- HMT.
    replace ((2 * R + 1) * A * G') with (((2 * R + 1) * G' - 1) * A + A)
      by ring.
    lia. }
  assert (Lo' : (2 * R - 1) * P <= 2 * Zpos m * F).
  { apply (Z.mul_le_mono_pos_r _ _ (J * G')); [apply Z.mul_pos_pos; lia|].
    replace ((2 * R - 1) * P * (J * G')) with ((2 * R - 1) * A * G')
      by (rewrite HA; ring).
    replace (2 * Zpos m * F * (J * G')) with (2 * M * F * G')
      by (unfold M; ring).
    exact Lo. }
  assert (Hi' : 2 * Zpos m * F < (2 * R + 1) * P).
  { apply (Z.mul_lt_mono_pos_r (J * G')); [apply Z.mul_pos_pos; lia|].
    replace ((2 * R + 1) * P * (J * G')) with ((2 * R + 1) * A * G')
      by (rewrite HA; ring).
    replace (2 * Zpos m * F * (J * G')) with (2 * M * F * G')
      by (unfold M; ring).
    exact Hi. }
  symmetry.
  apply (Z.div_unique_pos _ _ _ (2 * Zpos m * F + P - 2 * P * R)); lia.
Qed.

(** Amounts in atomic units (a whole number below [2^51], about 2251
    coins) are displayed correctly rounded: the exported [formatXMR] writes
    the amount rounded to the nearest [10^4] atomic units with 8 decimals,
    the chain visualisation's own the amount rounded to the nearest [10^8]
    with 4 decimals, a half-way amount apart; the division by [10^12] in
    binary64 loses nothing of what is displayed.  A multiple of [10^4] can
    be read back exactly from the 8 decimals. *)
Theorem atomic_amounts_rounded (a : Z) :
  0 < a < 2 ^ 51 ->
  (a mod 10 ^ 4 <> 5000 ->
   Formatters.formatXMR (Some (of_int a))
   = fixed_string 8 ((a + 5000) / 10 ^ 4))
  /\ (a mod 10 ^ 8 <> 50000000 ->
      ChainVisual.formatXMR (Some (of_int a))
      = fixed_string 4 ((a + 50000000) / 10 ^ 8))
  /\ (a mod 10 ^ 4 = 0 ->
      exists whole frac : string,
        Formatters.formatXMR (Some (of_int a)) = whole ++ "." ++ frac
        /\ String.length frac = 8%nat
        /\ all_digits whole = true /\ all_digits frac = true
        /\ (numeral_value whole * 10 ^ 8 + numeral_value frac) * 10 ^ 4 = a).
Proof.
  intros Ha.
  assert (Ht : truthy (of_int a) = true).
  { apply (represents_truthy _ a). apply of_int_represents. lia. }
  assert (H8 : a mod 10 ^ 4 <> 5000 ->
               Formatters.formatXMR (Some (of_int a))
               = fixed_string 8 ((a + 5000) / 10 ^ 4)).
  { intros Hnt. unfold Formatters.formatXMR. rewrite Ht. cbn [negb].
    apply (quotient_rounded a (10 ^ 12) 1e12 8 5000 Ha);
      [apply (of_int_represents (10 ^ 12)); lia|lia|reflexivity|exact Hnt]. }
  split; [exact H8|]. split.
  { intros Hnt. unfold ChainVisual.formatXMR. rewrite Ht. cbn [negb].
    apply (quotient_rounded a (10 ^ 12) 1e12 4 50000000 Ha);
      [apply (of_int_represents (10 ^ 12)); lia|lia|reflexivity|exact Hnt]. }
  intros Hmul. rewrite H8 by lia.
  assert (Hq : 0 <= (a + 5000) / 10 ^ 4) by (apply Z.div_pos; lia).
  destruct (fixed_string_value 8 ((a + 5000) / 10 ^ 4) Hq)
    as (whole & frac & E & L & Dw & Df & V); [discriminate|].
  exists whole, frac. split; [exact E|]. split; [exact L|].
  split; [exact Dw|]. split; [exact Df|].
  change (pow10 8) with (10 ^ 8) in V. rewrite V.
  pose proof (Z.div_mod a (10 ^ 4) ltac:(lia)) as Hdm. rewrite Hmul in Hdm.
  assert (E4 : (a + 5000) / 10 ^ 4 = a / 10 ^ 4).
  { symmetry. apply (Z.div_unique_pos _ _ _ 5000); lia. }
  rewrite E4. lia.
Qed.

(** A block reward of 0.6 coins, and an amount with all 12 decimals. *)
Lemma atomic_amounts_rounded_witness :
  Formatters.formatXMR (Some (of_int 600000000000)) = "0.60000000"
  /\ Formatters.formatXMR (Some (of_int 1234567891234)) = "1.23456789"
  /\ ChainVisual.formatXMR (Some (of_int 1234567891234)) = "1.2346".
Proof.
  destruct (atomic_amounts_rounded 600000000000 ltac:(lia)) as (H8 & _ & _).
  destruct (atomic_amounts_rounded 1234567891234 ltac:(lia))
    as (H8' & H4' & _).
  split; [rewrite H8 by (vm_compute; discriminate); vm_compute; reflexivity|].
  split; [rewrite H8' by (vm_compute; discriminate); vm_compute; reflexivity|].
  rewrite H4' by (vm_compute; discriminate). vm_compute. reflexivity.
Defined.

End AmountFacts.

Module EtaFacts.
Import JS NumberFacts StringFacts DivisionFacts ClampFacts IntegerFacts.
Import DigitsFacts IntegerStringFacts FloorFacts RemainderFacts SignFacts.
Import ExactFacts WindowFacts TimeAgoFacts.
Import ChainVisual.
Local Open Scope Z_scope.

(** The estimate of the pending block for a whole difficulty [D] below
    [2^51] and a whole pool hash rate [H]: the seconds are the integer
    quotient [D / H] and the minutes displayed its integer quotient by 60;
    the two roundings of the binary64 divisions lose nothing. *)
Theorem pending_eta_whole_minutes
    (currentEffort : nullable) (D H : Z) :
  0 < D < 2 ^ 51 -> 0 < H < 2 ^ 53 ->
  estimatedSeconds (of_int D) (of_int H) = of_int (D / H)
  /\ estimatedMinutes (of_int D) (of_int H) = of_int (D / H / 60)
  /\ pending_eta
       (PendingBlock currentEffort (Some (of_int D)) (Some (of_int H)))
     = "~" ++ digits (D / H / 60) ++ "m ETA".
Proof.
  intros HD HH.
  assert (RD : represents (of_int D) D) by (apply of_int_represents; lia).
  assert (RH : represents (of_int H) H) by (apply of_int_represents; lia).
  assert (Hq : 0 <= D / H < 2 ^ 51).
  { split; [apply Z.div_pos; lia|].
    apply Z.le_lt_trans with D; [|lia].
    apply Z.div_le_upper_bound; [lia|]. nia. }
  assert (Hm : 0 <= D / H / 60 < 2 ^ 53).
  { split; [apply Z.div_pos; lia|].
    apply Z.div_lt_upper_bound; lia. }
  assert (Es : estimatedSeconds (of_int D) (of_int H) = of_int (D / H)).
  { unfold estimatedSeconds.
    rewrite (represents_truthy _ _ RD), (represents_truthy _ _ RH).
    cbn [andb]. apply floor_quotient; [exact RD|exact RH|lia]. }
  assert (Em : estimatedMinutes (of_int D) (of_int H) = of_int (D / H / 60)).
  { unfold estimatedMinutes. rewrite Es.
    apply (of_int_floor_div (D / H) 60); lia. }
  split; [exact Es|]. split; [exact Em|].
  cbn [PendingBlock pending_eta nullish_zero].
  now rewrite Em, toString_nonneg by lia.
Qed.

(** A difficulty of 360 000 000 000 against 1 GH/s: 360 seconds, 6
    minutes. *)
Lemma pending_eta_whole_minutes_witness :
  pending_eta
    (PendingBlock Undefined (Some (of_int 360000000000)) (Some (of_int 1000000000)))
  = "~6m ETA".
Proof.
  rewrite (proj2 (proj2 (pending_eta_whole_minutes Undefined 360000000000
                           1000000000 ltac:(lia) ltac:(lia)))).
  vm_compute. reflexivity.
Defined.

End EtaFacts.

Module HashRateFacts.
Import JS NumberFacts StringFacts DivisionFacts ClampFacts IntegerFacts.
Import DigitsFacts IntegerStringFacts FloorFacts RemainderFacts SignFacts.
Import ExactFacts WindowFacts AmountFacts.
Import Formatters.
Local Open Scope Z_scope.

Lemma represents_leb (x y : number) (nx ny : Z) :
  represents x nx -> represents y ny -> (x <=? y)%float = (nx <=? ny).
Proof.
  intros Hx Hy. rewrite FloatAxioms.leb_spec. unfold SFleb.
  rewrite (represents_compare x y nx ny Hx Hy). unfold Z.leb.
  now destruct (nx ?= ny).
Qed.

(** The lowest [f] digits of a multiple of [10^f] are zeros. *)
Lemma fixed_digits_scaled (f : nat) (h : Z) :
  fixed_digits f (h * pow10 f) = zeros f.
Proof.
  revert h. induction f as [|f IH]; intros h; [reflexivity|].
  cbn [fixed_digits]. unfold pow10 in *.
  rewrite Nat2Z.inj_succ, Z.pow_succ_r by lia.
  replace (h * (10 * 10 ^ Z.of_nat f)) with (h * 10 ^ Z.of_nat f * 10) by ring.
  rewrite Z.div_mul by lia. rewrite IH.
  unfold digit. rewrite Z.mod_mul by lia.
  now rewrite zeros_snoc.
Qed.

(** [toFixed] writes a positive integer below [2^52] as its digits and [f]
    zeros. *)
Lemma toFixed_integer (h : Z) (f : nat) :
  0 < h < 2 ^ 52 -> f <> O ->
  toFixed (of_int h) f = digits h ++ "." ++ zeros f.
Proof.
  intros Hh Hf.
  destruct (of_int_represents h) as (m & e & Hx & He & Hm & Hnorm); [lia|].
  assert (P : 0 < 2 ^ (- e)) by (apply Z.pow_pos_nonneg; lia).
  assert (Hneg : e < 0).
  { destruct (Z.eq_dec e 0) as [->|]; [|lia]. simpl in Hm. lia. }
  rewrite (toFixed_finite_small _ f m e Hx Hneg).
  rewrite nearest_scaled_neg by lia.
  assert (F : 0 < pow10 f) by (apply Z.pow_pos_nonneg; lia).
  assert (E : (2 * Zpos m * pow10 f + 2 ^ (- e)) / 2 ^ (- e + 1)
              = h * pow10 f).
  { rewrite Z.pow_add_r by lia. change (2 ^ 1) with 2.
    symmetry. apply (Z.div_unique_pos _ _ _ (2 ^ (- e))); [lia|].
    rewrite Hm. ring. }
  rewrite E. unfold fixed_string. destruct f as [|f]; [congruence|].
  rewrite Z.div_mul by lia. now rewrite fixed_digits_scaled.
Qed.

(** The thresholds as integers. *)
Lemma geb_threshold (h t : Z) :
  0 < h < 2 ^ 53 -> 0 < t < 2 ^ 53 ->
  geb (of_int h) (of_int t) = (t <=? h).
Proof.
  intros Hh Ht. unfold geb.
  apply represents_leb; apply of_int_represents; lia.
Qed.

(** Whole hash rates below [2^51] are displayed correctly rounded: below
    1000 H/s as the rate itself with two zero decimals, and from there on
    as the rate rounded to the nearest hundredth of its unit (10 H/s for
    KH/s, [10^4] for MH/s, [10^7] for GH/s, [10^10] for TH/s), a rate
    half-way between two hundredths apart. *)
Theorem hash_rate_rounded (h : Z) :
  0 < h < 2 ^ 51 ->
  (h < 10 ^ 3 -> formatHashRate (Some (of_int h)) = digits h ++ ".00 H/s")
  /\ (10 ^ 3 <= h < 10 ^ 6 -> h mod 10 <> 5 ->
      formatHashRate (Some (of_int h))
      = fixed_string 2 ((h + 5) / 10) ++ " KH/s")
  /\ (10 ^ 6 <= h < 10 ^ 9 -> h mod 10 ^ 4 <> 5000 ->
      formatHashRate (Some (of_int h))
      = fixed_string 2 ((h + 5000) / 10 ^ 4) ++ " MH/s")
  /\ (10 ^ 9 <= h < 10 ^ 12 -> h mod 10 ^ 7 <> 5000000 ->
      formatHashRate (Some (of_int h))
      = fixed_string 2 ((h + 5000000) / 10 ^ 7) ++ " GH/s")
  /\ (10 ^ 12 <= h -> h mod 10 ^ 10 <> 5000000000 ->
      formatHashRate (Some (of_int h))
      = fixed_string 2 ((h + 5000000000) / 10 ^ 10) ++ " TH/s").
Proof.
  intros Hh.
  assert (Ht : truthy (of_int h) = true).
  { apply (represents_truthy _ h). apply of_int_represents. lia. }
  assert (G12 : geb (of_int h) 1e12 = (10 ^ 12 <=? h))
    by (apply (geb_threshold h (10 ^ 12)); lia).
  assert (G9 : geb (of_int h) 1e9 = (10 ^ 9 <=? h))
    by (apply (geb_threshold h (10 ^ 9)); lia).
  assert (G6 : geb (of_int h) 1e6 = (10 ^ 6 <=? h))
    by (apply (geb_threshold h (10 ^ 6)); lia).
  assert (G3 : geb (of_int h) 1e3 = (10 ^ 3 <=? h))
    by (apply (geb_threshold h (10 ^ 3)); lia).
  unfold formatHashRate. rewrite Ht, G12, G9, G6, G3. cbn [negb].
  assert (Q : forall (T : Z) (y : number) (G' : Z),
            y = of_int T -> 0 < T < 2 ^ 53 -> 0 < G' ->
            pow10 2 * (2 * G') = T -> h mod (2 * G') <> G' ->
            toFixed (of_int h / y)%float 2
            = fixed_string 2 ((h + G') / (2 * G'))).
  { intros T y G' -> HT HG HF Hnt.
    apply (quotient_rounded h T (of_int T) 2 G' Hh);
      [apply of_int_represents; lia|exact HG|exact HF|exact Hnt]. }
  split.
  { intros Hlt.
    replace (10 ^ 12 <=? h) with false by (symmetry; apply Z.leb_gt; lia).
    replace (10 ^ 9 <=? h) with false by (symmetry; apply Z.leb_gt; lia).
    replace (10 ^ 6 <=? h) with false by (symmetry; apply Z.leb_gt; lia).
    replace (10 ^ 3 <=? h) with false by (symmetry; apply Z.leb_gt; lia).
    rewrite toFixed_integer by (lia || discriminate).
    now rewrite !append_assoc. }
  split.
  { intros Hr Hnt.
    replace (10 ^ 12 <=? h) with false by (symmetry; apply Z.leb_gt; lia).
    replace (10 ^ 9 <=? h) with false by (symmetry; apply Z.leb_gt; lia).
    replace (10 ^ 6 <=? h) with false by (symmetry; apply Z.leb_gt; lia).
    replace (10 ^ 3 <=? h) with true by (symmetry; apply Z.leb_le; lia).
    now rewrite (Q (10 ^ 3) 1e3%float 5) by (reflexivity || lia || exact Hnt). }
  split.
  { intros Hr Hnt.
    replace (10 ^ 12 <=? h) with false by (symmetry; apply Z.leb_gt; lia).
    replace (10 ^ 9 <=? h) with false by (symmetry; apply Z.leb_gt; lia).
    replace (10 ^ 6 <=? h) with true by (symmetry; apply Z.leb_le; lia).
    now rewrite (Q (10 ^ 6) 1e6%float 5000) by (reflexivity || lia || exact Hnt). }
  split.
  { intros Hr Hnt.
    replace (10 ^ 12 <=? h) with false by (symmetry; apply Z.leb_gt; lia).
    replace (10 ^ 9 <=? h) with true by (symmetry; apply Z.leb_le; lia).
    now rewrite (Q (10 ^ 9) 1e9%float 5000000) by (reflexivity || lia || exact Hnt). }
  intros Hr Hnt.
  replace (10 ^ 12 <=? h) with true by (symmetry; apply Z.leb_le; lia).
  now rewrite (Q (10 ^ 12) 1e12%float 5000000000) by (reflexivity || lia || exact Hnt).
Qed.

(** 2 504 999 H/s reads 2.50 MH/s, 999 999 H/s reads 1000.00 KH/s. *)
Lemma hash_rate_rounded_witness :
  formatHashRate (Some (of_int 2504999)) = "2.50 MH/s"
  /\ formatHashRate (Some (of_int 999999)) = "1000.00 KH/s"
  /\ formatHashRate (Some (of_int 999)) = "999.00 H/s".
Proof.
  destruct (hash_rate_rounded 2504999 ltac:(lia)) as (_ & _ & HM & _).
  destruct (hash_rate_rounded 999999 ltac:(lia)) as (_ & HK & _).
  destruct (hash_rate_rounded 999 ltac:(lia)) as (HH & _).
  split.
  { rewrite HM by (lia || (vm_compute; discriminate)).
    vm_compute. reflexivity. }
  split.
  { rewrite HK by (lia || (vm_compute; discriminate)).
    vm_compute. reflexivity. }
  rewrite HH by lia. vm_compute. reflexivity.
Defined.

End HashRateFacts.

Module ChartTooltipFacts.
Import JS NumberFacts StringFacts DivisionFacts ClampFacts IntegerFacts.
Import AmountFacts.
Import Index IndexFacts.
Local Open Scope Z_scope.

(** The tooltip of the hash-rate chart.  The point at position [k] of the
    series comes from the point at position [k] of the last 48 raw points;
    for a whole hash rate [hs] below [2^51] its tooltip is [hs] in MH/s
    correctly rounded to two decimals (a rate half-way between two
    hundredths apart), in MH/s whatever the magnitude. *)
Theorem chart_tooltip_rounded
    (toLocaleHourMinute : number -> string)
    (points : list ChartPoint) (k : nat) (point : ChartPoint) (rate : Z) :
  nth_error (slice_last 48 points) k = Some point ->
  hs point = of_int rate -> 0 < rate < 2 ^ 51 -> rate mod 10 ^ 4 <> 5000 ->
  exists shown : ChartSeriesPoint,
    nth_error (processedChartData toLocaleHourMinute (Some points)) k
    = Some shown
    /\ time shown = toLocaleHourMinute (ts point)
    /\ tooltipFormatter (pool shown)
       = (fixed_string 2 ((rate + 5000) / 10 ^ 4) ++ " MH/s",
          "Pool Hash Rate").
Proof.
  intros Hk Hhs Hrate Hnt.
  unfold processedChartData. rewrite slice_last_map, nth_error_map, Hk.
  cbn [option_map]. eexists. split; [reflexivity|].
  cbn [time pool]. split; [reflexivity|].
  unfold tooltipFormatter. f_equal. f_equal. rewrite Hhs.
  apply (quotient_rounded rate (10 ^ 6) 1e6%float 2 5000 Hrate);
    [apply (of_int_represents (10 ^ 6)); lia|lia|reflexivity|exact Hnt].
Qed.

(** A pool hash rate of 2 504 999 000 H/s: 2505.00 MH/s. *)
Lemma chart_tooltip_rounded_witness :
  exists shown : ChartSeriesPoint,
    nth_error
      (processedChartData toString
         (Some [ {| ts := 1700000000000%float; hs := of_int 2504999000 |} ]))
      0
    = Some shown
    /\ tooltipFormatter (pool shown) = ("2505.00 MH/s", "Pool Hash Rate").
Proof.
  destruct (chart_tooltip_rounded toString
              [ {| ts := 1700000000000%float; hs := of_int 2504999000 |} ]
              0 {| ts := 1700000000000%float; hs := of_int 2504999000 |}
              2504999000 eq_refl eq_refl ltac:(lia)
              ltac:(vm_compute; discriminate))
    as (shown & Hshown & _ & Htip).
  exists shown. split; [exact Hshown|].
  rewrite Htip. vm_compute. reflexivity.
Defined.

End ChartTooltipFacts.
